(** * Fitness Tracker: credential store, goal tracker and analytics engine

    A shallow embedding of [Fitness.py] and of the calorie tracker of
    [fitness_trial.py].  Python values are modelled as follows:
    - [str] is a list of Unicode code points, [bytes] a list of [byte];
    - [float] is an IEEE-754 binary64 number (Rocq's primitive [float]);
    - [int] is [Z];
    - [None] / SQL NULL is [None] of an option type;
    - a raised exception is the [Raise] outcome of the [result] type, and
      [try: ... except Exception:] is a [match] on that outcome;
    - the three SQLite tables are finite maps (primary key [username]) and
      a list of rows (table [daily]); a parameter of a statement is bound
      as the [sqlite3] module binds it: a [str] is encoded as UTF-8, an
      [int] has to fit in 64 bits, a NaN is stored as NULL and a zero of
      either sign is read back from a REAL column as [0.0].
    The library functions the code calls ([hashlib.pbkdf2_hmac], [base64],
    [round], int and float arithmetic) are modelled from their
    specifications. *)

From stdpp Require Import gmap list sorting.
From Stdlib Require Import ZArith NArith Lia Floats Rbase Lra.
From Stdlib.Strings Require Import Byte.
Import ListNotations.

Set Warnings "-inexact-float".
Local Open Scope N_scope.

(** ** Python outcomes *)

Module Py.

Inductive exn :=
| AttributeError | UnicodeEncodeError | BinasciiError
| ZeroDivisionError | OverflowError | ValueError | IntegrityError.

Inductive result (A : Type) :=
| Ok (a : A)
| Raise (e : exn).
Arguments Ok {A} a.
Arguments Raise {A} e.

Definition bind {A B} (r : result A) (k : A -> result B) : result B :=
  match r with
  | Ok a => k a
  | Raise e => Raise e
  end.

(** [try: r except Exception: handler] *)
Definition try_except {A} (r : result A) (handler : A) : result A :=
  match r with
  | Ok a => Ok a
  | Raise _ => Ok handler
  end.

End Py.
Export Py.

Notation "'let*' x ':=' r 'in' k" := (Py.bind r (fun x => k))
  (at level 10, x name, r at level 100, k at level 200).

Abbreviation bytes := (list byte).
Abbreviation pystr := (list N).

#[global] Instance byte_eq_dec : EqDecision byte := Byte.byte_eq_dec.

Definition byte_of_N (n : N) : byte :=
  match Byte.of_N (n mod 256) with
  | Some b => b
  | None => "000"%byte
  end.

(** ** [str.encode('utf-8')] *)

Definition encode_codepoint (c : N) : result bytes :=
  if c <? 0x80 then Ok [byte_of_N c]
  else if c <? 0x800 then
    Ok [byte_of_N (0xC0 + c / 64); byte_of_N (0x80 + c mod 64)]
  else if c <? 0x10000 then
    if (0xD800 <=? c) && (c <=? 0xDFFF) then Raise UnicodeEncodeError
    else Ok [byte_of_N (0xE0 + c / 4096);
             byte_of_N (0x80 + (c / 64) mod 64);
             byte_of_N (0x80 + c mod 64)]
  else if c <? 0x110000 then
    Ok [byte_of_N (0xF0 + c / 262144);
        byte_of_N (0x80 + (c / 4096) mod 64);
        byte_of_N (0x80 + (c / 64) mod 64);
        byte_of_N (0x80 + c mod 64)]
  else Raise UnicodeEncodeError.

Fixpoint encode_utf8 (s : pystr) : result bytes :=
  match s with
  | [] => Ok []
  | c :: s' =>
      let* b := encode_codepoint c in
      let* bs := encode_utf8 s' in
      Ok (b ++ bs)
  end.

(** [bytes.decode('utf-8')] restricted to ASCII input, where every byte is
    the code point of the same value.  It is only applied to the output of
    [b64encode], which is ASCII ([b64encode_ascii] below). *)
Definition decode_ascii (bs : bytes) : pystr := map Byte.to_N bs.

(** ** [base64.b64encode] and [base64.b64decode] (RFC 4648) *)

Module Base64.

Definition alphabet : bytes :=
  Eval vm_compute in
    map byte_of_N
      (map N.of_nat (seq 65 26 ++ seq 97 26 ++ seq 48 10 ++ [43%nat; 47%nat])).

Definition pad : byte := "="%byte.

Definition chr (sextet : N) : byte := nth (N.to_nat sextet) alphabet pad.

(** [table_a2b_base64]: the sextet of an alphabet character *)
Definition val (c : byte) : option N :=
  let n := Byte.to_N c in
  if (65 <=? n) && (n <=? 90) then Some (n - 65)
  else if (97 <=? n) && (n <=? 122) then Some (n - 71)
  else if (48 <=? n) && (n <=? 57) then Some (n + 4)
  else if n =? 43 then Some 62
  else if n =? 47 then Some 63
  else None.

Fixpoint b2a (bs : bytes) : bytes :=
  match bs with
  | [] => []
  | [b1] =>
      let x := Byte.to_N b1 in
      [chr (x / 4); chr ((x mod 4) * 16); pad; pad]
  | [b1; b2] =>
      let x := Byte.to_N b1 in
      let y := Byte.to_N b2 in
      [chr (x / 4); chr ((x mod 4) * 16 + y / 16); chr ((y mod 16) * 4); pad]
  | b1 :: b2 :: b3 :: rest =>
      let x := Byte.to_N b1 in
      let y := Byte.to_N b2 in
      let z := Byte.to_N b3 in
      chr (x / 4) :: chr ((x mod 4) * 16 + y / 16)
        :: chr ((y mod 16) * 4 + z / 64) :: chr (z mod 64) :: b2a rest
  end.

Definition emit (b : byte) (r : result bytes) : result bytes :=
  match r with
  | Ok bs => Ok (b :: bs)
  | Raise e => Raise e
  end.

(** [binascii.a2b_base64] in its default, non-strict mode: characters
    outside the alphabet are skipped, a sufficient run of padding after at
    least two characters of a quad ends the input, and an incomplete quad
    at the end of the input is an error. *)
Fixpoint a2b (input : bytes) (quad_pos : nat) (leftchar pads : N)
  : result bytes :=
  match input with
  | [] =>
      match quad_pos with
      | O => Ok []
      | _ => Raise BinasciiError
      end
  | c :: rest =>
      if bool_decide (c = pad) then
        if (2 <=? quad_pos)%nat then
          if 4 <=? N.of_nat quad_pos + (pads + 1) then Ok []
          else a2b rest quad_pos leftchar (pads + 1)
        else a2b rest quad_pos leftchar pads
      else
        match val c with
        | None => a2b rest quad_pos leftchar pads
        | Some v =>
            match quad_pos with
            | 0%nat => a2b rest 1%nat v 0
            | 1%nat =>
                emit (byte_of_N (leftchar * 4 + v / 16))
                     (a2b rest 2%nat (v mod 16) 0)
            | 2%nat =>
                emit (byte_of_N (leftchar * 16 + v / 4))
                     (a2b rest 3%nat (v mod 4) 0)
            | _ =>
                emit (byte_of_N (leftchar * 64 + v))
                     (a2b rest 0%nat 0 0)
            end
        end
  end.

End Base64.

Definition b64encode (bs : bytes) : bytes := Base64.b2a bs.
Definition b64decode (s : bytes) : result bytes := Base64.a2b s 0 0 0.

(** ** SHA-256 (FIPS 180-4), the hash selected by [HASH_NAME] *)

Module Sha256.

Definition mask32 : N := 0xFFFFFFFF.
Definition w32 (x : N) : N := N.land x mask32.
Definition add32 (x y : N) : N := w32 (x + y).
Definition rotr (n x : N) : N :=
  N.lor (N.shiftr x n) (w32 (N.shiftl x (32 - n))).

Definition Ch (x y z : N) : N :=
  N.lxor (N.land x y) (N.land (N.lxor x mask32) z).
Definition Maj (x y z : N) : N :=
  N.lxor (N.lxor (N.land x y) (N.land x z)) (N.land y z).
Definition Sigma0 (x : N) : N :=
  N.lxor (N.lxor (rotr 2 x) (rotr 13 x)) (rotr 22 x).
Definition Sigma1 (x : N) : N :=
  N.lxor (N.lxor (rotr 6 x) (rotr 11 x)) (rotr 25 x).
Definition sigma0 (x : N) : N :=
  N.lxor (N.lxor (rotr 7 x) (rotr 18 x)) (N.shiftr x 3).
Definition sigma1 (x : N) : N :=
  N.lxor (N.lxor (rotr 17 x) (rotr 19 x)) (N.shiftr x 10).

(** Integer cube root, bit by bit from bit [n - 1] down. *)
Fixpoint icbrt (n : nat) (x r : N) : N :=
  match n with
  | O => r
  | S n' =>
      let r' := r + N.shiftl 1 (N.of_nat n') in
      icbrt n' x (if r' * r' * r' <=? x then r' else r)
  end.

(** The primes up to 311, the first 64, by trial division. *)
Definition is_prime (p : N) : bool :=
  forallb (fun d => (p <=? d) || negb (p mod d =? 0))
          (map N.of_nat (seq 2 16)).

Definition primes : list N :=
  Eval vm_compute in List.filter is_prime (map N.of_nat (seq 2 310)).

(** The round constants: the first 32 bits of the fractional parts of the
    cube roots of the first 64 primes. *)
Definition K : list N :=
  Eval vm_compute in
    map (fun p => icbrt 36 (N.shiftl p 96) 0 mod 4294967296) primes.

(** The eight working variables [a .. h]. *)
Record state := State {
  sa : N; sb : N; sc : N; sd : N; se : N; sf : N; sg : N; sh : N
}.

(** The initial hash value: the first 32 bits of the fractional parts of
    the square roots of the first 8 primes. *)
Definition iv (p : N) : N := N.sqrt (N.shiftl p 64) mod 4294967296.

Definition H0 : state :=
  Eval vm_compute in
    State (iv 2) (iv 3) (iv 5) (iv 7) (iv 11) (iv 13) (iv 17) (iv 19).

Definition be32 (x : N) : bytes :=
  [byte_of_N (x / 16777216); byte_of_N (x / 65536);
   byte_of_N (x / 256); byte_of_N x].

Definition be64 (x : N) : bytes :=
  be32 (x / 4294967296) ++ be32 (x mod 4294967296).

Fixpoint words_of_bytes (bs : bytes) : list N :=
  match bs with
  | b0 :: b1 :: b2 :: b3 :: rest =>
      (Byte.to_N b0 * 16777216 + Byte.to_N b1 * 65536
       + Byte.to_N b2 * 256 + Byte.to_N b3) :: words_of_bytes rest
  | _ => []
  end.

(** Message schedule: [rw] holds the words computed so far, latest
    first. *)
Fixpoint schedule (n : nat) (rw : list N) : list N :=
  match n with
  | O => rev rw
  | S n' =>
      let w :=
        add32 (add32 (sigma1 (nth 1 rw 0)) (nth 6 rw 0))
              (add32 (sigma0 (nth 14 rw 0)) (nth 15 rw 0)) in
      schedule n' (w :: rw)
  end.

Definition round (s : state) (kw : N * N) : state :=
  let t1 :=
    add32 (add32 (add32 (sh s) (Sigma1 (se s))) (Ch (se s) (sf s) (sg s)))
          (add32 (fst kw) (snd kw)) in
  let t2 := add32 (Sigma0 (sa s)) (Maj (sa s) (sb s) (sc s)) in
  State (add32 t1 t2) (sa s) (sb s) (sc s)
        (add32 (sd s) t1) (se s) (sf s) (sg s).

Definition compress (s : state) (block : bytes) : state :=
  let w := schedule 48 (rev (words_of_bytes block)) in
  let r := fold_left round (combine K w) s in
  State (add32 (sa s) (sa r)) (add32 (sb s) (sb r))
        (add32 (sc s) (sc r)) (add32 (sd s) (sd r))
        (add32 (se s) (se r)) (add32 (sf s) (sf r))
        (add32 (sg s) (sg r)) (add32 (sh s) (sh r)).

Definition padding (len : nat) : bytes :=
  let zeros := ((55 + (64 - len mod 64)) mod 64)%nat in
  "128"%byte :: repeat "000"%byte zeros ++ be64 (8 * N.of_nat len).

Fixpoint blocks (n : nat) (s : state) (bs : bytes) : state :=
  match n with
  | O => s
  | S n' => blocks n' (compress s (take 64 bs)) (drop 64 bs)
  end.

Definition digest_bytes (s : state) : bytes :=
  be32 (sa s) ++ be32 (sb s) ++ be32 (sc s) ++ be32 (sd s)
  ++ be32 (se s) ++ be32 (sf s) ++ be32 (sg s) ++ be32 (sh s).

Definition sha256 (msg : bytes) : bytes :=
  let padded := msg ++ padding (length msg) in
  digest_bytes (blocks (length padded / 64) H0 padded).

Definition digest_size : nat := 32.
Definition block_size : nat := 64.

End Sha256.

(** ** HMAC (RFC 2104) and [hashlib.pbkdf2_hmac] (RFC 8018) *)

Definition xor_byte (a b : byte) : byte :=
  byte_of_N (N.lxor (Byte.to_N a) (Byte.to_N b)).

Fixpoint xor_bytes (x y : bytes) : bytes :=
  match x, y with
  | a :: x', b :: y' => xor_byte a b :: xor_bytes x' y'
  | _, _ => []
  end.

(** The key block of HMAC: a key longer than the block size is replaced
    by its digest, and the key is then padded with zero bytes to the block
    size. *)
Definition hmac_key (key : bytes) : bytes :=
  let k :=
    if (Sha256.block_size <? length key)%nat then Sha256.sha256 key
    else key in
  k ++ repeat "000"%byte (Sha256.block_size - length k).

Definition hmac_with (k0 msg : bytes) : bytes :=
  Sha256.sha256
    (map (xor_byte "092"%byte) k0
     ++ Sha256.sha256 (map (xor_byte "054"%byte) k0 ++ msg)).

Definition hmac (key msg : bytes) : bytes := hmac_with (hmac_key key) msg.

(** One step [U_j = PRF(P, U_(j-1))], [T = T xor U_j] of the PBKDF2 block
    function. *)
Definition pbkdf2_step (k0 : bytes) (ut : bytes * bytes) : bytes * bytes :=
  let u := hmac_with k0 (fst ut) in
  (u, xor_bytes (snd ut) u).

(** Block [i] of PBKDF2: [U_1 = PRF(P, salt || INT(i))], then
    [iterations - 1] further steps. *)
Definition pbkdf2_block (k0 salt : bytes) (iterations i : N) : bytes :=
  let u1 := hmac_with k0 (salt ++ Sha256.be32 i) in
  snd (N.iter (iterations - 1) (pbkdf2_step k0) (u1, u1)).

(** [hashlib.pbkdf2_hmac('sha256', password, salt, iterations)] with the
    default [dklen], the digest size: the derived key is the first block. *)
Definition pbkdf2_hmac (password salt : bytes) (iterations : N) : bytes :=
  pbkdf2_block (hmac_key password) salt iterations 1.

(** ** Password hashing ([Fitness.py], lines 31-50) *)

Definition SALT_BYTES : nat := 16.
Definition HASH_ITERS : N := 200000.

Definition hash_password (password : pystr) (salt : bytes) : result pystr :=
  let* pw := encode_utf8 password in
  let dk := pbkdf2_hmac pw salt HASH_ITERS in
  Ok (decode_ascii (b64encode (salt ++ dk))).

(** [secrets.compare_digest] on two [bytes] objects: equality, computed in
    time independent of the contents. *)
Definition compare_digest (a b : bytes) : bool := bool_decide (a = b).

(** The body of the [try] block of [verify_password].  [stored_hash] is
    [None] when the column read from the database is NULL. *)
Definition verify_password_body (stored_hash : option pystr)
    (password_attempt : pystr) : result bool :=
  let* stored :=
    match stored_hash with
    | Some s => Ok s
    | None => Raise AttributeError
    end in
  let* encoded := encode_utf8 stored in
  let* raw := b64decode encoded in
  let salt := take SALT_BYTES raw in
  let stored_dk := drop SALT_BYTES raw in
  let* attempt := encode_utf8 password_attempt in
  let attempt_dk := pbkdf2_hmac attempt salt HASH_ITERS in
  Ok (compare_digest stored_dk attempt_dk).

Definition verify_password (stored_hash : option pystr)
    (password_attempt : pystr) : result bool :=
  try_except (verify_password_body stored_hash password_attempt) false.

(** ** Python numbers *)

(** The [float] nearest to an [int] [n], ties to even: the value of
    [float(n)] when it returns.  It is used as it stands on list lengths,
    indexes and integers read from a 64-bit INTEGER column, which are
    within the range of a double; [float_of_int] below is the conversion
    with its [OverflowError]. *)
Definition float_of_Z (n : Z) : float :=
  SF2Prim (binary_normalize prec emax n 0 false).

(** Truth value of a [float]: zero (of either sign) is false, NaN is true. *)
Definition float_truthy (x : float) : bool := negb (x =? 0)%float.

(** Truth value of an optional [str]: [None] and the empty string are
    false. *)
Definition truthy_str (v : option pystr) : bool :=
  match v with
  | Some (_ :: _) => true
  | _ => false
  end.

(** [x / y] on floats. *)
Definition float_div (x y : float) : result float :=
  if (y =? 0)%float then Raise ZeroDivisionError else Ok (x / y)%float.

(** [x / n] for an int [n]: [n] is converted to [float]; the conversion of
    a non-zero int is not zero. *)
Definition float_div_int (x : float) (n : Z) : result float :=
  if (n =? 0)%Z then Raise ZeroDivisionError
  else Ok (x / float_of_Z n)%float.

(** An integer as an exact, unrounded binary number. *)
Definition SF_of_Z (n : Z) : spec_float :=
  match n with
  | Z0 => S754_zero false
  | Zpos p => S754_finite false p 0
  | Zneg p => S754_finite true p 0
  end.

(** [a / b] on ints: the quotient rounded once to the nearest double. *)
Definition int_truediv (a b : Z) : result float :=
  if (b =? 0)%Z then Raise ZeroDivisionError
  else Ok (SF2Prim (SFdiv prec emax (SF_of_Z a) (SF_of_Z b))).

(** [sum] of floats: added one by one, left to right, to the int [0]
    (CPython 3.11). *)
Definition py_sum (xs : list float) : float :=
  fold_left (fun acc x => (acc + x)%float) xs 0%float.

(** Nearest integer to [num / den], ties to even ([0 < den], [0 <= num]). *)
Definition round_half_even (num den : Z) : Z :=
  let q := (num / den)%Z in
  let r := (num mod den)%Z in
  match (2 * r ?= den)%Z with
  | Lt => q
  | Gt => (q + 1)%Z
  | Eq => if Z.even q then q else (q + 1)%Z
  end.

(** [round(x, ndigits)] for a float and [ndigits >= 0]: the exact value of
    [x] is rounded half-even to [ndigits] decimals, and that decimal is
    converted to the nearest double; NaN and the infinities are returned
    unchanged. *)
Definition py_round (x : float) (ndigits : nat) : float :=
  match Prim2SF x with
  | S754_finite s m e =>
      let p := (10 ^ Z.of_nat ndigits)%Z in
      let r :=
        if (0 <=? e)%Z then (Zpos m * 2 ^ e * p)%Z
        else round_half_even (Zpos m * p) (2 ^ (- e)) in
      match r with
      | Zpos rp =>
          SF2Prim (SFdiv prec emax (S754_finite s rp 0) (SF_of_Z p))
      | _ => if s then (-0)%float else 0%float
      end
  | _ => x
  end.

(** ** The database ([class DB]) *)

(** A table holds SQL values: SQL NULL is [None], a REAL is a [float], an
    INTEGER is a [Z], a TEXT is a [pystr].  The methods of [DB] receive
    Python values, which the [sqlite3] module binds to the parameters of a
    statement one by one, in their order, before the statement runs. *)

(** A [str] is bound as its UTF-8 encoding: a lone surrogate raises. *)
Definition sql_text (s : pystr) : result pystr :=
  let* encoded := encode_utf8 s in Ok s.

(** An [int] is bound as a signed 64-bit integer, or raises. *)
Definition sql_int (n : Z) : result Z :=
  if ((- 2 ^ 63 <=? n) && (n <? 2 ^ 63))%Z then Ok n
  else Raise OverflowError.

(** A [float] is always bound.  What a REAL column gives back for it: NULL
    for a NaN; [0.0] for a zero of either sign (a REAL without fraction is
    kept as an integer); the float itself otherwise. *)
Definition sql_real (x : float) : option float :=
  if PrimFloat.is_nan x then None
  else if (x =? 0)%float then Some 0%float
  else Some x.

(** [None] is bound as NULL. *)
Definition sql_opt {A} (bind_value : A -> result A) (v : option A)
  : result (option A) :=
  match v with
  | None => Ok None
  | Some x => let* y := bind_value x in Ok (Some y)
  end.

Definition sql_opt_real (v : option float) : option float :=
  match v with
  | None => None
  | Some x => sql_real x
  end.

Record user_row := UserRow {
  password_hash : pystr;
  age : option Z;
  height_cm : option float;
  weight_kg : option float;
  security_q : option pystr;
  security_a_hash : option pystr
}.

Record daily_row := DailyRow {
  username : pystr;
  date : pystr;
  sleep_hrs : option float;
  weight : option float;
  calories : option float;
  steps : option Z;
  note : option pystr
}.

Record goals_row := GoalsRow {
  weight_goal : option float;
  steps_goal : option Z;
  calories_goal : option float;
  sleep_goal : option float
}.

Record DB := MkDB {
  users : gmap pystr user_row;
  daily : list daily_row;
  goals : gmap pystr goals_row
}.

(** [SELECT * FROM users WHERE username = ?] *)
Definition get_user (db : DB) (name : pystr) : result (option user_row) :=
  let* name := sql_text name in
  Ok (users db !! name).

(** [UPDATE users SET password_hash = ? WHERE username = ?] *)
Definition set_password (db : DB) (name ph : pystr) : result DB :=
  let* ph := sql_text ph in
  let* name := sql_text name in
  Ok (MkDB
        (alter (fun u => UserRow ph (age u) (height_cm u) (weight_kg u)
                                 (security_q u) (security_a_hash u))
               name (users db))
        (daily db) (goals db)).

(** [INSERT INTO users (username, password_hash, age, height_cm,
    weight_kg, security_q, security_a_hash) VALUES (?, ?, ?, ?, ?, ?, ?)];
    [username] is the primary key. *)
Definition create_user (db : DB) (name ph : pystr) (age_ : option Z)
    (height_ weight_ : option float) (security_q_ security_a_hash_
    : option pystr) : result DB :=
  let* name := sql_text name in
  let* ph := sql_text ph in
  let* age_ := sql_opt sql_int age_ in
  let height_ := sql_opt_real height_ in
  let weight_ := sql_opt_real weight_ in
  let* security_q_ := sql_opt sql_text security_q_ in
  let* security_a_hash_ := sql_opt sql_text security_a_hash_ in
  match users db !! name with
  | Some _ => Raise IntegrityError
  | None =>
      Ok (MkDB (<[name := UserRow ph age_ height_ weight_ security_q_
                                  security_a_hash_]> (users db))
               (daily db) (goals db))
  end.

(** [INSERT INTO daily (username, date, sleep_hrs, weight, calories,
    steps, note) VALUES (?, ?, ?, ?, ?, ?, ?)] *)
Definition add_daily (db : DB) (name date_str : pystr)
    (sleep weight_ calories_ : option float) (steps_ : option Z)
    (note_ : option pystr) : result DB :=
  let* name := sql_text name in
  let* date_str := sql_text date_str in
  let sleep := sql_opt_real sleep in
  let weight_ := sql_opt_real weight_ in
  let calories_ := sql_opt_real calories_ in
  let* steps_ := sql_opt sql_int steps_ in
  let* note_ := sql_opt sql_text note_ in
  Ok (MkDB (users db)
           (daily db
            ++ [DailyRow name date_str sleep weight_ calories_ steps_ note_])
           (goals db)).

(** [SELECT * FROM goals WHERE username = ?] *)
Definition get_goals (db : DB) (name : pystr) : result (option goals_row) :=
  let* name := sql_text name in
  Ok (goals db !! name).

Definition upsert_goals (db : DB) (name : pystr)
    (weight_goal_ : option float) (steps_goal_ : option Z)
    (calories_goal_ sleep_goal_ : option float) : result DB :=
  (* SELECT username FROM goals WHERE username = ? *)
  let* name := sql_text name in
  match goals db !! name with
  | Some _ =>
      (* UPDATE goals SET weight_goal = ?, ... WHERE username = ? *)
      let* steps_goal_ := sql_opt sql_int steps_goal_ in
      Ok (MkDB (users db) (daily db)
               (alter (fun _ => GoalsRow (sql_opt_real weight_goal_)
                                         steps_goal_
                                         (sql_opt_real calories_goal_)
                                         (sql_opt_real sleep_goal_))
                      name (goals db)))
  | None =>
      (* INSERT INTO goals ... *)
      let* steps_goal_ := sql_opt sql_int steps_goal_ in
      Ok (MkDB (users db) (daily db)
               (<[name := GoalsRow (sql_opt_real weight_goal_) steps_goal_
                                   (sql_opt_real calories_goal_)
                                   (sql_opt_real sleep_goal_)]> (goals db)))
  end.

(** ** Body indices *)

Definition calc_bmi_body (weight_kg_ height_cm_ : float) : result float :=
  let* h := float_div height_cm_ 100 in
  let* bmi := float_div weight_kg_ (h * h)%float in
  Ok (py_round bmi 2).

Definition calc_bmi (weight_kg_ height_cm_ : float) : option float :=
  match calc_bmi_body weight_kg_ height_cm_ with
  | Ok v => Some v
  | Raise _ => None
  end.

Inductive category := Unknown | Underweight | Normal | Overweight | Obese.

Definition bmi_category (bmi : option float) : category :=
  match bmi with
  | None => Unknown
  | Some b =>
      if (b <? 18.5)%float then Underweight
      else if (b <? 25)%float then Normal
      else if (b <? 30)%float then Overweight
      else Obese
  end.

Definition male : pystr := [109; 97; 108; 101].

(** An [int] operand of a float operation is converted to [float]; the
    conversion raises when the nearest double would be infinite. *)
Definition float_of_int (n : Z) : result float :=
  if (Z.abs n <? 2 ^ 1024 - 2 ^ 970)%Z then Ok (float_of_Z n)
  else Raise OverflowError.

(** [5*age] is a product of ints, converted when it is subtracted from a
    float. *)
Definition calc_bmr_body (weight_ height_cm_ : float) (age_ : Z)
    (sex : pystr) : result float :=
  let* age5 := float_of_int (5 * age_) in
  let bmr :=
    if bool_decide (sex = male) then
      (10 * weight_ + 6.25 * height_cm_ - age5 + 5)%float
    else
      (10 * weight_ + 6.25 * height_cm_ - age5 - 161)%float
  in Ok (py_round bmr 1).

Definition calc_bmr (weight_ height_cm_ : float) (age_ : Z) (sex : pystr)
  : option float :=
  match calc_bmr_body weight_ height_cm_ age_ sex with
  | Ok v => Some v
  | Raise _ => None
  end.

(** ** The application ([class FitnessApp]) *)

(** What a numeric entry widget holds, seen through the conversion
    ([float] or [int]) the code applies to its text: the text the code
    tests for emptiness is empty (the raw text in [add_entry], the stripped
    text in [_create_account] and [save_goals]); or the conversion of the
    text returns [v]; or it raises [ValueError]. *)
Inductive entry (A : Type) :=
| Blank
| Converts (v : A)
| Invalid.
Arguments Blank {A}.
Arguments Converts {A} v.
Arguments Invalid {A}.

Inductive message :=
| UsernamePasswordRequired | UsernameExists | AccountCreated
| UserNotFound | NoSecurityQuestion | AnswerMismatch | PasswordReset
| PasswordIncorrect | InvalidDate | EntryAdded | GoalsSaved.

(** What the user sees when a callback ends. *)
Inductive notice :=
| Silent
| ErrorBox (m : message)
| InfoBox (m : message)
| Uncaught (e : exn).

(** [int(text) if text else None] *)
Definition convert_if_present {A} (e : entry A) : result (option A) :=
  match e with
  | Blank => Ok None
  | Converts v => Ok (Some v)
  | Invalid => Raise ValueError
  end.

(** [conv(text or 0)], where [zero] is [conv(0)] *)
Definition convert_or_zero {A} (zero : A) (e : entry A) : result A :=
  match e with
  | Blank => Ok zero
  | Converts v => Ok v
  | Invalid => Raise ValueError
  end.

(** [try: v = ... except: v = None] *)
Definition none_on_error {A} (r : result A) : option A :=
  match r with
  | Ok v => Some v
  | Raise _ => None
  end.

Definition or_none (s : pystr) : option pystr :=
  match s with
  | [] => None
  | _ => Some s
  end.

(** [user] and [sec_q] are the stripped texts of their widgets; [salt] and
    [sa_salt] are the values returned by the two calls of [make_salt].  An
    exception that leaves the callback is reported by Tk and the callback
    ends there. *)
Definition _create_account (db : DB) (user password : pystr)
    (su_age : entry Z) (su_height su_weight : entry float)
    (sec_q sec_a : pystr) (salt sa_salt : bytes) : DB * notice :=
  match user, password with
  | [], _ | _, [] => (db, ErrorBox UsernamePasswordRequired)
  | _, _ =>
      let outcome :=
        let* existing := get_user db user in
        match existing with
        | Some _ => Ok (db, ErrorBox UsernameExists)
        | None =>
            let* ph := hash_password password salt in
            let* sec_a_hash :=
              match sec_a with
              | [] => Ok None
              | _ => let* h := hash_password sec_a sa_salt in Ok (Some h)
              end in
            let* age_ := convert_if_present su_age in
            let* height_ := convert_if_present su_height in
            let* weight_ := convert_if_present su_weight in
            let* db' := create_user db user ph age_ height_ weight_
                                    (or_none sec_q) sec_a_hash in
            Ok (db', InfoBox AccountCreated)
        end in
      match outcome with
      | Ok shown => shown
      | Raise e => (db, Uncaught e)
      end
  end.

(** The three dialogs of the reset flow answer [None] when cancelled;
    [salt] is the value returned by [make_salt]. *)
Definition _forgot_password (db : DB) (user_dialog answer_dialog
    newpw_dialog : option pystr) (salt : bytes) : DB * notice :=
  match user_dialog with
  | None | Some [] => (db, Silent)
  | Some name =>
      match get_user db name with
      | Raise e => (db, Uncaught e)
      | Ok None => (db, ErrorBox UserNotFound)
      | Ok (Some user) =>
          if negb (truthy_str (security_q user)) then
            (db, ErrorBox NoSecurityQuestion)
          else
            match answer_dialog with
            | None | Some [] => (db, Silent)
            | Some answer =>
                match verify_password (security_a_hash user) answer with
                | Raise e => (db, Uncaught e)
                | Ok false => (db, ErrorBox AnswerMismatch)
                | Ok true =>
                    match newpw_dialog with
                    | None | Some [] => (db, Silent)
                    | Some newpw =>
                        match (let* ph := hash_password newpw salt in
                               set_password db name ph) with
                        | Raise e => (db, Uncaught e)
                        | Ok db' => (db', InfoBox PasswordReset)
                        end
                    end
                end
            end
      end
  end.

(** [login]: the new value of [current_user] and the notice shown;
    [user] is the stripped text of the username widget. *)
Definition login (db : DB) (user password : pystr) : option pystr * notice :=
  match get_user db user with
  | Raise e => (None, Uncaught e)
  | Ok None => (None, ErrorBox UserNotFound)
  | Ok (Some row) =>
      match verify_password (Some (password_hash row)) password with
      | Raise e => (None, Uncaught e)
      | Ok true => (Some user, Silent)
      | Ok false => (None, ErrorBox PasswordIncorrect)
      end
  end.

(** [date_is_iso] tells whether [datetime.date.fromisoformat(date_str)]
    returns. *)
Definition add_entry (db : DB) (current_user date_str : pystr)
    (date_is_iso : bool) (entry_sleep entry_weight entry_cal : entry float)
    (entry_steps : entry Z) : DB * notice :=
  if negb date_is_iso then (db, ErrorBox InvalidDate)
  else
    let sleep := none_on_error (convert_or_zero (float_of_Z 0) entry_sleep) in
    let weight_ := none_on_error (convert_or_zero (float_of_Z 0) entry_weight) in
    let calories_ := none_on_error (convert_or_zero (float_of_Z 0) entry_cal) in
    let steps_ := none_on_error (convert_or_zero 0%Z entry_steps) in
    match add_daily db current_user date_str sleep weight_ calories_ steps_
                    None with
    | Ok db' => (db', InfoBox EntryAdded)
    | Raise e => (db, Uncaught e)
    end.

(** [conv(text) if text.strip() else None], inside [try/except]; the call
    of [upsert_goals] is outside it. *)
Definition save_goals (db : DB) (current_user : pystr)
    (goal_weight : entry float) (goal_steps : entry Z)
    (goal_cal goal_sleep : entry float) : DB * notice :=
  let wg := mjoin (none_on_error (convert_if_present goal_weight)) in
  let sg := mjoin (none_on_error (convert_if_present goal_steps)) in
  let cg := mjoin (none_on_error (convert_if_present goal_cal)) in
  let sl := mjoin (none_on_error (convert_if_present goal_sleep)) in
  match upsert_goals db current_user wg sg cg sl with
  | Ok db' => (db', InfoBox GoalsSaved)
  | Raise e => (db, Uncaught e)
  end.

(** ** Insights ([FitnessApp.refresh_insights]) *)

Inductive trend := Losing | Gaining | Stable.

(** One line of the insights text: the template of the f-string and the
    values interpolated into it. *)
Inductive insight :=
| NoData
| Header (days : nat)
| AvgSleep (avg : float)
| AvgWeight (avg : float)
| AvgCalories (avg : float)
| AvgSteps (avg : float)
| WeightVsGoal (avg diff : float)
| StepsAttainment (pct : float)
| CaloriesAttainment (pct : float)
| SleepAttainment (pct : float)
| WeightTrend (slope : float) (direction : trend)
| BMI (bmi : option float) (cat : category)
| BMR (bmr : option float).

(** [[x for x in arr if x is not None]] *)
Definition not_none {A} (arr : list (option A)) : list A := omap id arr.

Definition len {A} (l : list A) : Z := Z.of_nat (length l).

(** [numeric_avg]; [to_float] is [float(x)] at the type of the column. *)
Definition numeric_avg {A} (to_float : A -> float) (arr : list (option A))
  : option float :=
  let s := map to_float (not_none arr) in
  match s with
  | [] => None
  | _ => Some (py_sum s / float_of_Z (len s))%float
  end.

Definition classify (slope : float) : trend :=
  if (slope <? 0)%float then Losing
  else if (0 <? slope)%float then Gaining
  else Stable.

(** The body of the [try] block that fits the weight trend; the result is
    the line it appends, if any.  [(xi - mean_x)**2] is the product of the
    difference with itself: the difference is a multiple of one half, so
    its square is exact. *)
Definition weight_trend_body (weights : list (option float))
  : result (list insight) :=
  let ws := not_none weights in
  if (3 <=? length ws)%nat then
    let xs := seqZ 0 (len ws) in
    let* mean_x := int_truediv (foldr Z.add 0%Z xs) (len xs) in
    let* mean_y := float_div_int (py_sum ws) (len ws) in
    let num :=
      py_sum (map (fun xy => ((float_of_Z (fst xy) - mean_x)
                              * (snd xy - mean_y))%float)
                  (combine xs ws)) in
    let den :=
      py_sum (map (fun xi => ((float_of_Z xi - mean_x)
                              * (float_of_Z xi - mean_x))%float) xs) in
    let slope := if float_truthy den then (num / den)%float else 0%float in
    Ok [WeightTrend slope (classify slope)]
  else Ok [].

(** [try: ... except Exception: pass] *)
Definition weight_trend (weights : list (option float)) : list insight :=
  match weight_trend_body weights with
  | Ok lines => lines
  | Raise _ => []
  end.

(** [if avg: text.append(...)] *)
Definition average_line (line : float -> insight) (avg : option float)
  : list insight :=
  match avg with
  | Some a => if float_truthy a then [line a] else []
  | None => []
  end.

(** [if goal and avg: pct = (avg / goal)*100 if goal else None; ...];
    [goal] is the goal converted to [float] and [goal_set] its truth
    value. *)
Definition attainment_line (line : float -> insight) (goal_set : bool)
    (goal : float) (avg : option float) : list insight :=
  match avg with
  | Some a =>
      if goal_set && float_truthy a then
        let pct := if goal_set then Some (a / goal * 100)%float else None in
        match pct with
        | Some p => [line p]
        | None => []
        end
      else []
  | None => []
  end.

Definition goal_lines (g : goals_row) (avg_sleep avg_weight avg_cal
    avg_steps : option float) : list insight :=
  (match weight_goal g, avg_weight with
   | Some wg, Some aw =>
       if float_truthy wg && float_truthy aw
       then [WeightVsGoal aw (aw - wg)%float] else []
   | _, _ => []
   end)
  ++ (match steps_goal g with
      | Some sg =>
          attainment_line StepsAttainment (negb (sg =? 0)%Z) (float_of_Z sg)
                          avg_steps
      | None => []
      end)
  ++ (match calories_goal g with
      | Some cg =>
          attainment_line CaloriesAttainment (float_truthy cg) cg avg_cal
      | None => []
      end)
  ++ (match sleep_goal g with
      | Some sl =>
          attainment_line SleepAttainment (float_truthy sl) sl avg_sleep
      | None => []
      end).

(** [if u and u['height_cm'] and u['weight_kg'] and u['age']: ...] *)
Definition body_lines (u : option user_row) : list insight :=
  match u with
  | Some row =>
      match height_cm row, weight_kg row, age row with
      | Some h, Some w, Some a =>
          if float_truthy h && float_truthy w && negb (a =? 0)%Z then
            let bmi := calc_bmi w h in
            let bmr := calc_bmr w h a male in
            [BMI bmi (bmi_category bmi); BMR bmr]
          else []
      | _, _, _ => []
      end
  | None => []
  end.

(** [rows], [g] and [u] are the results of the three reads
    [get_last_n_days(current_user, 30)], [get_goals(current_user)] and
    [get_user(current_user)]; the result is the list of lines written to
    the text widget. *)
Definition refresh_insights (rows : list daily_row) (g : option goals_row)
    (u : option user_row) : list insight :=
  match rows with
  | [] => [NoData]
  | _ =>
      let sleeps := map sleep_hrs rows in
      let weights := map weight rows in
      let cals := map calories rows in
      let steps_ := map steps rows in
      let avg_sleep := numeric_avg id sleeps in
      let avg_weight := numeric_avg id weights in
      let avg_cal := numeric_avg id cals in
      let avg_steps := numeric_avg float_of_Z steps_ in
      [Header (length rows)]
      ++ average_line AvgSleep avg_sleep
      ++ average_line AvgWeight avg_weight
      ++ average_line AvgCalories avg_cal
      ++ average_line AvgSteps avg_steps
      ++ (match g with
          | Some goals_ =>
              goal_lines goals_ avg_sleep avg_weight avg_cal avg_steps
          | None => []
          end)
      ++ weight_trend weights
      ++ body_lines u
  end.

(** ** Ordinary least squares, as the specification words it *)

(** The slope of the regression of the samples [ys] against their index
    [0 .. k-1] is [sum_i (i - mx) (y_i - my) / sum_i (i - mx)^2], with [mx]
    and [my] the means of the indices and of the samples.  The formula is
    written once over the arithmetic it is evaluated in: [binary64] is
    Python's, [exact] is that of the real numbers. *)
Module OLS.

Record arith (T : Type) := Arith {
  zero : T;
  add : T -> T -> T;
  sub : T -> T -> T;
  mul : T -> T -> T;
  div : T -> T -> T;
  of_int : Z -> T;
  (** the quotient of two integers *)
  ratio : Z -> Z -> T;
  is_zero : T -> bool
}.
Arguments zero {T}. Arguments add {T}. Arguments sub {T}.
Arguments mul {T}. Arguments div {T}. Arguments of_int {T}.
Arguments ratio {T}. Arguments is_zero {T}.

Section Formula.
Context {T : Type} (ops : arith T).

Definition total (ys : list T) : T := fold_left (add ops) ys (zero ops).

Definition mean_index (k : Z) : T := ratio ops (k * (k - 1) / 2) k.

Definition mean (ys : list T) : T :=
  div ops (total ys) (of_int ops (len ys)).

(** The two sums, over the samples from index [i] on. *)
Fixpoint sums (mx my : T) (i : Z) (ys : list T) (num den : T) : T * T :=
  match ys with
  | [] => (num, den)
  | y :: ys' =>
      let dx := sub ops (of_int ops i) mx in
      sums mx my (i + 1)%Z ys'
           (add ops num (mul ops dx (sub ops y my)))
           (add ops den (mul ops dx dx))
  end.

Definition slope (ys : list T) : T :=
  let '(num, den) :=
    sums (mean_index (len ys)) (mean ys) 0%Z ys (zero ops) (zero ops) in
  if is_zero ops den then zero ops else div ops num den.
End Formula.

Definition binary64 : arith float :=
  Arith float 0%float PrimFloat.add PrimFloat.sub PrimFloat.mul PrimFloat.div
        float_of_Z
        (fun a b => SF2Prim (SFdiv prec emax (SF_of_Z a) (SF_of_Z b)))
        (fun x => (x =? 0)%float).

Definition exact : arith R :=
  Arith R 0%R Rplus Rminus Rmult Rdiv IZR
        (fun a b => (IZR a / IZR b)%R)
        (fun x => if Req_dec_T x 0 then true else false).

(** The sum of the squared residuals of the line [a + b i] on the samples
    from index [i] on. *)
Fixpoint sse (a b : R) (i : Z) (ys : list R) : R :=
  match ys with
  | [] => 0
  | y :: ys' =>
      ((y - (a + b * IZR i)) * (y - (a + b * IZR i)) + sse a b (i + 1) ys')%R
  end.

(** A sum over the samples and their indices. *)
Fixpoint isum (f : R -> R -> R) (i : Z) (ys : list R) : R :=
  match ys with
  | [] => 0
  | y :: ys' => (f (IZR i) y + isum f (i + 1) ys')%R
  end.

(** The moments of the samples and their indices. *)
Definition count := isum (fun _ _ => 1%R).
Definition Sx := isum (fun x _ => x).
Definition Sy := isum (fun _ y => y).
Definition Sxx := isum (fun x _ => (x * x)%R).
Definition Sxy := isum (fun x y => (x * y)%R).
Definition Syy := isum (fun _ y => (y * y)%R).

End OLS.

Definition ols_slope (ys : list float) : float := OLS.slope OLS.binary64 ys.

(** ** Observations on results, and sample data *)

(** How a numeric field of the entry form ends up in the stored row: an
    empty field as zero, text that does not convert as NULL, a number as
    the table keeps it. *)
Definition stored_real (e : entry float) (v : option float) : Prop :=
  (e = Blank -> v = Some 0%float)
  /\ (e = Invalid -> v = None)
  /\ (forall x, e = Converts x ->
        (PrimFloat.is_nan x = true -> v = None)
        /\ ((x =? 0)%float = true -> v = Some 0%float)
        /\ (PrimFloat.is_nan x = false -> (x =? 0)%float = false ->
            v = Some x)).

Definition stored_int (e : entry Z) (v : option Z) : Prop :=
  (e = Blank -> v = Some 0%Z)
  /\ (e = Invalid -> v = None)
  /\ (forall n, e = Converts n -> v = Some n).

(** The integer a field converts to, if any, fits a signed 64-bit
    integer. *)
Definition fits (e : entry Z) : bool :=
  match e with
  | Converts n => ((- 2 ^ 63 <=? n) && (n <? 2 ^ 63))%Z
  | _ => true
  end.

(** [s.encode('utf-8')] returns. *)
Definition encodable (s : pystr) : bool :=
  match encode_utf8 s with
  | Ok _ => true
  | Raise _ => false
  end.

Definition is_BMI (l : insight) : bool :=
  match l with BMI _ _ => true | _ => false end.

Definition sample_salt : bytes :=
  Eval vm_compute in map byte_of_N (map N.of_nat (seq 1 16)).

(** The one-character password U+0000. *)
Definition nul_password : pystr := [0].

Definition empty_db : DB := MkDB ∅ [] ∅.

Definition alice : pystr := [97; 108; 105; 99; 101].
Definition sample_date : pystr := [50; 48; 50; 52; 45; 48; 49; 45; 48; 49].

(** A user whose stored answer hash, [Q], is not valid base64. *)
Definition sample_user : user_row :=
  UserRow [81; 81; 61; 61] None (Some 175%float) (Some 70%float)
          (Some [112; 101; 116; 63]) (Some [81]).

Definition sample_db : DB := MkDB {[ alice := sample_user ]} [] ∅.

(** Where a line of the insights text comes from: each constructor is one
    [text.append] of [refresh_insights], with the condition under which it
    runs and the values it interpolates. *)
Inductive produced (rows : list daily_row) (g : option goals_row)
    (u : option user_row) : insight -> Prop :=
| P_NoData : rows = [] -> produced rows g u NoData
| P_Header : rows <> [] -> produced rows g u (Header (length rows))
| P_AvgSleep a :
    numeric_avg id (map sleep_hrs rows) = Some a -> float_truthy a = true ->
    produced rows g u (AvgSleep a)
| P_AvgWeight a :
    numeric_avg id (map weight rows) = Some a -> float_truthy a = true ->
    produced rows g u (AvgWeight a)
| P_AvgCalories a :
    numeric_avg id (map calories rows) = Some a -> float_truthy a = true ->
    produced rows g u (AvgCalories a)
| P_AvgSteps a :
    numeric_avg float_of_Z (map steps rows) = Some a ->
    float_truthy a = true ->
    produced rows g u (AvgSteps a)
| P_WeightVsGoal goals_ wg a :
    g = Some goals_ -> weight_goal goals_ = Some wg ->
    numeric_avg id (map weight rows) = Some a ->
    float_truthy wg = true -> float_truthy a = true ->
    produced rows g u (WeightVsGoal a (a - wg)%float)
| P_StepsAttainment goals_ sg a :
    g = Some goals_ -> steps_goal goals_ = Some sg ->
    numeric_avg float_of_Z (map steps rows) = Some a ->
    sg <> 0%Z -> float_truthy a = true ->
    produced rows g u (StepsAttainment (a / float_of_Z sg * 100)%float)
| P_CaloriesAttainment goals_ cg a :
    g = Some goals_ -> calories_goal goals_ = Some cg ->
    numeric_avg id (map calories rows) = Some a ->
    float_truthy cg = true -> float_truthy a = true ->
    produced rows g u (CaloriesAttainment (a / cg * 100)%float)
| P_SleepAttainment goals_ sl a :
    g = Some goals_ -> sleep_goal goals_ = Some sl ->
    numeric_avg id (map sleep_hrs rows) = Some a ->
    float_truthy sl = true -> float_truthy a = true ->
    produced rows g u (SleepAttainment (a / sl * 100)%float)
| P_WeightTrend :
    (3 <= length (not_none (map weight rows)))%nat ->
    produced rows g u
      (WeightTrend (ols_slope (not_none (map weight rows)))
                   (classify (ols_slope (not_none (map weight rows)))))
| P_BMI row h w a :
    rows <> [] -> u = Some row ->
    height_cm row = Some h -> weight_kg row = Some w -> age row = Some a ->
    float_truthy h = true -> float_truthy w = true -> a <> 0%Z ->
    produced rows g u (BMI (calc_bmi w h) (bmi_category (calc_bmi w h)))
| P_BMR row h w a :
    rows <> [] -> u = Some row ->
    height_cm row = Some h -> weight_kg row = Some w -> age row = Some a ->
    float_truthy h = true -> float_truthy w = true -> a <> 0%Z ->
    produced rows g u (BMR (calc_bmr w h a male)).

(** A window of three days: weights 70, 69, 68, sleep recorded as zero
    twice, steps recorded once. *)
Definition window3 : list daily_row :=
  [DailyRow alice sample_date (Some 0%float) (Some 70%float) None
            (Some 8000%Z) None;
   DailyRow alice sample_date (Some 0%float) (Some 69%float) None None None;
   DailyRow alice sample_date None (Some 68%float) None None None].

Definition goals3 : goals_row :=
  GoalsRow (Some 65%float) (Some 10000%Z) None (Some 8%float).

Definition user3 : user_row :=
  UserRow [] (Some 30%Z) (Some 175%float) (Some 70%float) None None.

(** ** The rest of the database ([class DB]) *)

(** [UPDATE users SET age = ?, height_cm = ?, weight_kg = ? WHERE
    username = ?] *)
Definition update_user_info (db : DB) (name : pystr) (age_ : option Z)
    (height_ weight_ : option float) : result DB :=
  let* age_ := sql_opt sql_int age_ in
  let* name := sql_text name in
  Ok (MkDB
        (alter (fun u => UserRow (password_hash u) age_
                                 (sql_opt_real height_) (sql_opt_real weight_)
                                 (security_q u) (security_a_hash u))
               name (users db))
        (daily db) (goals db)).

(** Comparison of two TEXT values under SQLite's default collation: byte
    by byte on the UTF-8 encoding, which orders texts as the lists of
    their code points are ordered. *)
Fixpoint text_leb (a b : pystr) : bool :=
  match a, b with
  | [], _ => true
  | _ :: _, [] => false
  | x :: a', y :: b' =>
      if x <? y then true else if y <? x then false else text_leb a' b'
  end.

(** [r1] comes before [r2] under [ORDER BY date DESC], and under
    [ORDER BY date]. *)
Definition date_ge (r1 r2 : daily_row) : Prop :=
  text_leb (date r2) (date r1) = true.
Definition date_le (r1 r2 : daily_row) : Prop :=
  text_leb (date r1) (date r2) = true.

(** What [ORDER BY] promises: the rows selected, sorted on the key.  SQL
    leaves the order of rows with equal keys open, so the queries below
    take the sort as a parameter. *)
Definition orders_by (before : relation daily_row)
    (order : list daily_row -> list daily_row) : Prop :=
  forall l, order l ≡ₚ l /\ StronglySorted before (order l).

(** [WHERE username = ?] on table [daily] *)
Definition rows_of (db : DB) (name : pystr) : list daily_row :=
  filter (fun r => username r = name) (daily db).

(** [if start_date: q += ' AND date >= ?'] and the same for [end_date]:
    [None] and the empty text add no bound. *)
Definition after_start (start_date : option pystr) (r : daily_row) : bool :=
  match start_date with
  | Some (c :: s) => text_leb (c :: s) (date r)
  | _ => true
  end.

Definition before_end (end_date : option pystr) (r : daily_row) : bool :=
  match end_date with
  | Some (c :: s) => text_leb (date r) (c :: s)
  | _ => true
  end.

(** [if d: params.append(d)]: a bound is a parameter of the query only
    when it is given and not empty. *)
Definition sql_date_bound (d : option pystr) : result (option pystr) :=
  if truthy_str d then sql_opt sql_text d else Ok None.

(** [get_daily_range]: [order] is the sort of [ORDER BY date]. *)
Definition get_daily_range (order : list daily_row -> list daily_row)
    (db : DB) (name : pystr) (start_date end_date : option pystr)
  : result (list daily_row) :=
  let* name := sql_text name in
  let* start_date := sql_date_bound start_date in
  let* end_date := sql_date_bound end_date in
  Ok (order (List.filter (fun r => after_start start_date r
                                   && before_end end_date r)
                         (rows_of db name))).

(** [get_last_n_days]: [order] is the sort of [ORDER BY date DESC]; the
    first [n] rows are kept ([LIMIT ?]) and the list is reversed. *)
Definition get_last_n_days (order : list daily_row -> list daily_row)
    (db : DB) (name : pystr) (n : nat) : result (list daily_row) :=
  let* name := sql_text name in
  let* limit := sql_int (Z.of_nat n) in
  Ok (reverse (take n (order (rows_of db name)))).

(** A sort that meets [orders_by], to run the queries with. *)
#[global] Instance date_ge_dec r1 r2 : Decision (date_ge r1 r2).
Proof. unfold date_ge. apply _. Defined.
#[global] Instance date_le_dec r1 r2 : Decision (date_le r1 r2).
Proof. unfold date_le. apply _. Defined.

Definition sort_desc : list daily_row -> list daily_row :=
  merge_sort date_ge.
Definition sort_asc : list daily_row -> list daily_row :=
  merge_sort date_le.

(** ** The methods of [FitnessApp] that read the database *)

(** [refresh_insights] with its reads: the rows first, and when there are
    some, the goals and the user. *)
Definition refresh_insights_db (order : list daily_row -> list daily_row)
    (db : DB) (current_user : pystr) : result (list insight) :=
  let* rows := get_last_n_days order db current_user 30 in
  match rows with
  | [] => Ok (refresh_insights rows None None)
  | _ =>
      let* g := get_goals db current_user in
      let* u := get_user db current_user in
      Ok (refresh_insights rows g u)
  end.

(** One entry of the dict [summary] of [export_report]: its key and the
    number formatted into its value. *)
Inductive summary_entry :=
| DaysAnalyzed (n : nat)
| SummarySleep (avg : float)
| SummaryWeight (avg : float)
| SummaryCalories (avg : float)
| SummarySteps (avg : float).

(** [avg] of [export_report] on a REAL column: no conversion is applied
    to the values. *)
Definition avg_real (xs : list (option float)) : option float :=
  match not_none xs with
  | [] => None
  | s => Some (py_sum s / float_of_Z (len s))%float
  end.

(** [avg] on the INTEGER column: the ints are summed exactly and the sum
    is divided by the count, both ints, rounding once. *)
Definition avg_int (xs : list (option Z)) : option float :=
  match not_none xs with
  | [] => None
  | s => Some (SF2Prim (SFdiv prec emax (SF_of_Z (foldr Z.add 0%Z s))
                              (SF_of_Z (len s))))
  end.

(** [if avg(xs): summary[key] = ...] *)
Definition summary_line (entry_ : float -> summary_entry)
    (avg : option float) : list summary_entry :=
  match avg with
  | Some a => if float_truthy a then [entry_ a] else []
  | None => []
  end.

(** The analytics summary of [export_report]; [rows] is the result of
    [get_last_n_days(current_user, 30)]. *)
Definition summary (rows : list daily_row) : list summary_entry :=
  [DaysAnalyzed (length rows)]
  ++ summary_line SummarySleep (avg_real (map sleep_hrs rows))
  ++ summary_line SummaryWeight (avg_real (map weight rows))
  ++ summary_line SummaryCalories (avg_real (map calories rows))
  ++ summary_line SummarySteps (avg_int (map steps rows)).

(** ** The session *)

(** The state of the application: the database and [current_user]. *)
Record session := Session {
  store : DB;
  current_user : option pystr
}.

(** A callback with what the user typed, and for the callbacks that call
    [make_salt] the bytes it returned. *)
Inductive event :=
| Signup (user password : pystr) (su_age : entry Z)
         (su_height su_weight : entry float) (sec_q sec_a : pystr)
         (salt sa_salt : bytes)
| ForgotPassword (user_dialog answer_dialog newpw_dialog : option pystr)
                 (salt : bytes)
| Login (user password : pystr)
| Logout
| AddEntry (date_str : pystr) (date_is_iso : bool)
           (entry_sleep entry_weight entry_cal : entry float)
           (entry_steps : entry Z)
| SaveGoals (goal_weight : entry float) (goal_steps : entry Z)
            (goal_cal goal_sleep : entry float).

(** The login screen offers Login, Signup and Forgot Password; the main
    window, built by a successful login, offers Logout, Add Entry and Save
    Goals.  A callback whose button is not on screen does not run. *)
Definition handle (a : session) (e : event) : session :=
  match current_user a, e with
  | None, Signup user password su_age su_height su_weight sec_q sec_a
                 salt sa_salt =>
      Session (fst (_create_account (store a) user password su_age
                                    su_height su_weight sec_q sec_a salt
                                    sa_salt))
              None
  | None, ForgotPassword user_dialog answer_dialog newpw_dialog salt =>
      Session (fst (_forgot_password (store a) user_dialog answer_dialog
                                     newpw_dialog salt))
              None
  | None, Login user password =>
      Session (store a) (fst (login (store a) user password))
  | Some _, Logout => Session (store a) None
  | Some u, AddEntry date_str date_is_iso entry_sleep entry_weight
                     entry_cal entry_steps =>
      Session (fst (add_entry (store a) u date_str date_is_iso entry_sleep
                              entry_weight entry_cal entry_steps))
              (Some u)
  | Some u, SaveGoals goal_weight goal_steps goal_cal goal_sleep =>
      Session (fst (save_goals (store a) u goal_weight goal_steps goal_cal
                               goal_sleep))
              (Some u)
  | _, _ => a
  end.

Definition run (a : session) (events : list event) : session :=
  fold_left handle events a.

(** The application as it starts on a database file that does not exist
    yet: the three tables are empty and nobody is logged in. *)
Definition initial : session := Session empty_db None.

(** [make_salt] returns [SALT_BYTES] bytes. *)
Definition salted (e : event) : bool :=
  match e with
  | Signup _ _ _ _ _ _ _ salt sa_salt =>
      (length salt =? SALT_BYTES)%nat && (length sa_salt =? SALT_BYTES)%nat
  | ForgotPassword _ _ _ salt => (length salt =? SALT_BYTES)%nat
  | _ => true
  end.

(** A stored hash as [hash_password] makes it: base64 text that decodes
    to a salt followed by a derived key. *)
Definition well_formed_hash (h : pystr) : Prop :=
  exists raw,
    (let* encoded := encode_utf8 h in b64decode encoded) = Ok raw
    /\ length raw = (SALT_BYTES + Sha256.digest_size)%nat.

(** The value a numeric widget holds, if it holds one. *)
Definition entered {A} (e : entry A) : option A :=
  match e with
  | Converts v => Some v
  | _ => None
  end.

Definition valid {A} (e : entry A) : bool :=
  match e with
  | Invalid => false
  | _ => true
  end.

(** Two rows of [users] that differ at most in [password_hash]. *)
Definition same_but_password (r r' : user_row) : Prop :=
  age r' = age r /\ height_cm r' = height_cm r /\ weight_kg r' = weight_kg r
  /\ security_q r' = security_q r
  /\ security_a_hash r' = security_a_hash r.

(** A user who gave a security question and left the answer empty. *)
Definition unanswered : user_row :=
  UserRow [81; 81; 61; 61] None None None (Some [112; 101; 116; 63]) None.

(** Every hash stored for a user is well formed. *)
Definition hashes_well_formed (db : DB) : Prop :=
  forall u row,
    users db !! u = Some row ->
    well_formed_hash (password_hash row)
    /\ forall h, security_a_hash row = Some h -> well_formed_hash h.

(** [db'] holds all of [db]: the rows of [daily] in their order, every
    user with the same columns but the password hash, every user's goals
    row. *)
Definition grows (db db' : DB) : Prop :=
  daily db `prefix_of` daily db'
  /\ (forall u row,
        users db !! u = Some row ->
        exists row', users db' !! u = Some row' /\ same_but_password row row')
  /\ (forall u, is_Some (goals db !! u) -> is_Some (goals db' !! u)).

(** The invariants of the stored data. *)
Record consistent (a : session) : Prop := Consistent {
  daily_owned :
    forall r, In r (daily (store a)) -> is_Some (users (store a) !! username r);
  goals_owned :
    forall u, is_Some (goals (store a) !! u) -> is_Some (users (store a) !! u);
  session_owned :
    forall u, current_user a = Some u -> is_Some (users (store a) !! u);
  names_not_empty : users (store a) !! [] = None
}.

(** ** [fitness_trial.py]: the calorie tracker *)

Module Trial.

(** The numbers the tracker is given: a Python [int] or a [float]. *)
Inductive number :=
| Int (n : Z)
| Float (x : float).

(** The operand of a float operation. *)
Definition as_float (v : number) : result float :=
  match v with
  | Int n => float_of_int n
  | Float x => Ok x
  end.

(** [a * b] and [a + b]: exact on two ints, in binary64 otherwise. *)
Definition times (a b : number) : result number :=
  match a, b with
  | Int m, Int n => Ok (Int (m * n))
  | _, _ =>
      let* x := as_float a in
      let* y := as_float b in
      Ok (Float (x * y))
  end.

Definition plus (a b : number) : result number :=
  match a, b with
  | Int m, Int n => Ok (Int (m + n))
  | _, _ =>
      let* x := as_float a in
      let* y := as_float b in
      Ok (Float (x + y))
  end.

Record FoodItem := MkFoodItem {
  food_name : pystr;
  protein : number;
  carbohydrates : number;
  fats : number;
  fiber : number
}.

Record Workout := MkWorkout {
  workout_name : pystr;
  workout_calories : number
}.

Record FitnessTracker := MkTracker {
  food_items : list FoodItem;
  workouts : list Workout;
  calories_consumed : number;
  calories_burned : number
}.

(** [FitnessTracker()] *)
Definition new_tracker : FitnessTracker := MkTracker [] [] (Int 0) (Int 0).

(** [protein * 4 + carbohydrates * 4 + fats * 9] *)
Definition food_calories (f : FoodItem) : result number :=
  let* p4 := times (protein f) (Int 4) in
  let* c4 := times (carbohydrates f) (Int 4) in
  let* pc := plus p4 c4 in
  let* f9 := times (fats f) (Int 9) in
  plus pc f9.

(** The item is appended before the total is computed: when the
    arithmetic raises, the item stays in the list and the total is
    unchanged.  The result is the tracker after the call and the exception
    raised, if any. *)
Definition add_food_item (t : FitnessTracker) (f : FoodItem)
  : FitnessTracker * option exn :=
  let appended := food_items t ++ [f] in
  match (let* calories := food_calories f in
         plus (calories_consumed t) calories) with
  | Ok total =>
      (MkTracker appended (workouts t) total (calories_burned t), None)
  | Raise e =>
      (MkTracker appended (workouts t) (calories_consumed t)
                 (calories_burned t),
       Some e)
  end.

Definition add_workout (t : FitnessTracker) (w : Workout)
  : FitnessTracker * option exn :=
  let appended := workouts t ++ [w] in
  match plus (calories_burned t) (workout_calories w) with
  | Ok total =>
      (MkTracker (food_items t) appended (calories_consumed t) total, None)
  | Raise e =>
      (MkTracker (food_items t) appended (calories_consumed t)
                 (calories_burned t),
       Some e)
  end.

(** A call on the tracker. *)
Inductive action :=
| AddFood (f : FoodItem)
| AddWorkout (w : Workout).

Definition act (t : FitnessTracker) (a : action)
  : FitnessTracker * option exn :=
  match a with
  | AddFood f => add_food_item t f
  | AddWorkout w => add_workout t w
  end.

(** A sequence of calls: the tracker at the end and the exceptions
    raised on the way. *)
Definition step (st : FitnessTracker * list exn) (a : action)
  : FitnessTracker * list exn :=
  let (t', raised) := act (fst st) a in
  (t', snd st ++ match raised with Some e => [e] | None => [] end).

Definition calls (actions : list action) (t : FitnessTracker)
  : FitnessTracker * list exn :=
  fold_left step actions (t, []).

(** The food items, and the workouts, among the actions. *)
Definition foods (actions : list action) : list FoodItem :=
  omap (fun a => match a with AddFood f => Some f | _ => None end) actions.

Definition burns (actions : list action) : list Workout :=
  omap (fun a => match a with AddWorkout w => Some w | _ => None end) actions.

(** The numbers of an action are all floats, as the two windows build
    them with [float(...)], or all ints. *)
Definition is_float (v : number) : bool :=
  match v with Float _ => true | Int _ => false end.

Definition float_action (a : action) : bool :=
  match a with
  | AddFood f =>
      is_float (protein f) && is_float (carbohydrates f) && is_float (fats f)
  | AddWorkout w => is_float (workout_calories w)
  end.

Definition int_action (a : action) : bool :=
  match a with
  | AddFood f =>
      negb (is_float (protein f)) && negb (is_float (carbohydrates f))
      && negb (is_float (fats f))
  | AddWorkout w => negb (is_float (workout_calories w))
  end.

(** The value of a number as a float, and as an integer. *)
Definition float_value (v : number) : float :=
  match v with Float x => x | Int n => float_of_Z n end.

Definition int_value (v : number) : Z :=
  match v with Int n => n | Float _ => 0%Z end.

(** The calories of a food whose numbers are floats, and of one whose
    numbers are ints. *)
Definition float_calories (f : FoodItem) : float :=
  (float_value (protein f) * 4 + float_value (carbohydrates f) * 4
   + float_value (fats f) * 9)%float.

Definition int_calories (f : FoodItem) : Z :=
  (int_value (protein f) * 4 + int_value (carbohydrates f) * 4
   + int_value (fats f) * 9)%Z.

(** A running total that started at the int [0] and had the floats [xs]
    added in turn. *)
Definition float_total (xs : list float) : number :=
  match xs with
  | [] => Int 0
  | _ => Float (py_sum xs)
  end.

(** A total that is the int [0] or a float takes a float without
    raising. *)
Definition float_ready (v : number) : Prop :=
  match v with Int n => n = 0%Z | Float _ => True end.

Definition add_floats (v : number) (xs : list float) : number :=
  match xs with
  | [] => v
  | _ => Float (fold_left (fun acc x => (acc + x)%float) xs
                        (float_value v))
  end.

End Trial.

(** Sample data for the queries. *)
Definition day (d : N) (w : option float) : daily_row :=
  DailyRow alice [50; 48; 50; 52; 45; 48; 49; 45; 48 + d / 10; 48 + d mod 10]
           None w None None None.

Definition bob : pystr := [98; 111; 98].

Definition sample_log : DB :=
  MkDB {[ alice := user3 ]}
       [day 3 (Some 68%float); day 1 (Some 70%float);
        DailyRow bob sample_date None None None (Some 5%Z) None;
        day 2 (Some 69%float)]
       ∅.

(** * Properties *)

(** ** Bytes *)

Lemma byte_of_to_N (b : byte) : byte_of_N (Byte.to_N b) = b.
Proof. destruct b; reflexivity. Qed.

Lemma byte_to_N_lt (b : byte) : Byte.to_N b < 256.
Proof. pose proof (Byte.to_N_bounded b). lia. Qed.

Lemma list_ind3 {A} (P : list A -> Prop) :
  P [] -> (forall a, P [a]) -> (forall a b, P [a; b]) ->
  (forall a b c l, P l -> P (a :: b :: c :: l)) ->
  forall l, P l.
Proof.
  intros H0 H1 H2 H3 l.
  cut (P l /\ (forall a, P (a :: l)) /\ (forall a b, P (a :: b :: l))).
  { tauto. }
  induction l as [|x l (IH0 & IH1 & IH2)]; auto.
Qed.

(** ** Test vectors of the primitives *)

Example sha256_constants :
  length Sha256.K = 64%nat
  /\ nth 0 Sha256.K 0 = 0x428a2f98 /\ nth 63 Sha256.K 0 = 0xc67178f2
  /\ Sha256.sa Sha256.H0 = 0x6a09e667 /\ Sha256.sh Sha256.H0 = 0x5be0cd19.
Proof. repeat split. Qed.

(** SHA-256 of [abc] (FIPS 180-4, appendix B.1). *)
Example sha256_abc :
  map Byte.to_N (Sha256.sha256 ["a"; "b"; "c"]%byte)
  = [0xba; 0x78; 0x16; 0xbf; 0x8f; 0x01; 0xcf; 0xea;
     0x41; 0x41; 0x40; 0xde; 0x5d; 0xae; 0x22; 0x23;
     0xb0; 0x03; 0x61; 0xa3; 0x96; 0x17; 0x7a; 0x9c;
     0xb4; 0x10; 0xff; 0x61; 0xf2; 0x00; 0x15; 0xad].
Proof. vm_compute. reflexivity. Qed.

(** PBKDF2-HMAC-SHA256 of [password] with salt [salt], one and two
    iterations. *)
Example pbkdf2_vectors :
  let password := ["p"; "a"; "s"; "s"; "w"; "o"; "r"; "d"]%byte in
  let salt := ["s"; "a"; "l"; "t"]%byte in
  take 8 (map Byte.to_N (pbkdf2_hmac password salt 1))
  = [0x12; 0x0f; 0xb6; 0xcf; 0xfc; 0xf8; 0xb3; 0x2c]
  /\ take 8 (map Byte.to_N (pbkdf2_hmac password salt 2))
     = [0xae; 0x4d; 0x0c; 0x95; 0xaf; 0x6b; 0x46; 0xd3].
Proof. vm_compute. split; reflexivity. Qed.

(** ** Base64 round trip *)

Module Base64Facts.
Import Base64.

Lemma alphabet_table :
  forallb (fun n => let s := N.of_nat n in
             bool_decide (val (chr s) = Some s)
             && negb (bool_decide (chr s = pad))
             && (Byte.to_N (chr s) <? 128))
          (seq 0 64) = true.
Proof. vm_compute. reflexivity. Qed.

Lemma chr_facts (s : N) :
  s < 64 -> val (chr s) = Some s /\ chr s <> pad /\ Byte.to_N (chr s) < 128.
Proof.
  intros Hs.
  pose proof (proj1 (forallb_forall _ _) alphabet_table (N.to_nat s)) as H.
  assert (Hin : In (N.to_nat s) (seq 0 64)) by (apply in_seq; lia).
  specialize (H Hin). cbv beta zeta in H. rewrite N2Nat.id in H.
  apply andb_prop in H as [H H3]. apply andb_prop in H as [H1 H2].
  apply bool_decide_eq_true in H1.
  apply negb_true_iff, bool_decide_eq_false in H2.
  apply N.ltb_lt in H3. auto.
Qed.

Lemma chr_ascii (s : N) : Byte.to_N (chr s) < 128.
Proof.
  destruct (N.lt_ge_cases s 64) as [Hs|Hs].
  - apply chr_facts, Hs.
  - unfold chr. rewrite nth_overflow; [reflexivity|].
    change (length alphabet) with 64%nat. lia.
Qed.

Lemma a2b_chr (s : N) rest q l p :
  s < 64 ->
  a2b (chr s :: rest) q l p =
  match q with
  | 0%nat => a2b rest 1%nat s 0
  | 1%nat => emit (byte_of_N (l * 4 + s / 16)) (a2b rest 2%nat (s mod 16) 0)
  | 2%nat => emit (byte_of_N (l * 16 + s / 4)) (a2b rest 3%nat (s mod 4) 0)
  | _ => emit (byte_of_N (l * 64 + s)) (a2b rest 0%nat 0 0)
  end.
Proof.
  intros Hs. destruct (chr_facts s Hs) as (Hv & Hp & _).
  cbn [a2b]. rewrite bool_decide_eq_false_2 by exact Hp.
  rewrite Hv. reflexivity.
Qed.

Lemma a2b_pad2 rest l : a2b (pad :: pad :: rest) 2 l 0 = Ok [].
Proof. reflexivity. Qed.

Lemma a2b_pad3 rest l : a2b (pad :: rest) 3 l 0 = Ok [].
Proof. reflexivity. Qed.

(** Linear arithmetic with division and remainder by constants. *)
Ltac divmod := zify; Z.to_euclidean_division_equations; lia.

Lemma sextet1 x : x < 256 -> x / 4 < 64.
Proof. intros. divmod. Qed.
Lemma sextet2 x y : y < 256 -> (x mod 4) * 16 + y / 16 < 64.
Proof. intros. divmod. Qed.
Lemma sextet3 y z : z < 256 -> (y mod 16) * 4 + z / 64 < 64.
Proof. intros. divmod. Qed.
Lemma sextet4 z : z mod 64 < 64.
Proof. divmod. Qed.

Lemma octet1 x y :
  x < 256 -> y < 256 -> (x / 4) * 4 + ((x mod 4) * 16 + y / 16) / 16 = x.
Proof. intros. divmod. Qed.
Lemma octet2 x y z :
  y < 256 -> z < 256 ->
  (((x mod 4) * 16 + y / 16) mod 16) * 16 + ((y mod 16) * 4 + z / 64) / 4 = y.
Proof. intros. divmod. Qed.
Lemma octet3 y z :
  z < 256 -> (((y mod 16) * 4 + z / 64) mod 4) * 64 + z mod 64 = z.
Proof. intros. divmod. Qed.

Lemma a2b_b2a (bs : bytes) : a2b (b2a bs) 0 0 0 = Ok bs.
Proof.
  induction bs as [|b1|b1 b2|b1 b2 b3 rest IH] using list_ind3.
  - reflexivity.
  - pose proof (byte_to_N_lt b1) as H1.
    cbn [b2a].
    replace ((Byte.to_N b1 mod 4) * 16)
      with ((Byte.to_N b1 mod 4) * 16 + 0 / 16)
      by (change (0 / 16) with 0; lia).
    rewrite a2b_chr by (apply sextet1; exact H1).
    rewrite a2b_chr by (apply sextet2; lia).
    rewrite a2b_pad2. cbn [emit].
    rewrite octet1 by (exact H1 || lia).
    rewrite byte_of_to_N. reflexivity.
  - pose proof (byte_to_N_lt b1) as H1. pose proof (byte_to_N_lt b2) as H2.
    cbn [b2a].
    replace ((Byte.to_N b2 mod 16) * 4)
      with ((Byte.to_N b2 mod 16) * 4 + 0 / 64)
      by (change (0 / 64) with 0; lia).
    rewrite a2b_chr by (apply sextet1; exact H1).
    rewrite a2b_chr by (apply sextet2; exact H2).
    rewrite a2b_chr by (apply sextet3; lia).
    rewrite a2b_pad3. cbn [emit].
    rewrite octet1 by assumption.
    rewrite octet2 by (assumption || lia).
    rewrite !byte_of_to_N. reflexivity.
  - pose proof (byte_to_N_lt b1) as H1. pose proof (byte_to_N_lt b2) as H2.
    pose proof (byte_to_N_lt b3) as H3.
    cbn [b2a].
    rewrite a2b_chr by (apply sextet1; exact H1).
    rewrite a2b_chr by (apply sextet2; exact H2).
    rewrite a2b_chr by (apply sextet3; exact H3).
    rewrite a2b_chr by apply sextet4.
    rewrite IH. cbn [emit].
    rewrite octet1, octet2, octet3 by assumption.
    rewrite !byte_of_to_N. reflexivity.
Qed.

Lemma b2a_ascii (bs : bytes) : Forall (fun b => Byte.to_N b < 128) (b2a bs).
Proof.
  induction bs as [|b1|b1 b2|b1 b2 b3 rest IH] using list_ind3; cbn [b2a];
    repeat (apply Forall_cons; split);
    try apply chr_ascii; try reflexivity; try apply Forall_nil; auto.
Qed.

End Base64Facts.

Lemma b64decode_b64encode (bs : bytes) : b64decode (b64encode bs) = Ok bs.
Proof. apply Base64Facts.a2b_b2a. Qed.

Lemma b64encode_ascii (bs : bytes) :
  Forall (fun b => Byte.to_N b < 128) (b64encode bs).
Proof. apply Base64Facts.b2a_ascii. Qed.

(** ** UTF-8 of ASCII text *)

Lemma encode_decode_ascii (bs : bytes) :
  Forall (fun b => Byte.to_N b < 128) bs ->
  encode_utf8 (decode_ascii bs) = Ok bs.
Proof.
  induction 1 as [|b bs Hb _ IH]; [reflexivity|].
  cbn [decode_ascii map encode_utf8]. fold (decode_ascii bs). rewrite IH.
  unfold encode_codepoint.
  apply N.ltb_lt in Hb. rewrite Hb. cbn [bind app].
  rewrite byte_of_to_N. reflexivity.
Qed.

(** ** Digest lengths *)

Lemma sha256_length (msg : bytes) :
  length (Sha256.sha256 msg) = Sha256.digest_size.
Proof. reflexivity. Qed.

Lemma hmac_with_length (k0 msg : bytes) :
  length (hmac_with k0 msg) = Sha256.digest_size.
Proof. reflexivity. Qed.

Lemma xor_bytes_length (x y : bytes) :
  length (xor_bytes x y) = min (length x) (length y).
Proof.
  revert y. induction x as [|a x IH]; intros [|b y]; cbn; auto.
Qed.

Lemma pbkdf2_hmac_length (password salt : bytes) (iterations : N) :
  length (pbkdf2_hmac password salt iterations) = Sha256.digest_size.
Proof.
  unfold pbkdf2_hmac, pbkdf2_block.
  set (k0 := hmac_key password).
  set (u1 := hmac_with k0 _).
  cut (length (fst (N.iter (iterations - 1) (pbkdf2_step k0) (u1, u1)))
         = Sha256.digest_size
       /\ length (snd (N.iter (iterations - 1) (pbkdf2_step k0) (u1, u1)))
         = Sha256.digest_size).
  { tauto. }
  apply N.iter_invariant.
  - intros [u t] [Hu Ht]. cbn [fst snd] in *. unfold pbkdf2_step. cbn [fst snd].
    split; [apply hmac_with_length|].
    rewrite xor_bytes_length, Ht, hmac_with_length. reflexivity.
  - split; apply hmac_with_length.
Qed.

(** ** Hashing and verifying *)

Lemma hash_password_Ok (password : pystr) (pw salt : bytes) :
  encode_utf8 password = Ok pw ->
  hash_password password salt =
  Ok (decode_ascii (b64encode (salt ++ pbkdf2_hmac pw salt HASH_ITERS))).
Proof. intros H. unfold hash_password. rewrite H. reflexivity. Qed.

(** Verifying against a hash made by [hash_password] compares the two
    derived keys under the salt the hash was made with. *)
Lemma verify_hashed (salt dk : bytes) (attempt : pystr) (ab : bytes) :
  length salt = SALT_BYTES ->
  encode_utf8 attempt = Ok ab ->
  verify_password (Some (decode_ascii (b64encode (salt ++ dk)))) attempt =
  Ok (bool_decide (dk = pbkdf2_hmac ab salt HASH_ITERS)).
Proof.
  intros Hlen Ha. unfold verify_password, verify_password_body.
  cbn [bind].
  rewrite encode_decode_ascii by apply b64encode_ascii. cbn [bind].
  rewrite b64decode_b64encode. cbn [bind].
  rewrite Ha. cbn [bind try_except].
  rewrite take_app_length' by (symmetry; exact Hlen).
  rewrite drop_app_length' by (symmetry; exact Hlen).
  reflexivity.
Qed.

Lemma verify_unencodable (stored : option pystr) (attempt : pystr) e :
  encode_utf8 attempt = Raise e ->
  verify_password stored attempt = Ok false.
Proof.
  intros Ha. unfold verify_password, verify_password_body.
  destruct stored as [s|]; cbn [bind try_except]; [|reflexivity].
  destruct (encode_utf8 s); cbn [bind try_except]; [|reflexivity].
  destruct (b64decode a); cbn [bind try_except]; [|reflexivity].
  rewrite Ha. reflexivity.
Qed.

Lemma verify_password_returns (stored : option pystr) (attempt : pystr) :
  exists b, verify_password stored attempt = Ok b.
Proof.
  unfold verify_password.
  destruct (verify_password_body stored attempt) as [b|e]; cbn; eauto.
Qed.

(** HMAC pads its key with zero bytes, so a trailing NUL byte of a short
    key does not change the key block. *)
Lemma hmac_key_nul : hmac_key ["000"%byte] = hmac_key [].
Proof. reflexivity. Qed.

Lemma pbkdf2_hmac_nul (salt : bytes) (iterations : N) :
  pbkdf2_hmac ["000"%byte] salt iterations = pbkdf2_hmac [] salt iterations.
Proof. unfold pbkdf2_hmac. rewrite hmac_key_nul. reflexivity. Qed.

(** C1, as stated, fails: after [hash_password] of the one-character
    password U+0000, the empty string, a different string, verifies. *)
Lemma verify_accepts_empty_for_nul :
  nul_password <> [] /\
  exists h, hash_password nul_password sample_salt = Ok h
            /\ verify_password (Some h) [] = Ok true.
Proof.
  split; [discriminate|].
  eexists. split.
  - apply hash_password_Ok with (pw := ["000"%byte]). reflexivity.
  - rewrite verify_hashed with (ab := []) by reflexivity.
    rewrite pbkdf2_hmac_nul. rewrite bool_decide_eq_true_2; reflexivity.
Qed.

(** C1 (amended): for a salt of [SALT_BYTES] bytes, the hash stored by
    [hash_password] verifies for the password itself; any other string
    verifies exactly when the derived key of its UTF-8 encoding under the
    stored salt equals the password's, and is rejected otherwise. *)
Theorem hash_password_verify (password : pystr) (salt pw : bytes) :
  length salt = SALT_BYTES ->
  encode_utf8 password = Ok pw ->
  exists h,
    hash_password password salt = Ok h
    /\ verify_password (Some h) password = Ok true
    /\ (forall other ob,
          encode_utf8 other = Ok ob ->
          verify_password (Some h) other =
          Ok (bool_decide (pbkdf2_hmac pw salt HASH_ITERS
                           = pbkdf2_hmac ob salt HASH_ITERS)))
    /\ (forall other e,
          encode_utf8 other = Raise e ->
          verify_password (Some h) other = Ok false).
Proof.
  intros Hlen Hpw. eexists. split; [apply hash_password_Ok, Hpw|].
  split; [|split].
  - rewrite verify_hashed with (ab := pw) by assumption.
    rewrite bool_decide_eq_true_2; reflexivity.
  - intros other ob Hob. apply verify_hashed; assumption.
  - intros other e He. eapply verify_unencodable, He.
Qed.

Lemma hash_password_verify_witness :
  length sample_salt = SALT_BYTES
  /\ encode_utf8 nul_password = Ok ["000"%byte]
  /\ exists h,
       hash_password nul_password sample_salt = Ok h
       /\ verify_password (Some h) nul_password = Ok true
       /\ (forall other ob,
             encode_utf8 other = Ok ob ->
             verify_password (Some h) other =
             Ok (bool_decide (pbkdf2_hmac ["000"%byte] sample_salt HASH_ITERS
                              = pbkdf2_hmac ob sample_salt HASH_ITERS)))
       /\ (forall other e,
             encode_utf8 other = Raise e ->
             verify_password (Some h) other = Ok false).
Proof.
  split; [reflexivity|]. split; [reflexivity|].
  apply (hash_password_verify nul_password sample_salt ["000"%byte]);
    reflexivity.
Defined.

(** C7: [verify_password] returns a boolean for every stored hash and
    every attempt; it returns [False] whenever its body raises, in
    particular for a missing hash, a hash that is not encodable or not
    valid base64, and a hash too short to hold a derived key. *)
Theorem verify_password_never_raises (stored : option pystr)
    (attempt : pystr) :
  (exists b, verify_password stored attempt = Ok b)
  /\ (forall e, verify_password_body stored attempt = Raise e ->
                verify_password stored attempt = Ok false)
  /\ (stored = None -> verify_password stored attempt = Ok false)
  /\ (forall s e, stored = Some s -> encode_utf8 s = Raise e ->
                  verify_password stored attempt = Ok false)
  /\ (forall s bs e, stored = Some s -> encode_utf8 s = Ok bs ->
                     b64decode bs = Raise e ->
                     verify_password stored attempt = Ok false)
  /\ (forall s bs raw, stored = Some s -> encode_utf8 s = Ok bs ->
                       b64decode bs = Ok raw ->
                       (length raw <= SALT_BYTES)%nat ->
                       verify_password stored attempt = Ok false).
Proof.
  split; [apply verify_password_returns|].
  split; [intros e He; unfold verify_password; rewrite He; reflexivity|].
  split; [intros ->; reflexivity|].
  split; [|split].
  - intros s e -> He. unfold verify_password, verify_password_body.
    cbn [bind]. rewrite He. reflexivity.
  - intros s bs e -> Hs He. unfold verify_password, verify_password_body.
    cbn [bind]. rewrite Hs. cbn [bind]. rewrite He. reflexivity.
  - intros s bs raw -> Hs Hraw Hlen.
    unfold verify_password, verify_password_body.
    cbn [bind]. rewrite Hs. cbn [bind]. rewrite Hraw. cbn [bind].
    destruct (encode_utf8 attempt) as [ab|e]; [|reflexivity].
    cbn [bind try_except]. rewrite drop_ge by exact Hlen.
    unfold compare_digest. rewrite bool_decide_eq_false_2; [reflexivity|].
    intros Heq. apply (f_equal length) in Heq.
    rewrite pbkdf2_hmac_length in Heq. discriminate.
Qed.

Lemma verify_password_never_raises_witness :
  verify_password_body (Some [81]) alice = Raise BinasciiError
  /\ verify_password (Some [81]) alice = Ok false.
Proof.
  split; [reflexivity|].
  apply (proj1 (proj2 (verify_password_never_raises (Some [81]) alice))
           BinasciiError).
  reflexivity.
Defined.

Example verify_missing_hash : verify_password None alice = Ok false.
Proof. reflexivity. Qed.

Example verify_bad_base64 : verify_password (Some [81]) alice = Ok false.
Proof. reflexivity. Qed.

Example verify_surrogate : verify_password (Some [0xD800]) alice = Ok false.
Proof. reflexivity. Qed.

(** ** Binding parameters *)

Lemma encodable_Ok (s : pystr) :
  encodable s = true -> exists bs, encode_utf8 s = Ok bs.
Proof.
  unfold encodable. destruct (encode_utf8 s) as [bs|e]; [eauto|discriminate].
Qed.

Lemma sql_text_Ok (s : pystr) : encodable s = true -> sql_text s = Ok s.
Proof.
  intros [bs H]%encodable_Ok. unfold sql_text. rewrite H. reflexivity.
Qed.

Lemma sql_text_inv (s s' : pystr) :
  sql_text s = Ok s' -> s' = s /\ encodable s = true.
Proof.
  unfold sql_text, encodable. destruct (encode_utf8 s); [|discriminate].
  cbn [bind]. intros [= <-]. split; reflexivity.
Qed.

Lemma sql_text_Raise (s : pystr) (e : exn) :
  sql_text s = Raise e -> encodable s = false.
Proof.
  unfold sql_text, encodable. destruct (encode_utf8 s); [discriminate|].
  reflexivity.
Qed.

Lemma sql_text_cases (s : pystr) :
  (encodable s = true /\ sql_text s = Ok s)
  \/ (encodable s = false /\ exists e, sql_text s = Raise e).
Proof.
  unfold sql_text, encodable. destruct (encode_utf8 s); cbn [bind]; eauto.
Qed.

Lemma sql_int_Ok (n : Z) : (- 2 ^ 63 <= n < 2 ^ 63)%Z -> sql_int n = Ok n.
Proof.
  intros H. unfold sql_int.
  destruct (Z.leb_spec (- 2 ^ 63) n); [|lia].
  destruct (Z.ltb_spec n (2 ^ 63)); [reflexivity|lia].
Qed.

Lemma sql_int_inv (n n' : Z) :
  sql_int n = Ok n' -> n' = n /\ (- 2 ^ 63 <= n < 2 ^ 63)%Z.
Proof.
  unfold sql_int.
  destruct (Z.leb_spec (- 2 ^ 63) n); [|discriminate].
  destruct (Z.ltb_spec n (2 ^ 63)); [|discriminate].
  cbn [andb]. intros [= <-]. lia.
Qed.

Lemma sql_int_Raise (n : Z) (e : exn) :
  sql_int n = Raise e ->
  e = OverflowError /\ ~ (- 2 ^ 63 <= n < 2 ^ 63)%Z.
Proof.
  unfold sql_int.
  destruct (Z.leb_spec (- 2 ^ 63) n); destruct (Z.ltb_spec n (2 ^ 63));
    cbn [andb]; intros [=]; subst; split; try reflexivity; lia.
Qed.

(** The integer of an entry, as the callbacks pass it on, is bound when
    it fits. *)
Lemma sql_opt_int_fits (e : entry Z) (v : option Z) :
  (v = none_on_error (convert_or_zero 0%Z e)
   \/ v = mjoin (none_on_error (convert_if_present e))) ->
  (fits e = true /\ sql_opt sql_int v = Ok v)
  \/ (fits e = false /\ sql_opt sql_int v = Raise OverflowError).
Proof.
  destruct e as [|n|]; cbn; intros [->| ->]; cbn; auto.
  - unfold sql_int.
    destruct ((- 2 ^ 63 <=? n)%Z && (n <? 2 ^ 63)%Z); cbn; auto.
  - unfold sql_int.
    destruct ((- 2 ^ 63 <=? n)%Z && (n <? 2 ^ 63)%Z); cbn; auto.
Qed.

Lemma is_nan_not_zero (x : float) :
  PrimFloat.is_nan x = true -> (x =? 0)%float = false.
Proof.
  unfold PrimFloat.is_nan. rewrite !eqb_spec.
  destruct (Prim2SF x) as [s|s| |s m e]; cbn; try discriminate.
  - destruct s; discriminate.
  - reflexivity.
  - intros _. destruct s; reflexivity.
Qed.

Lemma get_user_Ok (db : DB) (name : pystr) :
  encodable name = true -> get_user db name = Ok (users db !! name).
Proof. intros H. unfold get_user. rewrite (sql_text_Ok _ H). reflexivity. Qed.

Lemma get_user_inv (db : DB) (name : pystr) (r : option user_row) :
  get_user db name = Ok r -> encodable name = true /\ r = users db !! name.
Proof.
  unfold get_user.
  destruct (sql_text_cases name) as [[H ->]|[H [e ->]]]; [|discriminate].
  cbn [bind]. intros [= <-]. auto.
Qed.

Lemma get_user_Raise (db : DB) (name : pystr) (e : exn) :
  get_user db name = Raise e -> encodable name = false.
Proof.
  unfold get_user.
  destruct (sql_text_cases name) as [[H ->]|[H [e' ->]]]; [discriminate|].
  auto.
Qed.

Lemma get_goals_Ok (db : DB) (name : pystr) :
  encodable name = true -> get_goals db name = Ok (goals db !! name).
Proof. intros H. unfold get_goals. rewrite (sql_text_Ok _ H). reflexivity. Qed.

(** ** Password reset *)

Lemma truthy_str_cons (v : option pystr) :
  truthy_str v = true -> exists c s, v = Some (c :: s).
Proof. destruct v as [[|c s]|]; cbn; try discriminate. eauto. Qed.

(** C3: when the user has a security question and the supplied answer
    does not verify against the stored answer hash, the reset flow leaves
    the database, and so the stored [password_hash], as it was. *)
Theorem forgot_password_wrong_answer (db : DB) (name : pystr)
    (user : user_row) (answer : pystr) (newpw : option pystr)
    (salt : bytes) :
  get_user db name = Ok (Some user) ->
  truthy_str (security_q user) = true ->
  verify_password (security_a_hash user) answer = Ok false ->
  let db' := fst (_forgot_password db (Some name) (Some answer) newpw salt) in
  db' = db
  /\ get_user db' name = Ok (Some user)
  /\ password_hash <$> users db' !! name = Some (password_hash user)
  /\ (name <> [] -> answer <> [] ->
      snd (_forgot_password db (Some name) (Some answer) newpw salt)
      = ErrorBox AnswerMismatch).
Proof.
  intros Hu Hq Hv db'.
  assert (E : db' = db).
  { subst db'. unfold _forgot_password.
    destruct name as [|c name]; [reflexivity|].
    rewrite Hu, Hq. cbn [negb].
    destruct answer as [|a answer]; [reflexivity|].
    rewrite Hv. reflexivity. }
  split; [exact E|]. split; [rewrite E; exact Hu|]. split.
  - rewrite E. unfold get_user, sql_text in Hu.
    destruct (encode_utf8 name); [|discriminate Hu].
    cbn [bind] in Hu. injection Hu as ->. reflexivity.
  - intros Hn Ha. unfold _forgot_password.
    destruct name as [|c name]; [congruence|].
    rewrite Hu, Hq. cbn [negb].
    destruct answer as [|a answer]; [congruence|].
    rewrite Hv. reflexivity.
Qed.

Lemma forgot_password_wrong_answer_witness :
  get_user sample_db alice = Ok (Some sample_user)
  /\ truthy_str (security_q sample_user) = true
  /\ verify_password (security_a_hash sample_user) alice = Ok false
  /\ fst (_forgot_password sample_db (Some alice) (Some alice)
                           (Some nul_password) sample_salt) = sample_db.
Proof.
  split; [reflexivity|]. split; [reflexivity|]. split; [reflexivity|].
  apply (forgot_password_wrong_answer sample_db alice sample_user alice
           (Some nul_password) sample_salt); reflexivity.
Defined.

(** ** Goals *)

Lemma sql_real_keeps (x : float) :
  PrimFloat.is_nan x = false -> (x =? 0)%float = false -> sql_real x = Some x.
Proof. intros H1 H2. unfold sql_real. rewrite H1, H2. reflexivity. Qed.

Lemma upsert_goals_Ok (db : DB) (name : pystr) (wg : option float)
    (sg : option Z) (cg sl : option float) :
  encodable name = true ->
  sql_opt sql_int sg = Ok sg ->
  upsert_goals db name wg sg cg sl
  = Ok (MkDB (users db) (daily db)
             (<[name := GoalsRow (sql_opt_real wg) sg (sql_opt_real cg)
                                 (sql_opt_real sl)]> (goals db))).
Proof.
  intros Hn Hs. unfold upsert_goals. rewrite (sql_text_Ok _ Hn). cbn [bind].
  rewrite Hs. cbn [bind].
  destruct (goals db !! name) as [old|] eqn:E; [|reflexivity].
  do 2 f_equal. apply map_eq. intros k.
  destruct (decide (k = name)) as [->|Hne].
  - rewrite lookup_alter_eq, lookup_insert_eq, E. reflexivity.
  - rewrite lookup_alter_ne, lookup_insert_ne by congruence. reflexivity.
Qed.

Lemma upsert_goals_inv (db db' : DB) (name : pystr) (wg : option float)
    (sg : option Z) (cg sl : option float) :
  upsert_goals db name wg sg cg sl = Ok db' ->
  encodable name = true /\ sql_opt sql_int sg = Ok sg.
Proof.
  unfold upsert_goals.
  destruct (sql_text_cases name) as [[H ->]|[H [e ->]]]; [|discriminate].
  cbn [bind]. intros E. split; [exact H|].
  destruct sg as [n|]; [|reflexivity]. cbn [sql_opt] in *.
  destruct (sql_int n) as [n'|e] eqn:En.
  - apply sql_int_inv in En as [-> _]. reflexivity.
  - destruct (goals db !! name); discriminate E.
Qed.

(** C8, as stated, fails: a goal given as NaN is kept as NULL, so the row
    does not hold the value supplied. *)
Lemma upsert_goals_nan_is_null :
  exists db',
    upsert_goals empty_db alice (Some nan) (Some 10000%Z) None None = Ok db'
    /\ get_goals db' alice
       = Ok (Some (GoalsRow None (Some 10000%Z) None None)).
Proof. eexists. split; vm_compute; reflexivity. Qed.

(** C8 (amended): [upsert_goals] returns exactly when the username can be
    encoded and the steps goal, if given, fits a signed 64-bit integer
    (otherwise it raises and stores nothing).  When it returns, the user's
    goals row holds the four supplied values as the table keeps them (a
    NaN as NULL, a zero as [0.0], any other number and an absent value
    unchanged), whatever row was stored before and whether or not one was;
    every other row and table is untouched. *)
Theorem upsert_goals_replaces (db : DB) (name : pystr)
    (wg : option float) (sg : option Z) (cg sl : option float) :
  ((exists db', upsert_goals db name wg sg cg sl = Ok db')
   <-> encodable name = true
       /\ forall n, sg = Some n -> (- 2 ^ 63 <= n < 2 ^ 63)%Z)
  /\ (forall db',
        upsert_goals db name wg sg cg sl = Ok db' ->
        get_goals db' name
        = Ok (Some (GoalsRow (sql_opt_real wg) sg (sql_opt_real cg)
                             (sql_opt_real sl)))
        /\ (forall other, other <> name ->
                          goals db' !! other = goals db !! other)
        /\ users db' = users db
        /\ daily db' = daily db)
  /\ (forall x, PrimFloat.is_nan x = false -> (x =? 0)%float = false ->
                sql_opt_real (Some x) = Some x)
  /\ sql_opt_real None = None.
Proof.
  split; [|split; [|split; [|reflexivity]]].
  - split.
    + intros [db' (Hn & Hs)%upsert_goals_inv]. split; [exact Hn|].
      intros n ->. cbn [sql_opt] in Hs.
      destruct (sql_int n) as [n'|e] eqn:En; [|discriminate Hs].
      apply sql_int_inv in En. tauto.
    + intros [Hn Hs]. eexists. apply upsert_goals_Ok; [exact Hn|].
      destruct sg as [n|]; [|reflexivity]. cbn [sql_opt].
      rewrite (sql_int_Ok n (Hs n eq_refl)). reflexivity.
  - intros db' E. pose proof (upsert_goals_inv _ _ _ _ _ _ _ E) as [Hn Hs].
    rewrite (upsert_goals_Ok db name wg sg cg sl Hn Hs) in E.
    injection E as <-. cbn [users daily goals].
    split; [|split; [|split; reflexivity]].
    + rewrite (get_goals_Ok _ _ Hn). cbn [goals].
      rewrite lookup_insert_eq. reflexivity.
    + intros other Hne. apply lookup_insert_ne. congruence.
  - intros x H1 H2. cbn [sql_opt_real]. apply sql_real_keeps; assumption.
Qed.

(** An absent argument clears what was stored: no field-level merge. *)
Example upsert_goals_clears :
  exists db1 db2,
    upsert_goals empty_db alice (Some 65%float) (Some 10000%Z)
                 (Some 500%float) (Some 8%float) = Ok db1
    /\ upsert_goals db1 alice None (Some 12000%Z) None None = Ok db2
    /\ get_goals db2 alice = Ok (Some (GoalsRow None (Some 12000%Z) None None)).
Proof. eexists. eexists. repeat split; vm_compute; reflexivity. Qed.

(** ** Daily entries *)

(** C2, as stated, fails: an entry whose four numeric fields are left
    empty is stored with zeros, not with nulls. *)
Lemma add_entry_blank_stores_zero :
  daily (fst (add_entry empty_db alice sample_date true
                        Blank Blank Blank Blank))
  = [DailyRow alice sample_date (Some 0%float) (Some 0%float)
              (Some 0%float) (Some 0%Z) None].
Proof. reflexivity. Qed.

Lemma stored_real_convert (e : entry float) :
  stored_real e
    (sql_opt_real (none_on_error (convert_or_zero (float_of_Z 0) e))).
Proof.
  unfold stored_real. destruct e as [|x|]; cbn [convert_or_zero none_on_error
                                                sql_opt_real].
  - split; [reflexivity|]. split; [intros [=]|intros x [=]].
  - split; [intros [=]|]. split; [intros [=]|]. intros y [= <-].
    unfold sql_real. pose proof (is_nan_not_zero x) as Hnan.
    destruct (PrimFloat.is_nan x);
      [rewrite (Hnan eq_refl); repeat split; intros; congruence|].
    destruct (x =? 0)%float; repeat split; intros; congruence.
  - split; [intros [=]|]. split; [reflexivity|intros x [=]].
Qed.

Lemma stored_int_convert (e : entry Z) :
  stored_int e (none_on_error (convert_or_zero 0%Z e)).
Proof.
  unfold stored_int. destruct e; cbn; repeat split; intros; congruence.
Qed.

Lemma add_daily_Ok (db : DB) (name date_str : pystr)
    (sl w c : option float) (st : option Z) :
  encodable name = true -> encodable date_str = true ->
  sql_opt sql_int st = Ok st ->
  add_daily db name date_str sl w c st None
  = Ok (MkDB (users db)
             (daily db ++ [DailyRow name date_str (sql_opt_real sl)
                                    (sql_opt_real w) (sql_opt_real c) st
                                    None])
             (goals db)).
Proof.
  intros Hn Hd Hs. unfold add_daily.
  rewrite (sql_text_Ok _ Hn), (sql_text_Ok _ Hd). cbn [bind].
  rewrite Hs. reflexivity.
Qed.

Lemma add_daily_inv (db db' : DB) (name date_str : pystr)
    (sl w c : option float) (st : option Z) :
  add_daily db name date_str sl w c st None = Ok db' ->
  encodable name = true /\ encodable date_str = true
  /\ sql_opt sql_int st = Ok st.
Proof.
  unfold add_daily.
  destruct (sql_text_cases name) as [[Hn ->]|[Hn [e ->]]]; [|discriminate].
  destruct (sql_text_cases date_str) as [[Hd ->]|[Hd [e ->]]];
    [|discriminate].
  cbn [bind]. intros E. split; [exact Hn|]. split; [exact Hd|].
  destruct st as [n|]; [|reflexivity]. cbn [sql_opt] in *.
  destruct (sql_int n) as [n'|e] eqn:En; [|discriminate E].
  apply sql_int_inv in En as [-> _]. reflexivity.
Qed.

(** C2 (amended): [add_entry] reports the entry as added exactly when the
    date is valid, the username and the date text can be encoded and the
    steps, if the field converts, fit a signed 64-bit integer.  It then
    appends one row, in which a numeric field left empty is stored as zero,
    a field whose text does not convert as NULL, and a field whose text
    converts as the number, except that a NaN is stored as NULL and a
    zero of either sign as [0.0].  In every other case nothing is
    stored. *)
Theorem add_entry_stores (db : DB) (user date_str : pystr)
    (date_is_iso : bool) (es ew ec : entry float) (est : entry Z) :
  let r := add_entry db user date_str date_is_iso es ew ec est in
  (snd r = InfoBox EntryAdded
   <-> date_is_iso = true /\ encodable user = true
       /\ encodable date_str = true /\ fits est = true)
  /\ (snd r = InfoBox EntryAdded ->
      exists row,
        daily (fst r) = daily db ++ [row]
        /\ username row = user /\ date row = date_str
        /\ stored_real es (sleep_hrs row)
        /\ stored_real ew (weight row)
        /\ stored_real ec (calories row)
        /\ stored_int est (steps row)
        /\ users (fst r) = users db /\ goals (fst r) = goals db)
  /\ (snd r <> InfoBox EntryAdded -> fst r = db)
  /\ (date_is_iso = true -> encodable user = true ->
      encodable date_str = true -> fits est = false ->
      snd r = Uncaught OverflowError).
Proof.
  intros r. subst r. unfold add_entry.
  destruct date_is_iso; cbn [negb];
    [|repeat split; try tauto; try discriminate;
      intros (H & _); discriminate H].
  set (sl := none_on_error (convert_or_zero (float_of_Z 0) es)).
  set (w := none_on_error (convert_or_zero (float_of_Z 0) ew)).
  set (c := none_on_error (convert_or_zero (float_of_Z 0) ec)).
  set (st := none_on_error (convert_or_zero 0%Z est)).
  destruct (add_daily db user date_str sl w c st None) as [db'|e] eqn:E.
  - pose proof (add_daily_inv _ _ _ _ _ _ _ _ E) as (Hn & Hd & Hs).
    rewrite (add_daily_Ok db user date_str sl w c st Hn Hd Hs) in E.
    injection E as <-. cbn [fst snd daily users goals].
    assert (Hf : fits est = true).
    { destruct (sql_opt_int_fits est st (or_introl eq_refl))
        as [[Hf _]|[_ Hr]]; [exact Hf|congruence]. }
    split; [tauto|]. split; [|split; [congruence|]].
    + intros _. eexists. split; [reflexivity|].
      cbn [username date sleep_hrs weight calories steps].
      split; [reflexivity|]. split; [reflexivity|].
      split; [apply stored_real_convert|].
      split; [apply stored_real_convert|].
      split; [apply stored_real_convert|].
      split; [apply stored_int_convert|]. split; reflexivity.
    + intros _ _ _ Hf'. congruence.
  - cbn [fst snd]. split; [|split; [discriminate|split; [reflexivity|]]].
    + split; [discriminate|]. intros (_ & Hn & Hd & Hf).
      destruct (sql_opt_int_fits est st (or_introl eq_refl))
        as [[_ Hs]|[Hf' _]]; [|congruence].
      rewrite (add_daily_Ok db user date_str sl w c st Hn Hd Hs) in E.
      discriminate E.
    + intros _ Hn Hd Hf.
      destruct (sql_opt_int_fits est st (or_introl eq_refl))
        as [[Hf' _]|[_ Hs]]; [congruence|].
      unfold add_daily in E.
      rewrite (sql_text_Ok _ Hn), (sql_text_Ok _ Hd) in E. cbn [bind] in E.
      rewrite Hs in E. cbn [bind] in E. congruence.
Qed.

(** ** Floats *)

Lemma Prim2SF_zero : Prim2SF 0 = S754_zero false.
Proof. reflexivity. Qed.

Lemma float_gt_not_lt (x : float) :
  (0 <? x)%float = true -> (x <? 0)%float = false.
Proof.
  rewrite !ltb_spec, Prim2SF_zero.
  destruct (Prim2SF x) as [[]|[]| |[] m e]; cbn; congruence.
Qed.

Lemma float_zero_not_lt (x : float) :
  (x =? 0)%float = true -> (x <? 0)%float = false /\ (0 <? x)%float = false.
Proof.
  rewrite !ltb_spec, eqb_spec, Prim2SF_zero.
  destruct (Prim2SF x) as [[]|[]| |[] m e]; cbn; try congruence; auto.
Qed.

Lemma classify_sign (slope : float) :
  ((slope <? 0)%float = true -> classify slope = Losing)
  /\ ((0 <? slope)%float = true -> classify slope = Gaining)
  /\ ((slope =? 0)%float = true -> classify slope = Stable).
Proof.
  unfold classify. repeat split.
  - intros ->. reflexivity.
  - intros H. rewrite (float_gt_not_lt _ H), H. reflexivity.
  - intros H. destruct (float_zero_not_lt _ H) as [-> ->]. reflexivity.
Qed.

Lemma float_falsy (a : float) :
  (a =? 0)%float = true -> float_truthy a = false.
Proof. unfold float_truthy. intros ->. reflexivity. Qed.

(** ** The weight trend is the least-squares slope *)

Lemma len_cons {A} (x : A) (l : list A) : len (x :: l) = Z.succ (len l).
Proof. unfold len. cbn [length]. lia. Qed.

Lemma len_seqZ {A} (m : Z) (l : list A) : len (seqZ m (len l)) = len l.
Proof. unfold len. rewrite length_seqZ. lia. Qed.

Lemma sum_seqZ (m : Z) (n : nat) :
  (2 * foldr Z.add 0 (seqZ m (Z.of_nat n))
   = Z.of_nat n * (2 * m + Z.of_nat n - 1))%Z.
Proof.
  revert m. induction n as [|n IH]; intros m.
  - rewrite seqZ_nil by lia. cbn [foldr]. lia.
  - rewrite seqZ_cons by lia.
    replace (Z.pred (Z.of_nat (S n))) with (Z.of_nat n) by lia.
    cbn [foldr]. specialize (IH (Z.succ m)). lia.
Qed.

(** The indices [0 .. k-1] sum to [k (k - 1) / 2]. *)
Lemma sum_indices {A} (l : list A) :
  foldr Z.add 0%Z (seqZ 0 (len l)) = (len l * (len l - 1) / 2)%Z.
Proof.
  unfold len. pose proof (sum_seqZ 0 (length l)) as H.
  apply Z.div_unique_exact; lia.
Qed.

(** One pass over the samples accumulates the two sums that the code
    takes over [zip(xs, ws)] and over [xs]. *)
Lemma ols_sums_spec (mx my : float) (ys : list float) :
  forall i num den,
    OLS.sums OLS.binary64 mx my i ys num den =
    (fold_left (fun acc x => (acc + x)%float)
       (map (fun xy => ((float_of_Z (fst xy) - mx) * (snd xy - my))%float)
            (combine (seqZ i (len ys)) ys)) num,
     fold_left (fun acc x => (acc + x)%float)
       (map (fun xi => ((float_of_Z xi - mx) * (float_of_Z xi - mx))%float)
            (seqZ i (len ys))) den).
Proof.
  induction ys as [|y ys IH]; intros i num den.
  - reflexivity.
  - rewrite len_cons, seqZ_cons by (unfold len; lia).
    rewrite Z.pred_succ. cbn [OLS.sums combine map fold_left fst snd].
    rewrite <- Z.add_1_r. apply IH.
Qed.

Lemma weight_trend_few (weights : list (option float)) :
  (length (not_none weights) < 3)%nat -> weight_trend weights = [].
Proof.
  intros H. unfold weight_trend, weight_trend_body.
  apply Nat.leb_gt in H. rewrite H. reflexivity.
Qed.

(** With three samples or more the [try] block raises nothing and its
    slope is [ols_slope]. *)
Lemma weight_trend_enough (weights : list (option float)) :
  (3 <= length (not_none weights))%nat ->
  weight_trend weights =
  [WeightTrend (ols_slope (not_none weights))
               (classify (ols_slope (not_none weights)))].
Proof.
  intros H. unfold weight_trend, weight_trend_body.
  set (ws := not_none weights) in *.
  rewrite (proj2 (Nat.leb_le _ _) H).
  assert (Hk : (len ws =? 0)%Z = false) by (apply Z.eqb_neq; unfold len; lia).
  unfold int_truediv, float_div_int.
  rewrite len_seqZ, Hk. cbn [bind].
  rewrite sum_indices.
  unfold ols_slope, OLS.slope. rewrite ols_sums_spec.
  unfold OLS.mean_index, OLS.mean, OLS.total, py_sum, float_truthy.
  cbn [OLS.binary64 OLS.zero OLS.add OLS.div OLS.of_int OLS.ratio
       OLS.is_zero].
  destruct (_ =? 0)%float; reflexivity.
Qed.

Lemma in_weight_trend weights x :
  In x (weight_trend weights) <->
  (3 <= length (not_none weights))%nat
  /\ x = WeightTrend (ols_slope (not_none weights))
                     (classify (ols_slope (not_none weights))).
Proof.
  destruct (le_lt_dec 3 (length (not_none weights))) as [Hk|Hk].
  - rewrite weight_trend_enough by exact Hk. cbn [In]. intuition.
  - rewrite weight_trend_few by exact Hk. cbn [In]. intuition lia.
Qed.

(** ** Lines of the insights text *)

Lemma in_average_line (line : float -> insight) avg x :
  In x (average_line line avg) <->
  exists a, avg = Some a /\ float_truthy a = true /\ x = line a.
Proof.
  unfold average_line. split.
  - destruct avg as [a|]; [|intros []].
    destruct (float_truthy a) eqn:E; [|intros []].
    intros [<-|[]]. eauto.
  - intros (a & -> & -> & ->). left. reflexivity.
Qed.

Lemma in_attainment_line (line : float -> insight) goal_set goal avg x :
  In x (attainment_line line goal_set goal avg) <->
  exists a, avg = Some a /\ goal_set = true /\ float_truthy a = true
            /\ x = line (a / goal * 100)%float.
Proof.
  unfold attainment_line. split.
  - destruct avg as [a|]; [|intros []].
    destruct goal_set; cbn [andb]; [|intros []].
    destruct (float_truthy a) eqn:E; [|intros []].
    intros [<-|[]]. eauto.
  - intros (a & -> & -> & -> & ->). left. reflexivity.
Qed.

Lemma in_goal_lines g avg_sleep avg_weight avg_cal avg_steps x :
  In x (goal_lines g avg_sleep avg_weight avg_cal avg_steps) <->
  (exists wg a, weight_goal g = Some wg /\ avg_weight = Some a
                /\ float_truthy wg = true /\ float_truthy a = true
                /\ x = WeightVsGoal a (a - wg)%float)
  \/ (exists sg a, steps_goal g = Some sg /\ avg_steps = Some a
                   /\ sg <> 0%Z /\ float_truthy a = true
                   /\ x = StepsAttainment (a / float_of_Z sg * 100)%float)
  \/ (exists cg a, calories_goal g = Some cg /\ avg_cal = Some a
                   /\ float_truthy cg = true /\ float_truthy a = true
                   /\ x = CaloriesAttainment (a / cg * 100)%float)
  \/ (exists sl a, sleep_goal g = Some sl /\ avg_sleep = Some a
                   /\ float_truthy sl = true /\ float_truthy a = true
                   /\ x = SleepAttainment (a / sl * 100)%float).
Proof.
  unfold goal_lines. rewrite !in_app_iff. split.
  - intros [H|[H|[H|H]]].
    + left. destruct (weight_goal g) as [wg|]; [|destruct H].
      destruct avg_weight as [a|]; [|destruct H].
      destruct (float_truthy wg) eqn:Twg; [|destruct H].
      destruct (float_truthy a) eqn:Ta; [|destruct H].
      destruct H as [<-|[]]. eauto 10.
    + right; left. destruct (steps_goal g) as [sg|]; [|destruct H].
      apply in_attainment_line in H as (a & -> & Hg & Ta & ->).
      apply negb_true_iff, Z.eqb_neq in Hg. eauto 10.
    + right; right; left. destruct (calories_goal g) as [cg|]; [|destruct H].
      apply in_attainment_line in H as (a & -> & Hg & Ta & ->). eauto 10.
    + right; right; right. destruct (sleep_goal g) as [sl|]; [|destruct H].
      apply in_attainment_line in H as (a & -> & Hg & Ta & ->). eauto 10.
  - intros [H|[H|[H|H]]].
    + left. destruct H as (wg & a & -> & -> & -> & -> & ->). left. reflexivity.
    + right; left. destruct H as (sg & a & -> & -> & Hg & Ta & ->).
      apply in_attainment_line. exists a.
      apply Z.eqb_neq in Hg. rewrite Hg. auto.
    + right; right; left. destruct H as (cg & a & -> & -> & Hg & Ta & ->).
      apply in_attainment_line. eauto.
    + right; right; right. destruct H as (sl & a & -> & -> & Hg & Ta & ->).
      apply in_attainment_line. eauto.
Qed.

Lemma float_of_int_int64 (k n : Z) :
  (0 <= k <= 2 ^ 63)%Z -> (- 2 ^ 63 <= n < 2 ^ 63)%Z ->
  float_of_int (k * n) = Ok (float_of_Z (k * n)).
Proof.
  intros Hk Hn. unfold float_of_int.
  destruct (Z.ltb_spec (Z.abs (k * n)) (2 ^ 1024 - 2 ^ 970)) as [_|H];
    [reflexivity|].
  exfalso. assert (Z.abs (k * n) <= 2 ^ 63 * 2 ^ 63)%Z.
  { rewrite Z.abs_mul. apply Z.mul_le_mono_nonneg; lia. }
  assert (2 ^ 63 * 2 ^ 63 < 2 ^ 1024 - 2 ^ 970)%Z by reflexivity. lia.
Qed.

(** An age read from an INTEGER column is a 64-bit integer. *)
Lemma calc_bmr_male (w h : float) (a : Z) :
  (- 2 ^ 63 <= a < 2 ^ 63)%Z ->
  calc_bmr w h a male
  = Some (py_round (10 * w + 6.25 * h - float_of_Z (5 * a) + 5)%float 1).
Proof.
  intros Ha. unfold calc_bmr, calc_bmr_body.
  rewrite (float_of_int_int64 5 a) by lia. reflexivity.
Qed.

Lemma in_body_lines u x :
  In x (body_lines u) <->
  exists row h w a,
    u = Some row /\ height_cm row = Some h /\ weight_kg row = Some w
    /\ age row = Some a
    /\ float_truthy h = true /\ float_truthy w = true /\ a <> 0%Z
    /\ (x = BMI (calc_bmi w h) (bmi_category (calc_bmi w h))
        \/ x = BMR (calc_bmr w h a male)).
Proof.
  unfold body_lines. split.
  - destruct u as [row|]; [|intros []].
    destruct (height_cm row) as [h|] eqn:Eh; [|intros []].
    destruct (weight_kg row) as [w|] eqn:Ew; [|intros []].
    destruct (age row) as [a|] eqn:Ea; [|intros []].
    destruct (float_truthy h) eqn:Th; [|intros []].
    destruct (float_truthy w) eqn:Tw; [|intros []].
    destruct (Z.eqb_spec a 0) as [|Hne]; [intros []|]. cbn [negb andb].
    intros H. exists row, h, w, a. repeat (split; [assumption || reflexivity|]).
    destruct H as [<-|[<-|[]]]; auto.
  - intros (row & h & w & a & -> & -> & -> & -> & -> & -> & Ha & Hx).
    apply Z.eqb_neq in Ha. rewrite Ha. cbn [negb andb].
    destruct Hx as [->| ->]; cbn; auto.
Qed.

(** The lines of a non-empty window, by origin. *)
Lemma in_refresh_insights rows g u x :
  rows <> [] ->
  In x (refresh_insights rows g u) <->
  x = Header (length rows)
  \/ In x (average_line AvgSleep (numeric_avg id (map sleep_hrs rows)))
  \/ In x (average_line AvgWeight (numeric_avg id (map weight rows)))
  \/ In x (average_line AvgCalories (numeric_avg id (map calories rows)))
  \/ In x (average_line AvgSteps (numeric_avg float_of_Z (map steps rows)))
  \/ (exists goals_,
        g = Some goals_
        /\ In x (goal_lines goals_
                   (numeric_avg id (map sleep_hrs rows))
                   (numeric_avg id (map weight rows))
                   (numeric_avg id (map calories rows))
                   (numeric_avg float_of_Z (map steps rows))))
  \/ In x (weight_trend (map weight rows))
  \/ In x (body_lines u).
Proof.
  intros Hrows. destruct rows as [|r rows]; [congruence|].
  unfold refresh_insights. cbv zeta.
  cbn [app In]. rewrite !in_app_iff.
  destruct g as [goals_|].
  - split.
    + intros [H|[H|[H|[H|[H|[H|[H|H]]]]]]]; eauto 12.
    + intros [H|[H|[H|[H|[H|[(g0 & [= <-] & H)|[H|H]]]]]]]; auto 12.
  - split.
    + intros [H|[H|[H|[H|[H|[[]|[H|H]]]]]]]; auto 12.
    + intros [H|[H|[H|[H|[H|[(g0 & [=] & H)|[H|H]]]]]]]; auto 12.
Qed.

Lemma refresh_insights_empty g u : refresh_insights [] g u = [NoData].
Proof. reflexivity. Qed.

Lemma numeric_avg_rows {A B} (to_float : A -> float)
    (column : B -> option A) (rows : list B) a :
  numeric_avg to_float (map column rows) = Some a -> rows <> [].
Proof. intros H ->. discriminate H. Qed.

Lemma weights_rows (rows : list daily_row) :
  (3 <= length (not_none (map weight rows)))%nat -> rows <> [].
Proof. intros H ->. cbn in H. lia. Qed.

(** The window is not empty when one of its columns has an average, when
    it holds three weights, or by assumption. *)
Ltac nonempty :=
  first [ assumption
        | eapply numeric_avg_rows; eassumption
        | eapply weights_rows; eassumption ].

(** The text holds exactly the lines [produced] describes. *)
Lemma refresh_insights_produced rows g u x :
  In x (refresh_insights rows g u) <-> produced rows g u x.
Proof.
  split.
  - destruct rows as [|r rs] eqn:E.
    { intros [<-|[]]. constructor. reflexivity. }
    rewrite <- E. assert (Hne : rows <> []) by (rewrite E; discriminate).
    clear E. intros H. apply in_refresh_insights in H; [|exact Hne].
    destruct H as [->|[H|[H|[H|[H|[(goals_ & Hg & H)|[H|H]]]]]]].
    + constructor; assumption.
    + apply in_average_line in H as (a & ? & ? & ->). constructor; assumption.
    + apply in_average_line in H as (a & ? & ? & ->). constructor; assumption.
    + apply in_average_line in H as (a & ? & ? & ->). constructor; assumption.
    + apply in_average_line in H as (a & ? & ? & ->). constructor; assumption.
    + apply in_goal_lines in H as [H|[H|[H|H]]];
        destruct H as (goal & a & ? & ? & ? & ? & ->).
      * eapply P_WeightVsGoal; eassumption.
      * eapply P_StepsAttainment; eassumption.
      * eapply P_CaloriesAttainment; eassumption.
      * eapply P_SleepAttainment; eassumption.
    + apply in_weight_trend in H as (Hk & ->). constructor; assumption.
    + apply in_body_lines in H
        as (row & h & w & a & ? & ? & ? & ? & ? & ? & ? & [-> | ->]).
      * eapply P_BMI; eassumption.
      * eapply P_BMR; eassumption.
  - intros H. destruct H.
    + subst rows. left. reflexivity.
    + apply in_refresh_insights; auto.
    + apply in_refresh_insights; [nonempty|].
      right; left. apply in_average_line. eauto.
    + apply in_refresh_insights; [nonempty|].
      do 2 right; left. apply in_average_line. eauto.
    + apply in_refresh_insights; [nonempty|].
      do 3 right; left. apply in_average_line. eauto.
    + apply in_refresh_insights; [nonempty|].
      do 4 right; left. apply in_average_line. eauto.
    + apply in_refresh_insights; [nonempty|].
      do 5 right; left. eexists; split; [eassumption|].
      apply in_goal_lines. left. eauto 10.
    + apply in_refresh_insights; [nonempty|].
      do 5 right; left. eexists; split; [eassumption|].
      apply in_goal_lines. right; left. eauto 10.
    + apply in_refresh_insights; [nonempty|].
      do 5 right; left. eexists; split; [eassumption|].
      apply in_goal_lines. right; right; left. eauto 10.
    + apply in_refresh_insights; [nonempty|].
      do 5 right; left. eexists; split; [eassumption|].
      apply in_goal_lines. right; right; right. eauto 10.
    + apply in_refresh_insights; [nonempty|].
      do 6 right; left. apply in_weight_trend. auto.
    + apply in_refresh_insights; [nonempty|].
      do 7 right. apply in_body_lines. eauto 15.
    + apply in_refresh_insights; [nonempty|].
      do 7 right. apply in_body_lines. eauto 15.
Qed.

Example insights_window3 :
  refresh_insights window3 (Some goals3) (Some user3)
  = [Header 3; AvgWeight 69; AvgSteps 8000; WeightVsGoal 69 4;
     StepsAttainment 80; WeightTrend (-1) Losing;
     BMI (Some 22.86%float) Normal; BMR (Some 1648.8%float)].
Proof. vm_compute. reflexivity. Qed.

(** ** Body indices in the insights *)

(** C4, as stated, fails: with weight and height in the profile but no
    age, a non-empty window reports no BMI. *)
Lemma bmi_omitted_without_age :
  weight_kg sample_user = Some 70%float
  /\ height_cm sample_user = Some 175%float
  /\ existsb is_BMI
       (refresh_insights
          [DailyRow alice sample_date None (Some 70%float) None None None]
          None (Some sample_user)) = false.
Proof. repeat split. Qed.

(** C4 (amended): the BMI line is reported exactly when the window is not
    empty and height, weight and age are all present and non-zero in the
    profile; it then holds [calc_bmi] of weight and height and its
    category. *)
Theorem bmi_reported_iff rows g u :
  (existsb is_BMI (refresh_insights rows g u) = true <->
   rows <> []
   /\ exists row h w a,
        u = Some row /\ height_cm row = Some h /\ weight_kg row = Some w
        /\ age row = Some a
        /\ float_truthy h = true /\ float_truthy w = true /\ a <> 0%Z)
  /\ (forall b c,
        In (BMI b c) (refresh_insights rows g u) ->
        exists row h w,
          u = Some row /\ height_cm row = Some h /\ weight_kg row = Some w
          /\ b = calc_bmi w h /\ c = bmi_category b).
Proof.
  split; [split|].
  - intros H. apply existsb_exists in H as (x & Hin & Hx).
    apply refresh_insights_produced in Hin.
    inversion Hin; subst; try discriminate Hx.
    split; [assumption|]. eauto 12.
  - intros (Hrows & row & h & w & a & Hu & Hh & Hw & Ha & Th & Tw & Hne).
    apply existsb_exists.
    exists (BMI (calc_bmi w h) (bmi_category (calc_bmi w h))).
    split; [|reflexivity].
    apply refresh_insights_produced. eapply P_BMI; eassumption.
  - intros b c Hin. apply refresh_insights_produced in Hin.
    inversion Hin; subst. eauto 10.
Qed.

Lemma bmi_reported_iff_witness :
  existsb is_BMI (refresh_insights window3 (Some goals3) (Some user3)) = true
  /\ window3 <> []
  /\ exists row h w a,
       Some user3 = Some row /\ height_cm row = Some h
       /\ weight_kg row = Some w /\ age row = Some a
       /\ float_truthy h = true /\ float_truthy w = true /\ a <> 0%Z.
Proof.
  split; [reflexivity|].
  apply (proj1 (proj1 (bmi_reported_iff window3 (Some goals3) (Some user3)))).
  reflexivity.
Defined.

Example bmi_example :
  calc_bmi 70 175 = Some 22.86%float
  /\ bmi_category (calc_bmi 70 175) = Normal.
Proof. split; reflexivity. Qed.

(** C9: a BMR line is reported only when weight, height and age are all
    present: exactly when the window is not empty and the three are present
    and non-zero.  It holds [calc_bmr] with the default sex, which for an
    age as the database holds it is the male-branch formula
    [10 w + 6.25 h - 5 age + 5] rounded to one decimal: 1648.8 for weight
    70, height 175 and age 30. *)
Theorem bmr_male_formula rows g u :
  (forall b,
      In (BMR b) (refresh_insights rows g u) <->
      rows <> []
      /\ exists row w h a,
           u = Some row /\ weight_kg row = Some w /\ height_cm row = Some h
           /\ age row = Some a
           /\ float_truthy h = true /\ float_truthy w = true /\ a <> 0%Z
           /\ b = calc_bmr w h a male)
  /\ (forall w h a,
        (- 2 ^ 63 <= a < 2 ^ 63)%Z ->
        calc_bmr w h a male
        = Some (py_round
                  (10 * w + 6.25 * h - float_of_Z (5 * a) + 5)%float 1))
  /\ calc_bmr 70 175 30 male = Some 1648.8%float
  /\ (10 * 70 + 6.25 * 175 - float_of_Z (5 * 30) + 5 = 1648.75)%float.
Proof.
  split; [|split; [|split; reflexivity]].
  - intros b. rewrite refresh_insights_produced. split.
    + intros H. inversion H; subst. split; [assumption|]. eauto 12.
    + intros (Hrows & row & w & h & a & Hu & Hw & Hh & Ha & Th & Tw & Hne
              & ->).
      eapply P_BMR; eassumption.
  - intros w h a Ha. apply calc_bmr_male, Ha.
Qed.

Lemma bmr_male_formula_witness :
  In (BMR (Some 1648.8%float))
     (refresh_insights window3 (Some goals3) (Some user3))
  /\ window3 <> []
  /\ exists row w h a,
       Some user3 = Some row /\ weight_kg row = Some w
       /\ height_cm row = Some h /\ age row = Some a
       /\ float_truthy h = true /\ float_truthy w = true /\ a <> 0%Z
       /\ Some 1648.8%float = calc_bmr w h a male.
Proof.
  split; [vm_compute; auto 10|].
  apply (proj1 (proj1 (bmr_male_formula window3 (Some goals3) (Some user3))
                      (Some 1648.8%float))).
  vm_compute; auto 10.
Defined.
(** ** Averages *)

(** C10: a metric whose average over the window is exactly zero gets no
    average line, exactly as when it has no sample at all. *)
Theorem zero_average_omitted rows g u :
  (forall a, numeric_avg id (map sleep_hrs rows) = Some a ->
             (a =? 0)%float = true ->
             forall v, ~ In (AvgSleep v) (refresh_insights rows g u))
  /\ (forall a, numeric_avg id (map weight rows) = Some a ->
                (a =? 0)%float = true ->
                forall v, ~ In (AvgWeight v) (refresh_insights rows g u))
  /\ (forall a, numeric_avg id (map calories rows) = Some a ->
                (a =? 0)%float = true ->
                forall v, ~ In (AvgCalories v) (refresh_insights rows g u))
  /\ (forall a, numeric_avg float_of_Z (map steps rows) = Some a ->
                (a =? 0)%float = true ->
                forall v, ~ In (AvgSteps v) (refresh_insights rows g u))
  /\ (forall line a, (a =? 0)%float = true ->
                     average_line line (Some a) = average_line line None).
Proof.
  repeat split.
  1-4: intros a Ha Hz v Hin; apply refresh_insights_produced in Hin;
       inversion Hin; subst;
       match goal with
       | H1 : numeric_avg _ _ = Some ?x, H2 : numeric_avg _ _ = Some a |- _ =>
           rewrite H1 in H2; injection H2 as ->
       end;
       apply float_falsy in Hz; congruence.
  intros line a Hz. unfold average_line. rewrite (float_falsy _ Hz).
  reflexivity.
Qed.

(** *** A metric recorded only as zero *)

Lemma float_zero_cases (x : float) :
  (x =? 0)%float = true -> x = 0%float \/ x = (-0)%float.
Proof.
  rewrite eqb_spec, Prim2SF_zero. intros H.
  rewrite <- (SF2Prim_Prim2SF x).
  destruct (Prim2SF x) as [[]|[]| |[] m e]; try discriminate H; auto.
Qed.

Lemma py_sum_zeros (xs : list float) :
  Forall (fun x => (x =? 0)%float = true) xs -> py_sum xs = 0%float.
Proof.
  unfold py_sum. induction 1 as [|x xs Hx _ IH]; [reflexivity|].
  cbn [fold_left].
  destruct (float_zero_cases x Hx) as [-> | ->]; exact IH.
Qed.

Lemma zero_over_count :
  forallb (fun k => (0 / float_of_Z (Z.of_nat k) =? 0)%float) (seq 1 30)
  = true.
Proof. vm_compute. reflexivity. Qed.

(** In a window of at most 30 samples (the size [refresh_insights] asks
    for), a metric whose recorded values are all zero has average zero. *)
Lemma numeric_avg_zeros (arr : list (option float)) :
  (1 <= length (not_none arr) <= 30)%nat ->
  Forall (fun x => (x =? 0)%float = true) (not_none arr) ->
  exists a, numeric_avg id arr = Some a /\ (a =? 0)%float = true.
Proof.
  intros Hlen Hz. unfold numeric_avg. rewrite map_id.
  destruct (not_none arr) as [|x xs] eqn:E; [cbn in Hlen; lia|].
  eexists. split; [reflexivity|].
  rewrite (py_sum_zeros _ Hz). unfold len.
  apply (proj1 (forallb_forall _ _) zero_over_count (length (x :: xs))).
  apply in_seq. lia.
Qed.

Lemma zero_average_omitted_witness :
  numeric_avg id (map sleep_hrs window3) = Some 0%float
  /\ (0 =? 0)%float = true
  /\ forall v,
       ~ In (AvgSleep v) (refresh_insights window3 (Some goals3) (Some user3)).
Proof.
  split; [reflexivity|]. split; [reflexivity|].
  apply (proj1 (zero_average_omitted window3 (Some goals3) (Some user3))
           0%float); reflexivity.
Defined.

Example zero_steps_omitted :
  let rows := [DailyRow alice sample_date (Some 7.5%float) None None
                        (Some 0%Z) None;
               DailyRow alice sample_date (Some 8%float) None None
                        (Some 0%Z) None] in
  numeric_avg float_of_Z (map steps rows) = Some 0%float
  /\ refresh_insights rows None None = [Header 2; AvgSleep 7.75].
Proof. split; reflexivity. Qed.

(** ** Goal attainment *)

(** C6: an attainment line for steps, calories or sleep is reported only
    when the goal and the average both exist: exactly when both exist and
    neither is zero.  It holds [avg / goal * 100].  The weight goal line,
    reported under the same condition, holds the average and the signed
    difference [avg - goal].  An average of 8000 steps against a goal of
    10000 gives 80.0. *)
Theorem goal_attainment rows g u :
  (forall p,
      In (StepsAttainment p) (refresh_insights rows g u) <->
      exists goals_ sg a,
        g = Some goals_ /\ steps_goal goals_ = Some sg
        /\ numeric_avg float_of_Z (map steps rows) = Some a
        /\ sg <> 0%Z /\ float_truthy a = true
        /\ p = (a / float_of_Z sg * 100)%float)
  /\ (forall p,
        In (CaloriesAttainment p) (refresh_insights rows g u) <->
        exists goals_ cg a,
          g = Some goals_ /\ calories_goal goals_ = Some cg
          /\ numeric_avg id (map calories rows) = Some a
          /\ float_truthy cg = true /\ float_truthy a = true
          /\ p = (a / cg * 100)%float)
  /\ (forall p,
        In (SleepAttainment p) (refresh_insights rows g u) <->
        exists goals_ sl a,
          g = Some goals_ /\ sleep_goal goals_ = Some sl
          /\ numeric_avg id (map sleep_hrs rows) = Some a
          /\ float_truthy sl = true /\ float_truthy a = true
          /\ p = (a / sl * 100)%float)
  /\ (forall a d,
        In (WeightVsGoal a d) (refresh_insights rows g u) <->
        exists goals_ wg,
          g = Some goals_ /\ weight_goal goals_ = Some wg
          /\ numeric_avg id (map weight rows) = Some a
          /\ float_truthy wg = true /\ float_truthy a = true
          /\ d = (a - wg)%float)
  /\ refresh_insights
       [DailyRow alice sample_date (Some 6%float) (Some 70%float)
                 (Some 400%float) (Some 7000%Z) None;
        DailyRow alice sample_date None None None None None;
        DailyRow alice sample_date (Some 8%float) (Some 68%float)
                 (Some 600%float) (Some 9000%Z) None]
       (Some (GoalsRow (Some 65%float) (Some 10000%Z) (Some 500%float)
                       (Some 8%float)))
       None
     = [Header 3; AvgSleep 7; AvgWeight 69; AvgCalories 500; AvgSteps 8000;
        WeightVsGoal 69 4; StepsAttainment 80; CaloriesAttainment 100;
        SleepAttainment 87.5].
Proof.
  split; [|split; [|split; [|split; [|reflexivity]]]].
  - intros p. rewrite refresh_insights_produced. split.
    + intros H. inversion H; subst. eauto 12.
    + intros (goals_ & sg & a & -> & Hs & Ha & Hne & Ta & ->).
      eapply P_StepsAttainment; eauto.
  - intros p. rewrite refresh_insights_produced. split.
    + intros H. inversion H; subst. eauto 12.
    + intros (goals_ & cg & a & -> & Hs & Ha & Hne & Ta & ->).
      eapply P_CaloriesAttainment; eauto.
  - intros p. rewrite refresh_insights_produced. split.
    + intros H. inversion H; subst. eauto 12.
    + intros (goals_ & sl & a & -> & Hs & Ha & Hne & Ta & ->).
      eapply P_SleepAttainment; eauto.
  - intros a d. rewrite refresh_insights_produced. split.
    + intros H. inversion H; subst. eauto 12.
    + intros (goals_ & wg & -> & Hs & Ha & Hne & Ta & ->).
      eapply P_WeightVsGoal; eauto.
Qed.

Lemma goal_attainment_witness :
  In (StepsAttainment 80)
     (refresh_insights window3 (Some goals3) (Some user3))
  /\ exists goals_ sg a,
       Some goals3 = Some goals_ /\ steps_goal goals_ = Some sg
       /\ numeric_avg float_of_Z (map steps window3) = Some a
       /\ sg <> 0%Z /\ float_truthy a = true
       /\ 80%float = (a / float_of_Z sg * 100)%float.
Proof.
  split; [vm_compute; auto 10|].
  apply (proj1 (proj1 (goal_attainment window3 (Some goals3) (Some user3))
                      80%float)).
  vm_compute; auto 10.
Defined.

Example weight_goal_difference :
  refresh_insights
    [DailyRow alice sample_date None (Some 69%float) None None None]
    (Some (GoalsRow (Some 72.5%float) None None None)) None
  = [Header 1; AvgWeight 69; WeightVsGoal 69 (-3.5)].
Proof. reflexivity. Qed.

(** ** Account creation and login *)

Lemma hash_password_inv (password : pystr) (salt : bytes) (h : pystr) :
  hash_password password salt = Ok h ->
  exists pw, encode_utf8 password = Ok pw
             /\ h = decode_ascii
                      (b64encode (salt ++ pbkdf2_hmac pw salt HASH_ITERS)).
Proof.
  unfold hash_password.
  destruct (encode_utf8 password) as [pw|e]; [|discriminate].
  cbn [bind]. intros [= <-]. eauto.
Qed.

Lemma verify_own_hash (password : pystr) (salt : bytes) (h : pystr) :
  length salt = SALT_BYTES ->
  hash_password password salt = Ok h ->
  verify_password (Some h) password = Ok true.
Proof.
  intros Hlen Hh. apply hash_password_inv in Hh as (pw & Hpw & ->).
  rewrite verify_hashed with (ab := pw) by assumption.
  rewrite bool_decide_eq_true_2; reflexivity.
Qed.

(** A hash is ASCII text, which is always bound. *)
Lemma hash_password_encodable (password : pystr) (salt : bytes) (h : pystr) :
  hash_password password salt = Ok h -> encodable h = true.
Proof.
  intros (pw & _ & ->)%hash_password_inv. unfold encodable.
  rewrite encode_decode_ascii by apply b64encode_ascii. reflexivity.
Qed.

Lemma hash_password_cases (password : pystr) (salt : bytes) :
  (encodable password = true /\ exists h, hash_password password salt = Ok h)
  \/ (encodable password = false
      /\ exists e, hash_password password salt = Raise e).
Proof.
  unfold hash_password, encodable.
  destruct (encode_utf8 password); cbn [bind]; eauto.
Qed.

Lemma sql_opt_text_Ok (v : option pystr) :
  (forall s, v = Some s -> encodable s = true) -> sql_opt sql_text v = Ok v.
Proof.
  destruct v as [s|]; [|reflexivity]. intros H. cbn [sql_opt].
  rewrite (sql_text_Ok s (H s eq_refl)). reflexivity.
Qed.

Lemma sql_opt_text_inv (v v' : option pystr) :
  sql_opt sql_text v = Ok v' ->
  v' = v /\ forall s, v = Some s -> encodable s = true.
Proof.
  destruct v as [s|]; cbn [sql_opt].
  - destruct (sql_text_cases s) as [[H ->]|[H [e ->]]]; [|discriminate].
    cbn [bind]. intros [= <-]. split; [reflexivity|]. intros s' [= <-].
    exact H.
  - intros [= <-]. split; [reflexivity|]. intros s [=].
Qed.

Lemma sql_opt_int_Ok (v : option Z) :
  (forall n, v = Some n -> (- 2 ^ 63 <= n < 2 ^ 63)%Z) ->
  sql_opt sql_int v = Ok v.
Proof.
  destruct v as [n|]; [|reflexivity]. intros H. cbn [sql_opt].
  rewrite (sql_int_Ok n (H n eq_refl)). reflexivity.
Qed.

Lemma sql_opt_int_inv (v v' : option Z) :
  sql_opt sql_int v = Ok v' ->
  v' = v /\ forall n, v = Some n -> (- 2 ^ 63 <= n < 2 ^ 63)%Z.
Proof.
  destruct v as [n|]; cbn [sql_opt].
  - destruct (sql_int n) as [n'|e] eqn:E; [|discriminate].
    apply sql_int_inv in E as [-> H]. cbn [bind]. intros [= <-].
    split; [reflexivity|]. intros n' [= <-]. exact H.
  - intros [= <-]. split; [reflexivity|]. intros n [=].
Qed.

Lemma create_user_Ok (db : DB) (name ph : pystr) (a : option Z)
    (h w : option float) (q sah : option pystr) :
  encodable name = true -> encodable ph = true ->
  (forall n, a = Some n -> (- 2 ^ 63 <= n < 2 ^ 63)%Z) ->
  (forall s, q = Some s -> encodable s = true) ->
  (forall s, sah = Some s -> encodable s = true) ->
  users db !! name = None ->
  create_user db name ph a h w q sah
  = Ok (MkDB (<[name := UserRow ph a (sql_opt_real h) (sql_opt_real w) q
                                sah]> (users db))
             (daily db) (goals db)).
Proof.
  intros Hn Hp Ha Hq Hs Hnone. unfold create_user.
  rewrite (sql_text_Ok _ Hn), (sql_text_Ok _ Hp). cbn [bind].
  rewrite (sql_opt_int_Ok _ Ha). cbn [bind].
  rewrite (sql_opt_text_Ok _ Hq). cbn [bind].
  rewrite (sql_opt_text_Ok _ Hs). cbn [bind].
  rewrite Hnone. reflexivity.
Qed.

Lemma create_user_inv (db db' : DB) (name ph : pystr) (a : option Z)
    (h w : option float) (q sah : option pystr) :
  create_user db name ph a h w q sah = Ok db' ->
  encodable name = true /\ encodable ph = true
  /\ (forall n, a = Some n -> (- 2 ^ 63 <= n < 2 ^ 63)%Z)
  /\ (forall s, q = Some s -> encodable s = true)
  /\ (forall s, sah = Some s -> encodable s = true)
  /\ users db !! name = None.
Proof.
  unfold create_user.
  destruct (sql_text_cases name) as [[Hn ->]|[Hn [e ->]]]; [|discriminate].
  destruct (sql_text_cases ph) as [[Hp ->]|[Hp [e ->]]]; [|discriminate].
  cbn [bind].
  destruct (sql_opt sql_int a) as [a'|e] eqn:Ea; [|discriminate].
  apply sql_opt_int_inv in Ea as [-> Ha]. cbn [bind].
  destruct (sql_opt sql_text q) as [q'|e] eqn:Eq; [|discriminate].
  apply sql_opt_text_inv in Eq as [-> Hq]. cbn [bind].
  destruct (sql_opt sql_text sah) as [s'|e] eqn:Es; [|discriminate].
  apply sql_opt_text_inv in Es as [-> Hs]. cbn [bind].
  destruct (users db !! name) eqn:Hnone; [discriminate|]. intros _.
  auto 10.
Qed.

(** The hash of the security answer, as [_create_account] computes it. *)
Lemma answer_hash_cases (sec_a : pystr) (sa_salt : bytes) :
  (encodable sec_a = true
   /\ exists sah,
        match sec_a with
        | [] => Ok None
        | _ :: _ => let* h := hash_password sec_a sa_salt in Ok (Some h)
        end = Ok sah
        /\ (sec_a = [] /\ sah = None
            \/ sec_a <> [] /\ exists h, hash_password sec_a sa_salt = Ok h
                                        /\ sah = Some h))
  \/ (encodable sec_a = false
      /\ exists e,
           match sec_a with
           | [] => Ok None
           | _ :: _ => let* h := hash_password sec_a sa_salt in Ok (Some h)
           end = Raise e).
Proof.
  destruct sec_a as [|c s].
  - left. split; [reflexivity|]. exists None. auto.
  - destruct (hash_password_cases (c :: s) sa_salt)
      as [[He [h Hh]]|[He [e Hh]]]; rewrite Hh; cbn [bind].
    + left. split; [exact He|]. exists (Some h). split; [reflexivity|].
      right. split; [discriminate|]. eauto.
    + right. split; [exact He|]. eauto.
Qed.

Lemma convert_if_present_cases {A} (e : entry A) :
  (valid e = true /\ convert_if_present e = Ok (entered e))
  \/ (valid e = false /\ convert_if_present e = Raise ValueError).
Proof. destruct e; cbn; auto. Qed.

Lemma fits_entered (e : entry Z) :
  fits e = true <-> forall n, entered e = Some n -> (- 2 ^ 63 <= n < 2 ^ 63)%Z.
Proof.
  destruct e as [|n|]; cbn [fits entered].
  - split; [intros _ n [=]|reflexivity].
  - rewrite andb_true_iff, Z.leb_le, Z.ltb_lt. split.
    + intros H n' [= <-]. exact H.
    + intros H. apply H. reflexivity.
  - split; [intros _ n [=]|reflexivity].
Qed.

Lemma encodable_or_none (s : pystr) :
  encodable s = true <-> forall t, or_none s = Some t -> encodable t = true.
Proof.
  destruct s as [|c s]; cbn [or_none].
  - split; [intros _ t [=]|reflexivity].
  - split; [intros H t [= <-]; exact H|]. intros H. apply H. reflexivity.
Qed.

(** The account is created when every step of [_create_account] goes
    through. *)
Lemma create_account_ok (db : DB) (user password : pystr)
    (su_age : entry Z) (su_height su_weight : entry float)
    (sec_q sec_a : pystr) (salt sa_salt : bytes) :
  user <> [] -> password <> [] -> get_user db user = Ok None ->
  encodable password = true -> encodable sec_a = true ->
  valid su_age = true -> valid su_height = true -> valid su_weight = true ->
  fits su_age = true -> encodable sec_q = true ->
  exists ph sah,
    hash_password password salt = Ok ph
    /\ (sec_a = [] /\ sah = None
        \/ sec_a <> [] /\ exists h, hash_password sec_a sa_salt = Ok h
                                    /\ sah = Some h)
    /\ _create_account db user password su_age su_height su_weight
                       sec_q sec_a salt sa_salt
       = (MkDB (<[user := UserRow ph (entered su_age)
                            (sql_opt_real (entered su_height))
                            (sql_opt_real (entered su_weight))
                            (or_none sec_q) sah]>
                  (users db))
               (daily db) (goals db),
          InfoBox AccountCreated).
Proof.
  intros Hu Hp Hg Hpw Hsa Ha Hh Hw Hf Hq.
  destruct (hash_password_cases password salt) as [[_ [ph Hph]]|[He _]];
    [|congruence].
  destruct (answer_hash_cases sec_a sa_salt)
    as [[_ (sah & Hsah & Hcase)]|[He _]]; [|congruence].
  exists ph, sah. split; [exact Hph|]. split; [exact Hcase|].
  unfold _create_account.
  destruct user as [|c user]; [congruence|].
  destruct password as [|p password]; [congruence|].
  rewrite Hg. cbn [bind]. rewrite Hph. cbn [bind]. rewrite Hsah. cbn [bind].
  destruct (convert_if_present_cases su_age) as [[_ ->]|[E _]];
    [|congruence].
  destruct (convert_if_present_cases su_height) as [[_ ->]|[E _]];
    [|congruence].
  destruct (convert_if_present_cases su_weight) as [[_ ->]|[E _]];
    [|congruence].
  cbn [bind].
  apply get_user_inv in Hg as [Hen Hnone].
  rewrite (create_user_Ok db (c :: user) ph (entered su_age)
             (entered su_height) (entered su_weight) (or_none sec_q) sah).
  - reflexivity.
  - exact Hen.
  - eapply hash_password_encodable, Hph.
  - apply fits_entered, Hf.
  - apply encodable_or_none, Hq.
  - intros s ->. destruct Hcase as [[_ [=]]|(_ & h & Hh' & [= ->])].
    eapply hash_password_encodable, Hh'.
  - symmetry. exact Hnone.
Qed.

Lemma create_account_notice (db : DB) (user password : pystr)
    (su_age : entry Z) (su_height su_weight : entry float)
    (sec_q sec_a : pystr) (salt sa_salt : bytes) :
  user <> [] -> password <> [] -> get_user db user = Ok None ->
  encodable password = true -> encodable sec_a = true ->
  valid su_age = true -> valid su_height = true -> valid su_weight = true ->
  fits su_age = true -> encodable sec_q = true ->
  snd (_create_account db user password su_age su_height su_weight
                       sec_q sec_a salt sa_salt) = InfoBox AccountCreated.
Proof.
  intros Hu Hp Hg Hpw Hsa Ha Hh Hw Hf Hq.
  destruct (create_account_ok db user password su_age su_height su_weight
              sec_q sec_a salt sa_salt Hu Hp Hg Hpw Hsa Ha Hh Hw Hf Hq)
    as (ph & sah & _ & _ & E).
  rewrite E. reflexivity.
Qed.

Lemma create_account_conditions (db : DB) (user password : pystr)
    (su_age : entry Z) (su_height su_weight : entry float)
    (sec_q sec_a : pystr) (salt sa_salt : bytes) :
  snd (_create_account db user password su_age su_height su_weight
                       sec_q sec_a salt sa_salt) = InfoBox AccountCreated ->
  user <> [] /\ password <> [] /\ get_user db user = Ok None
  /\ encodable password = true /\ encodable sec_a = true
  /\ valid su_age = true /\ valid su_height = true /\ valid su_weight = true
  /\ fits su_age = true /\ encodable sec_q = true.
Proof.
  unfold _create_account.
  destruct user as [|c user]; [cbn [snd]; intros [=]|].
  destruct password as [|p password]; [cbn [snd]; intros [=]|].
  destruct (get_user db (c :: user)) as [[old|]|e] eqn:Hg;
    cbn [bind snd]; [intros [=]| |intros [=]].
  destruct (hash_password_cases (p :: password) salt)
    as [[Hpw [ph ->]]|[_ [e ->]]]; cbn [bind snd]; [|intros [=]].
  destruct (answer_hash_cases sec_a sa_salt)
    as [[Hsa (sah & -> & _)]|[_ [e ->]]]; cbn [bind snd]; [|intros [=]].
  destruct (convert_if_present_cases su_age) as [[Ha ->]|[_ ->]];
    cbn [bind snd]; [|intros [=]].
  destruct (convert_if_present_cases su_height) as [[Hh ->]|[_ ->]];
    cbn [bind snd]; [|intros [=]].
  destruct (convert_if_present_cases su_weight) as [[Hw ->]|[_ ->]];
    cbn [bind snd]; [|intros [=]].
  destruct (create_user db (c :: user) ph (entered su_age)
              (entered su_height) (entered su_weight) (or_none sec_q) sah)
    as [db'|e] eqn:Hc; cbn [bind snd]; [|intros [=]].
  intros _. apply create_user_inv in Hc as (_ & _ & Hf & Hq & _ & _).
  repeat (split; [first [discriminate|reflexivity|assumption]|]).
  split; [apply fits_entered, Hf|apply encodable_or_none, Hq].
Qed.

Lemma notice_created_dec (n : notice) :
  n = InfoBox AccountCreated \/ n <> InfoBox AccountCreated.
Proof.
  destruct n as [|m|[]|e]; first [left; reflexivity|right; discriminate].
Qed.

Lemma create_account_unchanged (db : DB) (user password : pystr)
    (su_age : entry Z) (su_height su_weight : entry float)
    (sec_q sec_a : pystr) (salt sa_salt : bytes) :
  snd (_create_account db user password su_age su_height su_weight
                       sec_q sec_a salt sa_salt) <> InfoBox AccountCreated ->
  fst (_create_account db user password su_age su_height su_weight
                       sec_q sec_a salt sa_salt) = db.
Proof.
  unfold _create_account.
  destruct user as [|c user]; [reflexivity|].
  destruct password as [|p password]; [reflexivity|].
  destruct (get_user db (c :: user)) as [[old|]|e]; cbn [bind];
    [reflexivity| |reflexivity].
  destruct (hash_password (p :: password) salt) as [ph|e]; cbn [bind];
    [|reflexivity].
  match goal with
  | |- context [match sec_a with [] => ?a | _ :: _ => ?b end] =>
      destruct (match sec_a with [] => a | _ :: _ => b end) as [sah|e]
  end; cbn [bind]; [|reflexivity].
  destruct (convert_if_present su_age) as [a|e]; cbn [bind]; [|reflexivity].
  destruct (convert_if_present su_height) as [h|e]; cbn [bind];
    [|reflexivity].
  destruct (convert_if_present su_weight) as [w|e]; cbn [bind];
    [|reflexivity].
  destruct (create_user db (c :: user) ph a h w (or_none sec_q) sah)
    as [db'|e]; cbn [bind fst snd]; congruence.
Qed.

(** X7.  After [_create_account] has reported success with a salt of
    [SALT_BYTES] bytes, [login] with the same username and password logs
    the user in. *)
Lemma create_account_then_login (db : DB) (user password : pystr)
    (su_age : entry Z) (su_height su_weight : entry float)
    (sec_q sec_a : pystr) (salt sa_salt : bytes) :
  length salt = SALT_BYTES ->
  snd (_create_account db user password su_age su_height su_weight
                       sec_q sec_a salt sa_salt) = InfoBox AccountCreated ->
  login (fst (_create_account db user password su_age su_height su_weight
                              sec_q sec_a salt sa_salt)) user password
  = (Some user, Silent).
Proof.
  intros Hlen
    (Hu & Hp & Hg & Hpw & Hsa & Ha & Hh & Hw & Hf & Hq)%create_account_conditions.
  destruct (create_account_ok db user password su_age su_height su_weight
              sec_q sec_a salt sa_salt Hu Hp Hg Hpw Hsa Ha Hh Hw Hf Hq)
    as (ph & sah & Hph & _ & E).
  rewrite E. cbn [fst]. apply get_user_inv in Hg as [Hen _].
  unfold login. rewrite (get_user_Ok _ _ Hen). cbn [users].
  rewrite lookup_insert_eq. cbn [password_hash].
  rewrite (verify_own_hash _ _ _ Hlen Hph). reflexivity.
Qed.

Lemma forgot_password_cases (db : DB)
    (user_dialog answer_dialog newpw_dialog : option pystr) (salt : bytes) :
  let r := _forgot_password db user_dialog answer_dialog newpw_dialog salt in
  (fst r = db /\ snd r <> InfoBox PasswordReset)
  \/ exists name answer newpw ph user,
       user_dialog = Some name /\ answer_dialog = Some answer
       /\ newpw_dialog = Some newpw
       /\ name <> [] /\ answer <> [] /\ newpw <> []
       /\ encodable name = true
       /\ users db !! name = Some user
       /\ truthy_str (security_q user) = true
       /\ verify_password (security_a_hash user) answer = Ok true
       /\ hash_password newpw salt = Ok ph
       /\ r = (MkDB (alter (fun u => UserRow ph (age u) (height_cm u)
                                             (weight_kg u) (security_q u)
                                             (security_a_hash u))
                           name (users db))
                    (daily db) (goals db),
               InfoBox PasswordReset).
Proof.
  intros r. subst r. unfold _forgot_password.
  destruct user_dialog as [[|c name]|]; try (left; split; [reflexivity|discriminate]).
  destruct (get_user db (c :: name)) as [[row|]|e] eqn:Hg;
    try (left; split; [reflexivity|discriminate]).
  apply get_user_inv in Hg as [Hen Hrow].
  destruct (truthy_str (security_q row)) eqn:Hq; cbn [negb];
    [|left; split; [reflexivity|discriminate]].
  destruct answer_dialog as [[|a answer]|];
    try (left; split; [reflexivity|discriminate]).
  destruct (verify_password (security_a_hash row) (a :: answer))
    as [[|]|e] eqn:Hv; try (left; split; [reflexivity|discriminate]).
  destruct newpw_dialog as [[|p newpw]|];
    try (left; split; [reflexivity|discriminate]).
  destruct (hash_password (p :: newpw) salt) as [ph|e] eqn:Hh; cbn [bind];
    [|left; split; [reflexivity|discriminate]].
  unfold set_password.
  rewrite (sql_text_Ok _ (hash_password_encodable _ _ _ Hh)).
  rewrite (sql_text_Ok _ Hen). cbn [bind].
  right. exists (c :: name), (a :: answer), (p :: newpw), ph, row.
  repeat (split; [first [reflexivity|discriminate|assumption|congruence]|]).
  reflexivity.
Qed.

(** X12.  After [_forgot_password] has reported a reset made with a salt
    of [SALT_BYTES] bytes, [login] with the new password logs the user
    in. *)
Lemma reset_then_login (db : DB) (name answer newpw : pystr)
    (salt : bytes) :
  length salt = SALT_BYTES ->
  snd (_forgot_password db (Some name) (Some answer) (Some newpw) salt)
  = InfoBox PasswordReset ->
  login (fst (_forgot_password db (Some name) (Some answer) (Some newpw)
                               salt)) name newpw
  = (Some name, Silent).
Proof.
  intros Hlen Hs.
  destruct (forgot_password_cases db (Some name) (Some answer) (Some newpw)
              salt)
    as [[_ Hne]|(name' & answer' & newpw' & ph & user & [= <-] & [= <-]
                 & [= <-] & _ & _ & _ & Hen & Hrow & _ & _ & Hh & E)];
    [congruence|].
  rewrite E. cbn [fst]. unfold login. rewrite (get_user_Ok _ _ Hen).
  cbn [users]. rewrite lookup_alter_eq, Hrow.
  cbn [fmap option_fmap option_map password_hash].
  rewrite (verify_own_hash _ _ _ Hlen Hh). reflexivity.
Qed.

(** ** The formula is the least-squares solution *)

(** In exact arithmetic the slope formula, with the intercept that goes
    with it, minimises the sum of squared residuals over all lines. *)
Module OLSFacts.
Import OLS.
Local Open Scope R_scope.

Ltac moments := unfold count, Sx, Sy, Sxx, Sxy, Syy.

Lemma sse_moments a b i ys :
  sse a b i ys =
  Syy i ys - 2 * a * Sy i ys - 2 * b * Sxy i ys
  + count i ys * a * a + 2 * a * b * Sx i ys + b * b * Sxx i ys.
Proof.
  moments. revert i. induction ys as [|y ys IH]; intros i; cbn [sse isum].
  - ring.
  - rewrite IH. ring.
Qed.

Lemma centred_products mx my i ys :
  isum (fun x y => (x - mx) * (y - my)) i ys =
  Sxy i ys - mx * Sy i ys - my * Sx i ys + count i ys * mx * my.
Proof.
  moments. revert i. induction ys as [|y ys IH]; intros i; cbn [isum].
  - ring.
  - rewrite IH. ring.
Qed.

Lemma centred_squares mx i ys :
  isum (fun x _ => (x - mx) * (x - mx)) i ys =
  Sxx i ys - 2 * mx * Sx i ys + count i ys * mx * mx.
Proof.
  moments. revert i. induction ys as [|y ys IH]; intros i; cbn [isum].
  - ring.
  - rewrite IH. ring.
Qed.

Lemma sums_exact mx my ys :
  forall i num den,
    sums exact mx my i ys num den =
    (num + isum (fun x y => (x - mx) * (y - my)) i ys,
     den + isum (fun x _ => (x - mx) * (x - mx)) i ys).
Proof.
  induction ys as [|y ys IH]; intros i num den; cbn [sums isum].
  - f_equal; ring.
  - rewrite IH. cbn [exact add sub mul of_int]. f_equal; ring.
Qed.

Lemma total_exact ys i : total exact ys = Sy i ys.
Proof.
  unfold total, Sy. cbn [exact add zero].
  assert (H : forall acc j,
             fold_left Rplus ys acc = acc + isum (fun _ y => y) j ys).
  { induction ys as [|y ys IH]; intros acc j; cbn [fold_left isum].
    - ring.
    - rewrite (IH _ (j + 1)%Z). ring. }
  rewrite (H 0 i). ring.
Qed.

Lemma count_len i (ys : list R) : count i ys = IZR (len ys).
Proof.
  unfold count. revert i. induction ys as [|y ys IH]; intros i; cbn [isum].
  - reflexivity.
  - rewrite IH, len_cons, succ_IZR. ring.
Qed.

Lemma Sx_indices i (ys : list R) :
  Sx i ys = IZR (foldr Z.add 0%Z (seqZ i (len ys))).
Proof.
  unfold Sx. revert i. induction ys as [|y ys IH]; intros i; cbn [isum].
  - reflexivity.
  - rewrite len_cons, seqZ_cons by (unfold len; lia).
    rewrite Z.pred_succ. cbn [foldr]. rewrite plus_IZR, IH.
    rewrite <- Z.add_1_r. reflexivity.
Qed.

Lemma squares_nonneg mx i ys :
  0 <= isum (fun x _ => (x - mx) * (x - mx)) i ys.
Proof.
  revert i. induction ys as [|y ys IH]; intros i; cbn [isum].
  - lra.
  - specialize (IH (i + 1)%Z).
    pose proof (Rle_0_sqr (IZR i - mx)) as Hsq. unfold Rsqr in Hsq. lra.
Qed.

(** Two samples or more sit at two different indices. *)
Lemma squares_pos mx i ys :
  (2 <= length ys)%nat ->
  0 < isum (fun x _ => (x - mx) * (x - mx)) i ys.
Proof.
  destruct ys as [|y0 [|y1 ys]]; cbn [length]; try lia. intros _.
  cbn [isum]. pose proof (squares_nonneg mx (i + 1 + 1) ys) as H.
  rewrite plus_IZR.
  pose proof (Rle_0_sqr (IZR i - mx)) as H0.
  pose proof (Rle_0_sqr (IZR i + 1 - mx)) as H1. unfold Rsqr in H0, H1.
  destruct (Req_dec_T (IZR i - mx) 0) as [E|E].
  - assert (E1 : IZR i + 1 - mx = 1) by lra. rewrite E1 in *. lra.
  - pose proof (Rlt_0_sqr _ E) as H2. unfold Rsqr in H2. lra.
Qed.

Theorem slope_minimises (ys : list R) :
  (2 <= length ys)%nat ->
  let b := slope exact ys in
  let a := mean exact ys - b * mean_index exact (len ys) in
  forall a' b', sse a b 0 ys <= sse a' b' 0 ys.
Proof.
  intros Hlen b a a' b'.
  assert (Hk : 0 < IZR (len ys)) by (apply IZR_lt; unfold len; lia).
  set (mx := mean_index exact (len ys)) in *.
  set (my := mean exact ys) in *.
  assert (Hmx : IZR (len ys) * mx = Sx 0 ys).
  { subst mx. unfold mean_index. cbn [exact ratio].
    rewrite Sx_indices, sum_indices. field. lra. }
  assert (Hmy : IZR (len ys) * my = Sy 0 ys).
  { subst my. unfold mean. rewrite (total_exact ys 0).
    cbn [exact div of_int]. field. lra. }
  pose proof (squares_pos mx 0 ys Hlen) as Hden.
  assert (Hb : b * isum (fun x _ => (x - mx) * (x - mx)) 0 ys
               = isum (fun x y => (x - mx) * (y - my)) 0 ys).
  { subst b. unfold slope. fold mx my. rewrite sums_exact.
    cbn [exact zero is_zero div]. rewrite !Rplus_0_l.
    destruct (Req_dec_T _ 0) as [E|E]; [lra|]. field. exact E. }
  rewrite centred_squares in Hb, Hden. rewrite centred_products in Hb.
  rewrite !sse_moments. rewrite count_len in *.
  set (k := IZR (len ys)) in *.
  rewrite <- Hmx, <- Hmy in *.
  set (sxx := Sxx 0 ys) in *. set (sxy := Sxy 0 ys) in *.
  set (syy := Syy 0 ys) in *.
  assert (Hsxy : sxy = b * (sxx - k * mx * mx) + k * mx * my) by lra.
  subst a. rewrite Hsxy.
  assert (Hd : 0 < sxx - k * mx * mx) by lra.
  assert (Hsq : 0 <= k * ((a' - (my - b * mx) + (b' - b) * mx)
                          * (a' - (my - b * mx) + (b' - b) * mx))
                     + (b' - b) * (b' - b) * (sxx - k * mx * mx)).
  { apply Rplus_le_le_0_compat; apply Rmult_le_pos;
      try apply Rle_0_sqr; lra. }
  lra.
Qed.

End OLSFacts.

(** ** Weight trend *)

(** C5: a weight trend line is reported exactly when the window has at
    least three non-null weights; its slope is then the least-squares
    slope of those weights against their index [0 .. k-1], classified
    losing below zero, gaining above zero and stable at zero.  Weights
    70, 69, 68 give slope -1.0, losing.  The slope is [OLS.slope]
    evaluated in binary64; evaluated exactly, [OLS.slope] minimises the
    sum of squared residuals. *)
Theorem weight_trend_is_ols rows g u :
  (forall s t,
      In (WeightTrend s t) (refresh_insights rows g u) <->
      (3 <= length (not_none (map weight rows)))%nat
      /\ s = ols_slope (not_none (map weight rows)) /\ t = classify s)
  /\ (forall s,
        ((s <? 0)%float = true -> classify s = Losing)
        /\ ((0 <? s)%float = true -> classify s = Gaining)
        /\ ((s =? 0)%float = true -> classify s = Stable))
  /\ weight_trend [Some 70; Some 69; Some 68]%float
     = [WeightTrend (-1) Losing]
  /\ (ols_slope [70; 69; 68] = -1)%float
  /\ (forall (ys : list R) (a' b' : R),
        (2 <= length ys)%nat ->
        let b := OLS.slope OLS.exact ys in
        let a := (OLS.mean OLS.exact ys
                  - b * OLS.mean_index OLS.exact (len ys))%R in
        (OLS.sse a b 0 ys <= OLS.sse a' b' 0 ys)%R).
Proof.
  split; [|split; [apply classify_sign|split; [reflexivity|split]]];
    [|reflexivity|intros ys a' b' Hlen; apply OLSFacts.slope_minimises, Hlen].
  intros s t. rewrite refresh_insights_produced. split.
  - intros H. inversion H; subst. auto.
  - intros (Hk & -> & ->). constructor. exact Hk.
Qed.

Lemma weight_trend_is_ols_witness :
  In (WeightTrend (-1) Losing)
     (refresh_insights window3 (Some goals3) (Some user3))
  /\ (3 <= length (not_none (map weight window3)))%nat
  /\ (-1)%float = ols_slope (not_none (map weight window3))
  /\ Losing = classify (-1).
Proof.
  split; [vm_compute; auto 10|].
  apply (proj1 (proj1 (weight_trend_is_ols window3 (Some goals3)
                         (Some user3)) (-1)%float Losing)).
  vm_compute; auto 10.
Defined.

(** ** The layout of a stored hash *)

Lemma b2a_length (bs : bytes) :
  length (Base64.b2a bs) = (4 * ((length bs + 2) / 3))%nat.
Proof.
  induction bs as [|b1|b1 b2|b1 b2 b3 rest IH] using list_ind3;
    try reflexivity.
  cbn [Base64.b2a length]. rewrite IH.
  replace (S (S (S (length rest))) + 2)%nat
    with (length rest + 2 + 1 * 3)%nat by lia.
  rewrite Nat.div_add by lia. lia.
Qed.

Lemma decode_ascii_inj (a b : bytes) : decode_ascii a = decode_ascii b -> a = b.
Proof.
  revert b. induction a as [|x a IH]; intros [|y b] H; try discriminate H.
  - reflexivity.
  - cbn in H. injection H as Hxy Hab. f_equal.
    + rewrite <- (byte_of_to_N x), <- (byte_of_to_N y), Hxy. reflexivity.
    + apply IH, Hab.
Qed.

Lemma b64encode_inj (a b : bytes) : b64encode a = b64encode b -> a = b.
Proof.
  intros H. assert (E : Ok a = Ok b); [|congruence].
  rewrite <- (b64decode_b64encode a), <- (b64decode_b64encode b), H.
  reflexivity.
Qed.

Lemma decode_ascii_lt (bs : bytes) :
  Forall (fun b => Byte.to_N b < 128) bs ->
  Forall (fun c => c < 128) (decode_ascii bs).
Proof. unfold decode_ascii. intros H. rewrite Forall_map. exact H. Qed.

(** X1.  A stored hash has a fixed layout.  For a password that can be
    encoded and a salt of [SALT_BYTES] bytes, [hash_password] returns 64
    ASCII characters, and decoding them as [verify_password] does gives
    the salt followed by a derived key of 32 bytes. *)
Theorem hash_password_layout (password : pystr) (salt : bytes) :
  length salt = SALT_BYTES ->
  encodable password = true ->
  exists h dk,
    hash_password password salt = Ok h
    /\ length h = 64%nat
    /\ Forall (fun c => c < 128) h
    /\ (let* encoded := encode_utf8 h in b64decode encoded) = Ok (salt ++ dk)
    /\ length dk = Sha256.digest_size.
Proof.
  intros Hs [pw Hpw]%encodable_Ok.
  exists (decode_ascii (b64encode (salt ++ pbkdf2_hmac pw salt HASH_ITERS))),
         (pbkdf2_hmac pw salt HASH_ITERS).
  split; [apply hash_password_Ok, Hpw|].
  split.
  { unfold decode_ascii, b64encode. rewrite length_map, b2a_length.
    rewrite length_app, pbkdf2_hmac_length, Hs. reflexivity. }
  split; [apply decode_ascii_lt, b64encode_ascii|].
  split; [|apply pbkdf2_hmac_length].
  rewrite encode_decode_ascii by apply b64encode_ascii.
  apply b64decode_b64encode.
Qed.

Lemma hash_password_layout_witness :
  exists h dk,
    hash_password alice sample_salt = Ok h
    /\ length h = 64%nat
    /\ Forall (fun c => c < 128) h
    /\ (let* encoded := encode_utf8 h in b64decode encoded)
       = Ok (sample_salt ++ dk)
    /\ length dk = Sha256.digest_size.
Proof. apply (hash_password_layout alice sample_salt); reflexivity. Defined.

(** X2.  Salts of the same length that differ give stored hashes that
    differ, whatever the two passwords are: two accounts with the same
    password do not share a stored hash unless they share the salt. *)
Theorem hash_password_distinct_salts (p1 p2 : pystr) (s1 s2 : bytes)
    (h1 h2 : pystr) :
  length s1 = length s2 ->
  s1 <> s2 ->
  hash_password p1 s1 = Ok h1 ->
  hash_password p2 s2 = Ok h2 ->
  h1 <> h2.
Proof.
  intros Hlen Hne (pw1 & _ & ->)%hash_password_inv
         (pw2 & _ & ->)%hash_password_inv E.
  apply decode_ascii_inj, b64encode_inj, app_inj_1 in E; [|exact Hlen].
  apply Hne, E.
Qed.

Lemma hash_password_distinct_salts_witness :
  exists h1 h2,
    hash_password alice sample_salt = Ok h1
    /\ hash_password alice (rev sample_salt) = Ok h2
    /\ h1 <> h2.
Proof.
  eexists. eexists.
  split; [eapply hash_password_Ok; reflexivity|].
  split; [eapply hash_password_Ok; reflexivity|].
  apply (hash_password_distinct_salts alice alice sample_salt
           (rev sample_salt)).
  - reflexivity.
  - intros [=].
  - eapply hash_password_Ok; reflexivity.
  - eapply hash_password_Ok; reflexivity.
Defined.

(** X3.  A stored hash that decodes to anything but 48 bytes (the salt and
    a SHA-256 key) verifies no password: the empty text, a truncated or an
    extended hash are all refused, with [False] and without an
    exception. *)
Theorem verify_password_wrong_length (h : pystr) (raw : bytes)
    (attempt : pystr) :
  (let* encoded := encode_utf8 h in b64decode encoded) = Ok raw ->
  length raw <> (SALT_BYTES + Sha256.digest_size)%nat ->
  verify_password (Some h) attempt = Ok false.
Proof.
  intros Hraw Hlen. unfold verify_password, verify_password_body.
  cbn [bind]. destruct (encode_utf8 h) as [encoded|e]; [|discriminate Hraw].
  cbn [bind] in Hraw |- *. rewrite Hraw. cbn [bind].
  destruct (encode_utf8 attempt) as [ab|e]; [|reflexivity].
  cbn [bind try_except]. f_equal. apply bool_decide_eq_false_2.
  intros E. apply Hlen.
  rewrite <- (take_drop SALT_BYTES raw), length_app, E, pbkdf2_hmac_length.
  f_equal. rewrite length_take.
  assert (length (drop SALT_BYTES raw) = Sha256.digest_size)
    by (rewrite E; apply pbkdf2_hmac_length).
  rewrite length_drop in H. unfold Sha256.digest_size, SALT_BYTES in *. lia.
Qed.

Lemma verify_password_wrong_length_witness :
  (let* encoded := encode_utf8 [] in b64decode encoded) = Ok []
  /\ length (@nil byte) <> (SALT_BYTES + Sha256.digest_size)%nat
  /\ verify_password (Some []) alice = Ok false.
Proof.
  split; [reflexivity|]. split; [discriminate|].
  apply (verify_password_wrong_length [] [] alice); [reflexivity|discriminate].
Defined.

(** ** Accounts *)

(** X4.  [_create_account] reports that the account was created exactly
    when the username and the password are not empty, [get_user] returns
    and finds no such username, the password and the security answer can
    be encoded, no numeric field holds text that is not a number, the age
    fits a signed 64-bit integer and the security question can be encoded;
    in every other case the database is left as it was. *)
Theorem create_account_created_iff (db : DB) (user password : pystr)
    (su_age : entry Z) (su_height su_weight : entry float)
    (sec_q sec_a : pystr) (salt sa_salt : bytes) :
  let r := _create_account db user password su_age su_height su_weight
                           sec_q sec_a salt sa_salt in
  (snd r = InfoBox AccountCreated
   <-> user <> [] /\ password <> [] /\ get_user db user = Ok None
       /\ encodable password = true /\ encodable sec_a = true
       /\ valid su_age = true /\ valid su_height = true
       /\ valid su_weight = true
       /\ fits su_age = true /\ encodable sec_q = true)
  /\ (snd r <> InfoBox AccountCreated -> fst r = db).
Proof.
  intros r. split; [split|].
  - apply create_account_conditions.
  - intros (Hu & Hp & Hn & Hpw & Hsa & Ha & Hh & Hw & Hf & Hq).
    destruct (create_account_ok db user password su_age su_height su_weight
                sec_q sec_a salt sa_salt Hu Hp Hn Hpw Hsa Ha Hh Hw Hf Hq)
      as (ph & sah & _ & _ & E).
    subst r. rewrite E. reflexivity.
  - apply create_account_unchanged.
Qed.

(** X5.  When [_create_account] reports success, the new row holds the
    hash of the password under the first salt, the numbers entered as the
    table keeps them (NULL for an empty field and for a NaN, [0.0] for a
    zero), the security question (NULL when empty) and the hash of the
    answer under the second salt (NULL exactly when the answer is empty);
    the other users, [daily] and [goals] are untouched. *)
Theorem create_account_row (db : DB) (user password : pystr)
    (su_age : entry Z) (su_height su_weight : entry float)
    (sec_q sec_a : pystr) (salt sa_salt : bytes) :
  snd (_create_account db user password su_age su_height su_weight
                       sec_q sec_a salt sa_salt) = InfoBox AccountCreated ->
  let db' := fst (_create_account db user password su_age su_height
                                  su_weight sec_q sec_a salt sa_salt) in
  (exists row,
     get_user db' user = Ok (Some row)
     /\ hash_password password salt = Ok (password_hash row)
     /\ age row = entered su_age
     /\ height_cm row = sql_opt_real (entered su_height)
     /\ weight_kg row = sql_opt_real (entered su_weight)
     /\ security_q row = or_none sec_q
     /\ (security_a_hash row = None <-> sec_a = [])
     /\ (forall h, security_a_hash row = Some h ->
                   hash_password sec_a sa_salt = Ok h))
  /\ (forall other, other <> user ->
                    users db' !! other = users db !! other)
  /\ daily db' = daily db
  /\ goals db' = goals db.
Proof.
  intros (Hu & Hp & Hn & Hpw & Hsa & Ha & Hh & Hw & Hf & Hq)%create_account_conditions.
  destruct (create_account_ok db user password su_age su_height su_weight
              sec_q sec_a salt sa_salt Hu Hp Hn Hpw Hsa Ha Hh Hw Hf Hq)
    as (ph & sah & Hph & Hsah & E).
  rewrite E. cbn [fst]. cbn [users daily goals].
  apply get_user_inv in Hn as [Hen _].
  split; [|split; [|split; reflexivity]].
  - eexists. rewrite (get_user_Ok _ _ Hen). cbn [users].
    split; [rewrite lookup_insert_eq; reflexivity|]. cbn.
    split; [exact Hph|]. repeat (split; [reflexivity|]).
    destruct Hsah as [[-> ->]|(Hne & h & Hh' & ->)].
    + split; [tauto|intros h [=]].
    + split; [split; [intros [=]|intros; contradiction]|].
      intros h' [= <-]. exact Hh'.
  - intros other Ho. apply lookup_insert_ne. congruence.
Qed.

Lemma create_account_row_witness :
  let db' := fst (_create_account empty_db alice alice (Converts 30%Z) Blank
                    (Converts nan) [] [] sample_salt sample_salt) in
  (exists row,
     get_user db' alice = Ok (Some row)
     /\ hash_password alice sample_salt = Ok (password_hash row)
     /\ age row = entered (Converts 30%Z)
     /\ height_cm row = sql_opt_real (entered Blank)
     /\ weight_kg row = sql_opt_real (entered (Converts nan))
     /\ security_q row = or_none []
     /\ (security_a_hash row = None <-> @nil N = [])
     /\ (forall h, security_a_hash row = Some h ->
                   hash_password [] sample_salt = Ok h))
  /\ (forall other, other <> alice ->
                    users db' !! other = users empty_db !! other)
  /\ daily db' = daily empty_db
  /\ goals db' = goals empty_db.
Proof.
  apply (create_account_row empty_db alice alice (Converts 30%Z) Blank
           (Converts nan) [] [] sample_salt sample_salt).
  apply create_account_notice; first [reflexivity|discriminate].
Defined.

(** X6.  Text that is not a number in the age, height or weight field of
    the signup form is not reported in an error box: the conversion raises
    out of the callback ([ValueError] when the texts can be encoded), and
    no account is stored. *)
Theorem create_account_invalid_number (db : DB) (user password : pystr)
    (su_age : entry Z) (su_height su_weight : entry float)
    (sec_q sec_a : pystr) (salt sa_salt : bytes) :
  user <> [] -> password <> [] -> get_user db user = Ok None ->
  valid su_age && valid su_height && valid su_weight = false ->
  let r := _create_account db user password su_age su_height su_weight
                           sec_q sec_a salt sa_salt in
  fst r = db
  /\ exists e, snd r = Uncaught e
               /\ (encodable password = true -> encodable sec_a = true ->
                   e = ValueError).
Proof.
  intros Hu Hp Hn Hv r. subst r. unfold _create_account.
  destruct user as [|c user]; [congruence|].
  destruct password as [|p password]; [congruence|].
  rewrite Hn. cbn [bind].
  destruct (hash_password_cases (p :: password) salt)
    as [[Hpw [ph ->]]|[Hpw [e ->]]]; cbn [bind fst snd];
    [|split; [reflexivity|eexists; split; [reflexivity|congruence]]].
  destruct (answer_hash_cases sec_a sa_salt)
    as [[Hsa (sah & -> & _)]|[Hsa [e ->]]]; cbn [bind fst snd];
    [|split; [reflexivity|eexists; split; [reflexivity|congruence]]].
  destruct su_age; destruct su_height; destruct su_weight;
    try discriminate Hv; cbn [convert_if_present bind fst snd];
    (split; [reflexivity|eexists; split; reflexivity]).
Qed.

Lemma create_account_invalid_number_witness :
  let r := _create_account empty_db alice alice Invalid Blank Blank
                           [] [] sample_salt sample_salt in
  fst r = empty_db
  /\ exists e, snd r = Uncaught e
               /\ (encodable alice = true -> encodable [] = true ->
                   e = ValueError).
Proof.
  apply (create_account_invalid_number empty_db alice alice Invalid Blank
           Blank [] [] sample_salt sample_salt);
    first [reflexivity|discriminate].
Defined.

(** ** Login and password reset *)

Lemma create_account_then_login_witness :
  length sample_salt = SALT_BYTES
  /\ snd (_create_account empty_db alice alice Blank Blank Blank [] []
                          sample_salt sample_salt) = InfoBox AccountCreated
  /\ login (fst (_create_account empty_db alice alice Blank Blank Blank [] []
                                 sample_salt sample_salt)) alice alice
     = (Some alice, Silent).
Proof.
  assert (H : snd (_create_account empty_db alice alice Blank Blank Blank
                                   [] [] sample_salt sample_salt)
              = InfoBox AccountCreated)
    by (apply create_account_notice; first [reflexivity|discriminate]).
  split; [reflexivity|]. split; [exact H|].
  apply (create_account_then_login empty_db alice alice Blank Blank Blank
           [] [] sample_salt sample_salt); [reflexivity|exact H].
Defined.

Lemma encode_utf8_Raise (s : pystr) (e : exn) :
  encode_utf8 s = Raise e -> e = UnicodeEncodeError.
Proof.
  induction s as [|c s IH]; [discriminate|]. cbn [encode_utf8].
  unfold encode_codepoint.
  repeat match goal with
         | |- context [if ?b then _ else _] => destruct b
         end; cbn [bind];
    try (intros [= <-]; reflexivity);
    destruct (encode_utf8 s); cbn [bind]; try discriminate;
    intros [= <-]; apply IH; reflexivity.
Qed.

Lemma get_user_Raise_exn (db : DB) (name : pystr) (e : exn) :
  get_user db name = Raise e -> e = UnicodeEncodeError.
Proof.
  unfold get_user, sql_text.
  destruct (encode_utf8 name) as [bs|e'] eqn:E; [discriminate|].
  cbn [bind]. intros [= <-]. eapply encode_utf8_Raise, E.
Qed.

Lemma get_user_ext (db db' : DB) (u : pystr) :
  users db' !! u = users db !! u -> get_user db' u = get_user db u.
Proof.
  intros H. unfold get_user.
  destruct (sql_text_cases u) as [[_ ->]|[_ [e ->]]]; cbn [bind];
    [rewrite H|]; reflexivity.
Qed.

(** X8.  [login] has four outcomes.  When the username can be encoded:
    the user is logged in, silently, when the account exists and its
    stored hash verifies the password; "User not found" when there is no
    such account; "Password incorrect" when the account exists and the
    hash does not verify.  When the username cannot be encoded,
    [get_user] raises [UnicodeEncodeError] out of the callback and nobody
    is logged in. *)
Theorem login_outcomes (db : DB) (user password : pystr) :
  let r := login db user password in
  (r = (Some user, Silent)
   /\ encodable user = true
   /\ exists row, users db !! user = Some row
                  /\ verify_password (Some (password_hash row)) password
                     = Ok true)
  \/ (r = (None, ErrorBox UserNotFound)
      /\ encodable user = true /\ users db !! user = None)
  \/ (r = (None, ErrorBox PasswordIncorrect)
      /\ encodable user = true
      /\ exists row, users db !! user = Some row
                     /\ verify_password (Some (password_hash row)) password
                        = Ok false)
  \/ (r = (None, Uncaught UnicodeEncodeError) /\ encodable user = false).
Proof.
  intros r. subst r. unfold login.
  destruct (get_user db user) as [[row|]|e] eqn:Hg.
  - apply get_user_inv in Hg as [Hen Hrow].
    destruct (verify_password_returns (Some (password_hash row)) password)
      as [[|] E]; rewrite E.
    + left. eauto.
    + right. right. left. eauto.
  - apply get_user_inv in Hg as [Hen Hrow]. right. left. auto.
  - right. right. right.
    rewrite (get_user_Raise_exn _ _ _ Hg).
    split; [reflexivity|]. eapply get_user_Raise, Hg.
Qed.

Lemma forgot_password_ok (db : DB) (name answer newpw : pystr)
    (user : user_row) (salt : bytes) :
  name <> [] -> answer <> [] -> newpw <> [] ->
  get_user db name = Ok (Some user) ->
  truthy_str (security_q user) = true ->
  verify_password (security_a_hash user) answer = Ok true ->
  encodable newpw = true ->
  exists ph,
    hash_password newpw salt = Ok ph
    /\ _forgot_password db (Some name) (Some answer) (Some newpw) salt
       = (MkDB (alter (fun u => UserRow ph (age u) (height_cm u)
                                        (weight_kg u) (security_q u)
                                        (security_a_hash u))
                      name (users db))
               (daily db) (goals db),
          InfoBox PasswordReset).
Proof.
  intros Hn Ha Hp Hu Hq Hv Hpw.
  destruct (hash_password_cases newpw salt) as [[_ [ph Hph]]|[He _]];
    [|congruence].
  exists ph. split; [exact Hph|].
  unfold _forgot_password.
  destruct name as [|c name]; [congruence|].
  rewrite Hu, Hq. cbn [negb].
  destruct answer as [|a answer]; [congruence|].
  rewrite Hv.
  destruct newpw as [|p newpw]; [congruence|].
  rewrite Hph. cbn [bind]. unfold set_password.
  rewrite (sql_text_Ok _ (hash_password_encodable _ _ _ Hph)).
  apply get_user_inv in Hu as [Hen _].
  rewrite (sql_text_Ok _ Hen). reflexivity.
Qed.

(** X9.  Whatever is typed in its dialogs, [_forgot_password] never
    touches [daily] or [goals], changes no column of any user but
    [password_hash], changes no user but the one named in the first
    dialog, and changes nothing at all unless it reports that the password
    was reset. *)
Theorem forgot_password_frame (db : DB)
    (user_dialog answer_dialog newpw_dialog : option pystr) (salt : bytes) :
  let r := _forgot_password db user_dialog answer_dialog newpw_dialog salt in
  daily (fst r) = daily db
  /\ goals (fst r) = goals db
  /\ (forall u, option_Forall2 same_but_password
                  (users db !! u) (users (fst r) !! u))
  /\ (forall u, Some u <> user_dialog -> get_user (fst r) u = get_user db u)
  /\ (snd r <> InfoBox PasswordReset -> fst r = db).
Proof.
  intros r.
  assert (Hsame : forall u,
             option_Forall2 same_but_password (users db !! u) (users db !! u)).
  { intros u. destruct (users db !! u); constructor. repeat split. }
  destruct (forgot_password_cases db user_dialog answer_dialog newpw_dialog
              salt)
    as [[E Hne]|(name & answer & newpw & ph & user & -> & _ & _ & _ & _ & _
                 & _ & _ & _ & _ & _ & E)]; fold r in E.
  - rewrite E. repeat split; auto.
  - rewrite E. cbn [fst snd users daily goals].
    split; [reflexivity|]. split; [reflexivity|]. split; [|split].
    + intros u. destruct (decide (u = name)) as [->|Hne].
      * rewrite lookup_alter_eq. destruct (users db !! name); constructor.
        repeat split.
      * rewrite lookup_alter_ne by congruence. apply Hsame.
    + intros u Hu. apply get_user_ext. cbn [users].
      apply lookup_alter_ne. congruence.
    + congruence.
Qed.

(** X10.  An account stored without an answer hash (signup with an empty
    security answer) can never have its password reset: whatever answer is
    given, the database is unchanged and the dialog ends silently or with
    one of the two error boxes. *)
Theorem forgot_password_no_stored_answer (db : DB) (name : pystr)
    (user : user_row) (answer_dialog newpw_dialog : option pystr)
    (salt : bytes) :
  get_user db name = Ok (Some user) ->
  security_a_hash user = None ->
  let r := _forgot_password db (Some name) answer_dialog newpw_dialog salt in
  fst r = db
  /\ (snd r = Silent \/ snd r = ErrorBox NoSecurityQuestion
      \/ snd r = ErrorBox AnswerMismatch).
Proof.
  intros Hu Hnone r. subst r. unfold _forgot_password.
  destruct name as [|c name]; [auto|].
  rewrite Hu, Hnone.
  destruct (negb (truthy_str (security_q user))); [auto|].
  destruct answer_dialog as [[|a answer]|]; auto.
Qed.

Lemma forgot_password_no_stored_answer_witness :
  let r := _forgot_password (MkDB {[ alice := unanswered ]} [] ∅)
             (Some alice) (Some alice) (Some alice) sample_salt in
  fst r = MkDB {[ alice := unanswered ]} [] ∅
  /\ (snd r = Silent \/ snd r = ErrorBox NoSecurityQuestion
      \/ snd r = ErrorBox AnswerMismatch).
Proof.
  apply (forgot_password_no_stored_answer
           (MkDB {[ alice := unanswered ]} [] ∅) alice unanswered);
    reflexivity.
Defined.

Lemma signup_reset_notice (db : DB) (user password : pystr)
    (su_age : entry Z) (su_height su_weight : entry float)
    (sec_q sec_a : pystr) (salt sa_salt : bytes) (newpw : pystr)
    (salt' : bytes) :
  snd (_create_account db user password su_age su_height su_weight
                       sec_q sec_a salt sa_salt) = InfoBox AccountCreated ->
  sec_q <> [] -> sec_a <> [] -> length sa_salt = SALT_BYTES ->
  newpw <> [] -> encodable newpw = true ->
  exists ph db2,
    encodable user = true
    /\ hash_password newpw salt' = Ok ph
    /\ password_hash <$> users db2 !! user = Some ph
    /\ _forgot_password
         (fst (_create_account db user password su_age su_height su_weight
                               sec_q sec_a salt sa_salt))
         (Some user) (Some sec_a) (Some newpw) salt'
       = (db2, InfoBox PasswordReset).
Proof.
  intros Hc Hq Ha Hlen Hp Hpw.
  pose proof Hc as
    (Hu & Hp0 & Hn & Hpw0 & Hsa & Hage & Hh & Hw & Hf & Heq)%create_account_conditions.
  destruct (create_account_ok db user password su_age su_height su_weight
              sec_q sec_a salt sa_salt Hu Hp0 Hn Hpw0 Hsa Hage Hh Hw Hf Heq)
    as (ph0 & sah & Hph0 & [[-> _]|(_ & h & Hh' & ->)] & E);
    [congruence|].
  rewrite E. cbn [fst].
  set (db1 := MkDB _ _ _).
  apply get_user_inv in Hn as [Hen _].
  assert (Hg : get_user db1 user
               = Ok (Some (UserRow ph0 (entered su_age)
                             (sql_opt_real (entered su_height))
                             (sql_opt_real (entered su_weight))
                             (or_none sec_q) (Some h)))).
  { rewrite (get_user_Ok _ _ Hen). unfold db1. cbn [users].
    rewrite lookup_insert_eq. reflexivity. }
  destruct (forgot_password_ok db1 user sec_a newpw _ salt' Hu Ha Hp Hg)
    as (ph & Hph & E').
  - cbn [security_q]. destruct sec_q; [congruence|reflexivity].
  - cbn [security_a_hash]. apply (verify_own_hash _ _ _ Hlen Hh').
  - exact Hpw.
  - eexists. eexists. split; [exact Hen|]. split; [exact Hph|].
    split; [|exact E']. cbn [users]. rewrite lookup_alter_eq.
    unfold db1. cbn [users]. rewrite lookup_insert_eq. reflexivity.
Qed.

(** X11.  Signup, reset and login compose: after an account is created
    with a security question and an answer, [_forgot_password] accepts
    that answer, reports the reset, and [login] then accepts the new
    password. *)
Theorem signup_reset_login (db : DB) (user password : pystr)
    (su_age : entry Z) (su_height su_weight : entry float)
    (sec_q sec_a : pystr) (salt sa_salt : bytes) (newpw : pystr)
    (salt' : bytes) :
  snd (_create_account db user password su_age su_height su_weight
                       sec_q sec_a salt sa_salt) = InfoBox AccountCreated ->
  sec_q <> [] -> sec_a <> [] ->
  length sa_salt = SALT_BYTES -> length salt' = SALT_BYTES ->
  newpw <> [] -> encodable newpw = true ->
  let db1 := fst (_create_account db user password su_age su_height
                                  su_weight sec_q sec_a salt sa_salt) in
  let r := _forgot_password db1 (Some user) (Some sec_a) (Some newpw) salt' in
  snd r = InfoBox PasswordReset
  /\ login (fst r) user newpw = (Some user, Silent).
Proof.
  intros Hc Hq Ha Hlen Hlen' Hp Hpw db1 r.
  destruct (signup_reset_notice db user password su_age su_height su_weight
              sec_q sec_a salt sa_salt newpw salt' Hc Hq Ha Hlen Hp Hpw)
    as (ph & db2 & Hen & Hph & Hrow & E).
  subst r db1. rewrite E. cbn [fst snd]. split; [reflexivity|].
  unfold login. rewrite (get_user_Ok _ _ Hen).
  destruct (users db2 !! user) as [row|]; [|discriminate Hrow].
  cbn in Hrow. injection Hrow as ->.
  rewrite (verify_own_hash _ _ _ Hlen' Hph). reflexivity.
Qed.

Lemma signup_notice_sample :
  snd (_create_account empty_db alice alice Blank Blank Blank bob bob
                       sample_salt sample_salt) = InfoBox AccountCreated.
Proof. apply create_account_notice; first [reflexivity|discriminate]. Qed.

Lemma signup_reset_login_witness :
  let db1 := fst (_create_account empty_db alice alice Blank Blank Blank
                                  bob bob sample_salt sample_salt) in
  let r := _forgot_password db1 (Some alice) (Some bob) (Some bob)
                            sample_salt in
  snd r = InfoBox PasswordReset
  /\ login (fst r) alice bob = (Some alice, Silent).
Proof.
  apply (signup_reset_login empty_db alice alice Blank Blank Blank bob bob
           sample_salt sample_salt bob sample_salt);
    [apply signup_notice_sample|discriminate|discriminate|reflexivity
    |reflexivity|discriminate|reflexivity].
Defined.

Lemma reset_then_login_witness :
  let db1 := fst (_create_account empty_db alice alice Blank Blank Blank
                                  bob bob sample_salt sample_salt) in
  length sample_salt = SALT_BYTES
  /\ snd (_forgot_password db1 (Some alice) (Some bob) (Some bob)
                           sample_salt) = InfoBox PasswordReset
  /\ login (fst (_forgot_password db1 (Some alice) (Some bob) (Some bob)
                                  sample_salt)) alice bob
     = (Some alice, Silent).
Proof.
  intros db1.
  assert (H : snd (_forgot_password db1 (Some alice) (Some bob) (Some bob)
                                    sample_salt) = InfoBox PasswordReset).
  { assert (Hn : exists ph db2,
               encodable alice = true
               /\ hash_password bob sample_salt = Ok ph
               /\ password_hash <$> users db2 !! alice = Some ph
               /\ _forgot_password db1 (Some alice) (Some bob) (Some bob)
                                   sample_salt
                  = (db2, InfoBox PasswordReset)).
    { apply (signup_reset_notice empty_db alice alice Blank Blank Blank
               bob bob sample_salt sample_salt bob sample_salt);
        [apply signup_notice_sample|discriminate|discriminate|reflexivity
        |discriminate|reflexivity]. }
    destruct Hn as (ph & db2 & _ & _ & _ & E). rewrite E. reflexivity. }
  split; [reflexivity|]. split; [exact H|].
  apply (reset_then_login db1 alice bob bob sample_salt);
    [reflexivity|exact H].
Defined.

(** ** Goals and profile *)

(** X13.  [upsert_goals] keeps one row per user and the last write wins:
    after a call that returned, a second call for the same user has the
    result it would have had without the first: the same exception, or
    the same database. *)
Theorem upsert_goals_twice (db db1 : DB) (name : pystr)
    (wg wg' : option float) (sg sg' : option Z) (cg cg' sl sl' : option float) :
  upsert_goals db name wg sg cg sl = Ok db1 ->
  upsert_goals db1 name wg' sg' cg' sl'
  = upsert_goals db name wg' sg' cg' sl'.
Proof.
  intros E. pose proof (upsert_goals_inv _ _ _ _ _ _ _ E) as [Hn Hs].
  rewrite (upsert_goals_Ok db name wg sg cg sl Hn Hs) in E.
  injection E as <-.
  destruct (sql_opt sql_int sg') as [sg2|e] eqn:Es.
  - apply sql_opt_int_inv in Es as [-> Hs'].
    rewrite !upsert_goals_Ok by (try assumption; apply sql_opt_int_Ok, Hs').
    cbn [users daily goals]. do 2 f_equal. apply insert_insert_eq.
  - unfold upsert_goals. rewrite (sql_text_Ok _ Hn). cbn [bind goals].
    rewrite lookup_insert_eq, Es.
    destruct (goals db !! name); reflexivity.
Qed.

Lemma upsert_goals_twice_witness :
  exists db1,
    upsert_goals empty_db alice (Some 65%float) (Some 10000%Z)
                 (Some 500%float) (Some 8%float) = Ok db1
    /\ upsert_goals db1 alice None (Some (2 ^ 63)%Z) None None
       = upsert_goals empty_db alice None (Some (2 ^ 63)%Z) None None
    /\ upsert_goals db1 alice None (Some 12000%Z) None None
       = upsert_goals empty_db alice None (Some 12000%Z) None None.
Proof.
  eexists. split; [vm_compute; reflexivity|].
  split.
  - apply (upsert_goals_twice empty_db _ alice (Some 65%float) None
             (Some 10000%Z) (Some (2 ^ 63)%Z) (Some 500%float) None
             (Some 8%float) None).
    vm_compute; reflexivity.
  - apply (upsert_goals_twice empty_db _ alice (Some 65%float) None
             (Some 10000%Z) (Some 12000%Z) (Some 500%float) None
             (Some 8%float) None).
    vm_compute; reflexivity.
Defined.

Lemma entered_goal {A} (e : entry A) :
  mjoin (none_on_error (convert_if_present e)) = entered e.
Proof. destruct e; reflexivity. Qed.

Lemma upsert_goals_overflow (db : DB) (name : pystr) (wg : option float)
    (sg : option Z) (cg sl : option float) :
  encodable name = true ->
  sql_opt sql_int sg = Raise OverflowError ->
  upsert_goals db name wg sg cg sl = Raise OverflowError.
Proof.
  intros Hn Hs. unfold upsert_goals. rewrite (sql_text_Ok _ Hn). cbn [bind].
  rewrite Hs. destruct (goals db !! name); reflexivity.
Qed.

(** X14.  [save_goals] reports "Goals saved" exactly when the username
    can be encoded and the steps goal, if the field converts, fits a
    signed 64-bit integer; a steps goal that does not fit raises
    [OverflowError] out of the callback.  When the goals are saved, the
    row of the current user holds, for each field, the number it converts
    to as the table keeps it (a NaN as NULL, a zero as [0.0]) and NULL for
    a field that is empty or does not convert; the goals of the other
    users, [users] and [daily] are untouched.  Otherwise nothing is
    stored. *)
Theorem save_goals_stores (db : DB) (user : pystr) (goal_weight : entry float)
    (goal_steps : entry Z) (goal_cal goal_sleep : entry float) :
  let r := save_goals db user goal_weight goal_steps goal_cal goal_sleep in
  (snd r = InfoBox GoalsSaved
   <-> encodable user = true /\ fits goal_steps = true)
  /\ (snd r = InfoBox GoalsSaved ->
      get_goals (fst r) user
      = Ok (Some (GoalsRow (sql_opt_real (entered goal_weight))
                           (entered goal_steps)
                           (sql_opt_real (entered goal_cal))
                           (sql_opt_real (entered goal_sleep))))
      /\ (forall other, other <> user ->
                        goals (fst r) !! other = goals db !! other)
      /\ users (fst r) = users db
      /\ daily (fst r) = daily db)
  /\ (snd r <> InfoBox GoalsSaved -> fst r = db)
  /\ (encodable user = true -> fits goal_steps = false ->
      snd r = Uncaught OverflowError).
Proof.
  intros r. subst r. unfold save_goals. rewrite !entered_goal.
  assert (Hfit : (fits goal_steps = true
                  /\ sql_opt sql_int (entered goal_steps)
                     = Ok (entered goal_steps))
                 \/ (fits goal_steps = false
                     /\ sql_opt sql_int (entered goal_steps)
                        = Raise OverflowError)).
  { apply sql_opt_int_fits. right. symmetry. apply entered_goal. }
  destruct (sql_text_cases user) as [[Hn _]|[Hn [e He]]].
  - destruct Hfit as [[Hf Hs]|[Hf Hs]].
    + rewrite (upsert_goals_Ok db user _ _ _ _ Hn Hs). cbn [fst snd].
      split; [tauto|]. split; [|split; [congruence|congruence]].
      intros _. rewrite (get_goals_Ok _ _ Hn). cbn [goals users daily].
      rewrite lookup_insert_eq.
      split; [reflexivity|]. split; [|split; reflexivity].
      intros other Hne. apply lookup_insert_ne. congruence.
    + rewrite (upsert_goals_overflow db user _ _ _ _ Hn Hs). cbn [fst snd].
      split; [split; [discriminate|intros [_ H]; congruence]|].
      split; [discriminate|]. split; reflexivity.
  - unfold upsert_goals. rewrite He. cbn [bind fst snd].
    split; [split; [discriminate|intros [H _]; congruence]|].
    split; [discriminate|]. split; [reflexivity|congruence].
Qed.

Lemma update_user_info_Ok (db : DB) (name : pystr) (a : option Z)
    (h w : option float) :
  encodable name = true ->
  (forall n, a = Some n -> (- 2 ^ 63 <= n < 2 ^ 63)%Z) ->
  update_user_info db name a h w
  = Ok (MkDB
          (alter (fun u => UserRow (password_hash u) a (sql_opt_real h)
                                   (sql_opt_real w) (security_q u)
                                   (security_a_hash u))
                 name (users db))
          (daily db) (goals db)).
Proof.
  intros Hn Ha. unfold update_user_info.
  rewrite (sql_opt_int_Ok _ Ha). cbn [bind].
  rewrite (sql_text_Ok _ Hn). reflexivity.
Qed.

Lemma update_user_info_inv (db db' : DB) (name : pystr) (a : option Z)
    (h w : option float) :
  update_user_info db name a h w = Ok db' ->
  encodable name = true
  /\ forall n, a = Some n -> (- 2 ^ 63 <= n < 2 ^ 63)%Z.
Proof.
  unfold update_user_info.
  destruct (sql_opt sql_int a) as [a'|e] eqn:Ea; [|discriminate].
  apply sql_opt_int_inv in Ea as [-> Ha]. cbn [bind].
  destruct (sql_text_cases name) as [[Hn ->]|[Hn [e ->]]]; [|discriminate].
  auto.
Qed.

(** X15.  [update_user_info] returns exactly when the age, if given, fits
    a signed 64-bit integer and the username can be encoded.  It then
    overwrites age, height and weight of an existing user with the values
    given as the table keeps them, and keeps the stored hashes and the
    security question; for a username that does not exist it changes
    nothing; every login attempt has the same outcome after it as
    before. *)
Theorem update_user_info_keeps_credentials (db : DB) (name : pystr)
    (age_ : option Z) (height_ weight_ : option float) :
  ((exists db', update_user_info db name age_ height_ weight_ = Ok db')
   <-> encodable name = true
       /\ forall n, age_ = Some n -> (- 2 ^ 63 <= n < 2 ^ 63)%Z)
  /\ forall db',
       update_user_info db name age_ height_ weight_ = Ok db' ->
       (forall row, users db !! name = Some row ->
          users db' !! name
          = Some (UserRow (password_hash row) age_ (sql_opt_real height_)
                          (sql_opt_real weight_) (security_q row)
                          (security_a_hash row)))
       /\ (users db !! name = None -> db' = db)
       /\ (forall other, other <> name ->
                         users db' !! other = users db !! other)
       /\ (forall u password, login db' u password = login db u password)
       /\ daily db' = daily db
       /\ goals db' = goals db.
Proof.
  split.
  - split.
    + intros [db' H]. eapply update_user_info_inv, H.
    + intros [Hn Ha]. eexists. apply update_user_info_Ok; assumption.
  - intros db' E.
    pose proof (update_user_info_inv _ _ _ _ _ _ E) as [Hn Ha].
    rewrite (update_user_info_Ok db name age_ height_ weight_ Hn Ha) in E.
    injection E as <-. cbn [users daily goals].
    split; [|split; [|split; [|split; [|split; reflexivity]]]].
    + intros row Hrow. rewrite lookup_alter_eq, Hrow. reflexivity.
    + intros Hnone. destruct db as [us d g]. cbn [users daily goals] in *.
      f_equal. apply alter_id. intros x Hx. congruence.
    + intros other Hne. apply lookup_alter_ne. congruence.
    + intros u password. unfold login.
      destruct (sql_text_cases u) as [[Hu _]|[Hu [e He]]].
      * rewrite !(get_user_Ok _ _ Hu). cbn [users].
        destruct (decide (u = name)) as [->|Hne].
        -- rewrite lookup_alter_eq. destruct (users db !! name); reflexivity.
        -- rewrite lookup_alter_ne by congruence. reflexivity.
      * unfold get_user. rewrite He. reflexivity.
Qed.

(** ** The queries on [daily] *)

Lemma text_leb_total (a b : pystr) :
  text_leb a b = true \/ text_leb b a = true.
Proof.
  revert b. induction a as [|x a IH]; intros [|y b]; cbn [text_leb]; auto.
  destruct (N.ltb_spec x y), (N.ltb_spec y x); auto.
Qed.

Lemma text_leb_trans (a b c : pystr) :
  text_leb a b = true -> text_leb b c = true -> text_leb a c = true.
Proof.
  revert b c. induction a as [|x a IH]; intros [|y b] [|z c];
    cbn [text_leb]; try congruence.
  destruct (N.ltb_spec x y), (N.ltb_spec y x), (N.ltb_spec y z),
    (N.ltb_spec z y), (N.ltb_spec x z), (N.ltb_spec z x);
    try congruence; try lia.
  apply IH.
Qed.

#[local] Instance date_ge_total : Total date_ge.
Proof. intros r1 r2. unfold date_ge. apply text_leb_total. Qed.
#[local] Instance date_ge_trans : Transitive date_ge.
Proof. intros r1 r2 r3 H1 H2. unfold date_ge in *. eapply text_leb_trans; eauto. Qed.
#[local] Instance date_le_total : Total date_le.
Proof. intros r1 r2. unfold date_le. apply text_leb_total. Qed.
#[local] Instance date_le_trans : Transitive date_le.
Proof. intros r1 r2 r3 H1 H2. unfold date_le in *. eapply text_leb_trans; eauto. Qed.

Lemma sort_desc_orders : orders_by date_ge sort_desc.
Proof.
  intros l. split; [apply merge_sort_Permutation|].
  apply (StronglySorted_merge_sort date_ge).
Qed.

Lemma sort_asc_orders : orders_by date_le sort_asc.
Proof.
  intros l. split; [apply merge_sort_Permutation|].
  apply (StronglySorted_merge_sort date_le).
Qed.

Lemma rows_of_In (db : DB) (name : pystr) (r : daily_row) :
  In r (rows_of db name) <-> In r (daily db) /\ username r = name.
Proof.
  unfold rows_of. rewrite <- !list_elem_of_In, list_elem_of_filter. tauto.
Qed.

Lemma StronglySorted_take {A} (R : relation A) (l : list A) (n : nat) :
  StronglySorted R l -> StronglySorted R (take n l).
Proof.
  intros H. rewrite <- (take_drop n l) in H.
  apply StronglySorted_app_1_l in H. exact H.
Qed.

Lemma StronglySorted_reverse_flip {A} (R : relation A) (l : list A) :
  StronglySorted R l -> StronglySorted (flip R) (reverse l).
Proof.
  induction 1 as [|x l Hl IH Hx]; [rewrite reverse_nil; constructor|].
  rewrite reverse_cons.
  apply StronglySorted_app_2; [|exact IH|repeat constructor].
  intros a b Ha Hb. apply list_elem_of_singleton in Hb as ->.
  rewrite elem_of_reverse in Ha. rewrite Forall_forall in Hx.
  apply Hx, Ha.
Qed.

Lemma get_last_n_days_Ok (order : list daily_row -> list daily_row)
    (db : DB) (name : pystr) (n : nat) :
  encodable name = true -> (Z.of_nat n < 2 ^ 63)%Z ->
  get_last_n_days order db name n
  = Ok (reverse (take n (order (rows_of db name)))).
Proof.
  intros Hn Hlim. unfold get_last_n_days.
  rewrite (sql_text_Ok _ Hn). cbn [bind].
  rewrite sql_int_Ok by lia. reflexivity.
Qed.

Lemma get_last_n_days_inv (order : list daily_row -> list daily_row)
    (db : DB) (name : pystr) (n : nat) (rows : list daily_row) :
  get_last_n_days order db name n = Ok rows ->
  encodable name = true /\ (Z.of_nat n < 2 ^ 63)%Z
  /\ rows = reverse (take n (order (rows_of db name))).
Proof.
  unfold get_last_n_days.
  destruct (sql_text_cases name) as [[Hn ->]|[Hn [e ->]]]; [|discriminate].
  cbn [bind].
  destruct (sql_int (Z.of_nat n)) as [k|e] eqn:E; [|discriminate].
  apply sql_int_inv in E as [_ Hk]. cbn [bind]. intros [= <-].
  split; [exact Hn|]. split; [lia|reflexivity].
Qed.

(** X16.  For a username that can be encoded and a limit below 2^63,
    [get_last_n_days] returns [min n k] rows when the user has [k] rows,
    all of them rows of that user in [daily], oldest first. *)
Theorem get_last_n_days_sorted (order : list daily_row -> list daily_row)
    (db : DB) (name : pystr) (n : nat) :
  orders_by date_ge order ->
  encodable name = true -> (Z.of_nat n < 2 ^ 63)%Z ->
  exists rows,
    get_last_n_days order db name n = Ok rows
    /\ length rows = Nat.min n (length (rows_of db name))
    /\ (forall r, In r rows -> In r (daily db) /\ username r = name)
    /\ StronglySorted date_le rows.
Proof.
  intros Ho Hn Hlim. eexists.
  split; [apply get_last_n_days_Ok; assumption|].
  destruct (Ho (rows_of db name)) as [Hp Hs].
  split; [|split].
  - rewrite length_reverse, length_take, Hp. reflexivity.
  - intros r Hr. apply rows_of_In.
    rewrite <- list_elem_of_In in Hr |- *.
    rewrite elem_of_reverse in Hr. rewrite <- Hp.
    eapply subseteq_take, Hr.
  - apply (StronglySorted_reverse_flip date_ge), StronglySorted_take, Hs.
Qed.

Lemma get_last_n_days_sorted_witness :
  exists rows,
    get_last_n_days sort_desc sample_log alice 2 = Ok rows
    /\ length rows = Nat.min 2 (length (rows_of sample_log alice))
    /\ (forall r, In r rows -> In r (daily sample_log) /\ username r = alice)
    /\ StronglySorted date_le rows.
Proof.
  apply (get_last_n_days_sorted sort_desc sample_log alice 2);
    [apply sort_desc_orders|reflexivity|reflexivity].
Defined.

(** X17.  The rows [get_last_n_days] returns are the latest ones: the
    user's rows split into the rows returned and rows none of which is
    dated after a returned row; when the user has at most [n] rows, all of
    them are returned. *)
Theorem get_last_n_days_latest (order : list daily_row -> list daily_row)
    (db : DB) (name : pystr) (n : nat) :
  orders_by date_ge order ->
  encodable name = true -> (Z.of_nat n < 2 ^ 63)%Z ->
  exists rows,
    get_last_n_days order db name n = Ok rows
    /\ (exists older,
          rows ++ older ≡ₚ rows_of db name
          /\ forall r r', In r older -> In r' rows -> date_le r r')
    /\ ((length (rows_of db name) <= n)%nat -> rows ≡ₚ rows_of db name).
Proof.
  intros Ho Hn Hlim. eexists.
  split; [apply get_last_n_days_Ok; assumption|].
  destruct (Ho (rows_of db name)) as [Hp Hs].
  split.
  - exists (drop n (order (rows_of db name))). split.
    + rewrite reverse_Permutation, take_drop. exact Hp.
    + intros r r'. rewrite <- !list_elem_of_In, elem_of_reverse.
      intros Hr Hr'. rewrite <- (take_drop n (order (rows_of db name))) in Hs.
      apply (StronglySorted_app_1_elem_of _ _ _ _ _ Hs Hr' Hr).
  - intros Hle. rewrite reverse_Permutation, take_ge; [exact Hp|].
    rewrite Hp. exact Hle.
Qed.

Lemma get_last_n_days_latest_witness :
  get_last_n_days sort_desc sample_log alice 2
  = Ok [day 2 (Some 69%float); day 3 (Some 68%float)]
  /\ exists rows,
       get_last_n_days sort_desc sample_log alice 2 = Ok rows
       /\ (exists older,
             rows ++ older ≡ₚ rows_of sample_log alice
             /\ forall r r', In r older -> In r' rows -> date_le r r')
       /\ ((length (rows_of sample_log alice) <= 2)%nat ->
           rows ≡ₚ rows_of sample_log alice).
Proof.
  split; [vm_compute; reflexivity|].
  apply (get_last_n_days_latest sort_desc sample_log alice 2);
    [apply sort_desc_orders|reflexivity|reflexivity].
Defined.

Lemma sql_date_bound_Ok (d : option pystr) :
  (forall s, d = Some s -> encodable s = true) ->
  sql_date_bound d = Ok (if truthy_str d then d else None).
Proof.
  intros H. unfold sql_date_bound.
  destruct (truthy_str d); [apply sql_opt_text_Ok, H|reflexivity].
Qed.

Lemma after_start_truthy (d : option pystr) (r : daily_row) :
  after_start (if truthy_str d then d else None) r = after_start d r.
Proof. destruct d as [[|c s]|]; reflexivity. Qed.

Lemma before_end_truthy (d : option pystr) (r : daily_row) :
  before_end (if truthy_str d then d else None) r = before_end d r.
Proof. destruct d as [[|c s]|]; reflexivity. Qed.

(** X18.  For a username and bounds that can be encoded,
    [get_daily_range] returns, sorted by date, exactly the rows of the
    user whose date is not before [start_date] and not after [end_date];
    a bound that is [None] or the empty text does not restrict, so
    without bounds all rows of the user are returned. *)
Theorem get_daily_range_bounds (order : list daily_row -> list daily_row)
    (db : DB) (name : pystr) (start_date end_date : option pystr) :
  orders_by date_le order ->
  encodable name = true ->
  (forall s, start_date = Some s -> encodable s = true) ->
  (forall e, end_date = Some e -> encodable e = true) ->
  exists rows,
    get_daily_range order db name start_date end_date = Ok rows
    /\ (forall r, In r rows <->
                  In r (daily db) /\ username r = name
                  /\ (forall s, start_date = Some s -> s <> [] ->
                                text_leb s (date r) = true)
                  /\ (forall e, end_date = Some e -> e <> [] ->
                                text_leb (date r) e = true))
    /\ StronglySorted date_le rows
    /\ (truthy_str start_date = false -> truthy_str end_date = false ->
        rows ≡ₚ rows_of db name).
Proof.
  intros Ho Hn Hsd Hed. unfold get_daily_range.
  rewrite (sql_text_Ok _ Hn). cbn [bind].
  rewrite (sql_date_bound_Ok _ Hsd). cbn [bind].
  rewrite (sql_date_bound_Ok _ Hed). cbn [bind].
  eexists. split; [reflexivity|].
  match goal with |- context [order ?l] => destruct (Ho l) as [Hp Hs] end.
  split; [|split; [exact Hs|]].
  - intros r. rewrite <- list_elem_of_In, Hp, list_elem_of_In.
    rewrite filter_In, rows_of_In, andb_true_iff.
    rewrite after_start_truthy, before_end_truthy.
    assert (Ha : after_start start_date r = true
                 <-> forall s, start_date = Some s -> s <> [] ->
                               text_leb s (date r) = true).
    { destruct start_date as [[|c s]|]; cbn [after_start].
      - split; [intros _ s [= <-]; congruence|reflexivity].
      - split; [intros H s' [= <-] _; exact H|].
        intros H. apply H; [reflexivity|discriminate].
      - split; [intros _ s [=]|reflexivity]. }
    assert (Hb : before_end end_date r = true
                 <-> forall e, end_date = Some e -> e <> [] ->
                               text_leb (date r) e = true).
    { destruct end_date as [[|c s]|]; cbn [before_end].
      - split; [intros _ s [= <-]; congruence|reflexivity].
      - split; [intros H s' [= <-] _; exact H|].
        intros H. apply H; [reflexivity|discriminate].
      - split; [intros _ s [=]|reflexivity]. }
    rewrite Ha, Hb. tauto.
  - intros H1 H2. rewrite Hp. rewrite H1, H2.
    clear Hp Hs. induction (rows_of db name) as [|r l IH]; [reflexivity|].
    cbn [List.filter after_start before_end andb]. rewrite IH. reflexivity.
Qed.

Lemma get_daily_range_bounds_witness :
  get_daily_range sort_asc sample_log alice (Some (date (day 2 None)))
                  (Some [])
  = Ok [day 2 (Some 69%float); day 3 (Some 68%float)]
  /\ exists rows,
       get_daily_range sort_asc sample_log alice
                       (Some (date (day 2 None))) (Some []) = Ok rows
       /\ (forall r, In r rows <->
                     In r (daily sample_log) /\ username r = alice
                     /\ (forall s, Some (date (day 2 None)) = Some s ->
                                   s <> [] -> text_leb s (date r) = true)
                     /\ (forall e, Some [] = Some e -> e <> [] ->
                                   text_leb (date r) e = true))
       /\ StronglySorted date_le rows
       /\ (truthy_str (Some (date (day 2 None))) = false ->
           truthy_str (Some []) = false ->
           rows ≡ₚ rows_of sample_log alice).
Proof.
  split; [vm_compute; reflexivity|].
  apply (get_daily_range_bounds sort_asc sample_log alice);
    [apply sort_asc_orders|reflexivity| |].
  - intros s [= <-]. reflexivity.
  - intros e [= <-]. reflexivity.
Defined.

(** ** Insights read from the database *)

Lemma refresh_insights_head (rows : list daily_row) (g : option goals_row)
    (u : option user_row) :
  rows <> [] ->
  exists rest, refresh_insights rows g u = Header (length rows) :: rest.
Proof.
  intros H. destruct rows as [|r rs]; [congruence|].
  unfold refresh_insights. eexists. reflexivity.
Qed.

Lemma rows_of_app (db : DB) (v : pystr) (row : daily_row) :
  filter (fun r => username r = v) (daily db ++ [row])
  = rows_of db v ++ (if decide (username row = v) then [row] else []).
Proof. unfold rows_of. rewrite filter_app. reflexivity. Qed.

(** The three reads of [refresh_insights], for a username that is
    bound. *)
Lemma refresh_insights_db_Ok (order : list daily_row -> list daily_row)
    (db : DB) (u : pystr) :
  encodable u = true ->
  refresh_insights_db order db u
  = Ok (refresh_insights (reverse (take 30 (order (rows_of db u))))
                         (goals db !! u) (users db !! u)).
Proof.
  intros Hu. unfold refresh_insights_db.
  rewrite (get_last_n_days_Ok order db u 30 Hu) by reflexivity. cbn [bind].
  rewrite (get_goals_Ok _ _ Hu), (get_user_Ok _ _ Hu). cbn [bind].
  destruct (reverse (take 30 (order (rows_of db u)))); reflexivity.
Qed.

Lemma refresh_insights_db_Raise (order : list daily_row -> list daily_row)
    (db : DB) (u : pystr) :
  encodable u = false ->
  refresh_insights_db order db u = Raise UnicodeEncodeError.
Proof.
  intros Hu. unfold refresh_insights_db, get_last_n_days, sql_text.
  unfold encodable in Hu. destruct (encode_utf8 u) as [bs|e] eqn:E;
    [discriminate|].
  rewrite (encode_utf8_Raise _ _ E). reflexivity.
Qed.

Lemma last_30_length (order : list daily_row -> list daily_row) (db : DB)
    (u : pystr) :
  orders_by date_ge order ->
  length (reverse (take 30 (order (rows_of db u))))
  = Nat.min 30 (length (rows_of db u)).
Proof.
  intros Ho. destruct (Ho (rows_of db u)) as [Hp _].
  rewrite length_reverse, length_take, Hp. reflexivity.
Qed.

Lemma rows_of_nil (db : DB) (u : pystr) :
  rows_of db u = [] <-> forall r, In r (daily db) -> username r <> u.
Proof.
  split.
  - intros E r Hr Hu.
    assert (Hin : In r (rows_of db u)) by (apply rows_of_In; auto).
    rewrite E in Hin. destruct Hin.
  - intros H. destruct (rows_of db u) as [|r l] eqn:E; [reflexivity|].
    assert (Hin : In r (rows_of db u)) by (rewrite E; left; reflexivity).
    apply rows_of_In in Hin as [Hd Hu]. destruct (H r Hd Hu).
Qed.

(** X19.  For a username that can be encoded, the insights are computed,
    and they say "No data" exactly when [daily] holds no row of the user;
    otherwise the header counts the user's rows, capped at 30. *)
Theorem insights_no_data_iff (order : list daily_row -> list daily_row)
    (db : DB) (u : pystr) :
  orders_by date_ge order ->
  encodable u = true ->
  exists lines,
    refresh_insights_db order db u = Ok lines
    /\ (lines = [NoData] <-> forall r, In r (daily db) -> username r <> u)
    /\ (forall k, In (Header k) lines
                  <-> rows_of db u <> []
                      /\ k = Nat.min 30 (length (rows_of db u))).
Proof.
  intros Ho Hu. eexists. split; [apply refresh_insights_db_Ok, Hu|].
  pose proof (last_30_length order db u Ho) as Hlen.
  set (rows := reverse (take 30 (order (rows_of db u)))) in *.
  assert (He : rows = [] <-> rows_of db u = []).
  { split; intros E.
    - rewrite E in Hlen. cbn [length] in Hlen.
      destruct (rows_of db u); [reflexivity|cbn [length] in Hlen; lia].
    - rewrite E in Hlen. cbn in Hlen. destruct rows; [reflexivity|].
      discriminate Hlen. }
  split.
  - rewrite <- rows_of_nil, <- He. split.
    + intros H. destruct rows as [|d l] eqn:E; [reflexivity|].
      destruct (refresh_insights_head (d :: l) (goals db !! u)
                  (users db !! u)) as [rest Hr]; [discriminate|].
      rewrite Hr in H. discriminate H.
    + intros ->. reflexivity.
  - intros k. rewrite refresh_insights_produced, <- Hlen. split.
    + intros H. inversion H as [| Hne | | | | | | | | | | |].
      split; [|reflexivity]. rewrite <- He. exact Hne.
    + intros [Hne ->]. constructor. rewrite He. exact Hne.
Qed.

Lemma insights_no_data_iff_witness :
  exists lines,
    refresh_insights_db sort_desc sample_log alice = Ok lines
    /\ (lines = [NoData]
        <-> forall r, In r (daily sample_log) -> username r <> alice)
    /\ (forall k, In (Header k) lines
                  <-> rows_of sample_log alice <> []
                      /\ k = Nat.min 30 (length (rows_of sample_log alice))).
Proof.
  apply (insights_no_data_iff sort_desc sample_log alice);
    [apply sort_desc_orders|reflexivity].
Defined.

(** X20.  After [add_entry] has reported an entry as added, the insights
    of that user open with the header, counting one row more (capped at
    30): they never say "No data". *)
Theorem insights_after_entry (order : list daily_row -> list daily_row)
    (db : DB) (u date_str : pystr) (date_is_iso : bool)
    (es ew ec : entry float) (est : entry Z) :
  orders_by date_ge order ->
  snd (add_entry db u date_str date_is_iso es ew ec est)
  = InfoBox EntryAdded ->
  let db' := fst (add_entry db u date_str date_is_iso es ew ec est) in
  exists rest,
    refresh_insights_db order db' u
    = Ok (Header (Nat.min 30 (S (length (rows_of db u)))) :: rest).
Proof.
  intros Ho Hadded db'. subst db'. revert Hadded. unfold add_entry.
  destruct date_is_iso; cbn [negb]; [|intros [=]].
  set (sl := none_on_error (convert_or_zero (float_of_Z 0) es)).
  set (w := none_on_error (convert_or_zero (float_of_Z 0) ew)).
  set (c := none_on_error (convert_or_zero (float_of_Z 0) ec)).
  set (st := none_on_error (convert_or_zero 0%Z est)).
  destruct (add_daily db u date_str sl w c st None) as [db'|e] eqn:E;
    cbn [fst snd]; [|intros [=]].
  intros _.
  pose proof (add_daily_inv _ _ _ _ _ _ _ _ E) as (Hn & Hd & Hs).
  rewrite (add_daily_Ok db u date_str sl w c st Hn Hd Hs) in E.
  injection E as <-.
  rewrite (refresh_insights_db_Ok _ _ _ Hn).
  set (db' := MkDB _ _ _).
  assert (Hrows : length (rows_of db' u) = S (length (rows_of db u))).
  { unfold db'. unfold rows_of at 1. cbn [daily]. rewrite rows_of_app.
    cbn [username]. rewrite decide_True by reflexivity.
    rewrite length_app. cbn [length]. lia. }
  pose proof (last_30_length order db' u Ho) as Hlen.
  rewrite Hrows in Hlen. rewrite <- Hlen. 
  destruct (refresh_insights_head (reverse (take 30 (order (rows_of db' u))))
              (goals db' !! u) (users db' !! u)) as [rest Hr].
  { intros E. rewrite E in Hlen. cbn [length] in Hlen. lia. }
  exists rest. rewrite Hr. reflexivity.
Qed.

Lemma insights_after_entry_witness :
  snd (add_entry sample_log alice sample_date true Blank Blank Blank Blank)
  = InfoBox EntryAdded
  /\ exists rest,
       refresh_insights_db sort_desc
         (fst (add_entry sample_log alice sample_date true Blank Blank Blank
                         Blank)) alice
       = Ok (Header (Nat.min 30 (S (length (rows_of sample_log alice))))
               :: rest).
Proof.
  split; [reflexivity|].
  apply (insights_after_entry sort_desc sample_log alice sample_date true);
    [apply sort_desc_orders|reflexivity].
Defined.

(** X21.  The insights of a user depend on that user's data only: an
    entry added, or goals saved, by another user leave them unchanged. *)
Theorem insights_isolated (order : list daily_row -> list daily_row)
    (db : DB) (u v date_str : pystr) (date_is_iso : bool)
    (es ew ec : entry float) (est : entry Z) (gw : entry float)
    (gs : entry Z) (gc gsl : entry float) :
  v <> u ->
  refresh_insights_db order
    (fst (add_entry db u date_str date_is_iso es ew ec est)) v
  = refresh_insights_db order db v
  /\ refresh_insights_db order (fst (save_goals db u gw gs gc gsl)) v
     = refresh_insights_db order db v.
Proof.
  intros Hne.
  destruct (sql_text_cases v) as [[Hv _]|[Hv _]];
    [|rewrite !refresh_insights_db_Raise by exact Hv; split; reflexivity].
  rewrite !refresh_insights_db_Ok by exact Hv. split.
  - unfold add_entry. destruct date_is_iso; [|reflexivity]. cbn [negb].
    set (sl := none_on_error (convert_or_zero (float_of_Z 0) es)).
    set (w := none_on_error (convert_or_zero (float_of_Z 0) ew)).
    set (c := none_on_error (convert_or_zero (float_of_Z 0) ec)).
    set (st := none_on_error (convert_or_zero 0%Z est)).
    destruct (add_daily db u date_str sl w c st None) as [db'|e] eqn:E;
      cbn [fst]; [|reflexivity].
    pose proof (add_daily_inv _ _ _ _ _ _ _ _ E) as (Hn & Hd & Hs).
    rewrite (add_daily_Ok db u date_str sl w c st Hn Hd Hs) in E.
    injection E as <-. cbn [users goals]. unfold rows_of at 1. cbn [daily].
    rewrite rows_of_app. cbn [username].
    rewrite decide_False, app_nil_r by congruence. reflexivity.
  - unfold save_goals. rewrite !entered_goal.
    destruct (upsert_goals db u (entered gw) (entered gs) (entered gc)
                (entered gsl)) as [db'|e] eqn:E; cbn [fst]; [|reflexivity].
    pose proof (upsert_goals_inv _ _ _ _ _ _ _ E) as [Hn Hs].
    rewrite (upsert_goals_Ok db u _ _ _ _ Hn Hs) in E. injection E as <-.
    unfold rows_of. cbn [users daily goals].
    rewrite lookup_insert_ne by congruence. reflexivity.
Qed.

Lemma insights_isolated_witness :
  bob <> alice
  /\ refresh_insights_db sort_desc
       (fst (add_entry sample_log alice sample_date true Blank Blank Blank
                       Blank)) bob
     = refresh_insights_db sort_desc sample_log bob
  /\ refresh_insights_db sort_desc
       (fst (save_goals sample_log alice Blank Blank Blank Blank)) bob
     = refresh_insights_db sort_desc sample_log bob.
Proof.
  split; [discriminate|].
  apply (insights_isolated sort_desc sample_log alice bob sample_date true).
  discriminate.
Defined.

(** ** The summary of the exported report *)

Lemma avg_real_numeric_avg (xs : list (option float)) :
  avg_real xs = numeric_avg id xs.
Proof.
  unfold avg_real, numeric_avg. rewrite map_id.
  destruct (not_none xs); reflexivity.
Qed.

Lemma in_summary_line (entry_ : float -> summary_entry)
    (avg : option float) (x : summary_entry) :
  In x (summary_line entry_ avg)
  <-> exists a, avg = Some a /\ float_truthy a = true /\ x = entry_ a.
Proof.
  unfold summary_line. destruct avg as [a|].
  - destruct (float_truthy a) eqn:E; cbn [In].
    + split; [intros [<-|[]]; eauto|].
      intros (a' & [= <-] & _ & ->). left. reflexivity.
    + split; [intros []|]. intros (a' & [= <-] & H & _). congruence.
  - split; [intros []|]. intros (a' & [=] & _).
Qed.

(** X22.  On the same rows, the summary of the exported report and the
    insights agree: the number of days, and for sleep, weight and calories
    the same average, shown in one exactly when it is shown in the
    other. *)
Theorem summary_agrees_with_insights (rows : list daily_row)
    (g : option goals_row) (u : option user_row) :
  rows <> [] ->
  (forall k, In (DaysAnalyzed k) (summary rows)
             <-> In (Header k) (refresh_insights rows g u))
  /\ (forall a, In (SummarySleep a) (summary rows)
                <-> In (AvgSleep a) (refresh_insights rows g u))
  /\ (forall a, In (SummaryWeight a) (summary rows)
                <-> In (AvgWeight a) (refresh_insights rows g u))
  /\ (forall a, In (SummaryCalories a) (summary rows)
                <-> In (AvgCalories a) (refresh_insights rows g u)).
Proof.
  intros Hne.
  assert (Hs : forall x,
    In x (summary rows)
    <-> x = DaysAnalyzed (length rows)
        \/ (exists a, numeric_avg id (map sleep_hrs rows) = Some a
                      /\ float_truthy a = true /\ x = SummarySleep a)
        \/ (exists a, numeric_avg id (map weight rows) = Some a
                      /\ float_truthy a = true /\ x = SummaryWeight a)
        \/ (exists a, numeric_avg id (map calories rows) = Some a
                      /\ float_truthy a = true /\ x = SummaryCalories a)
        \/ (exists a, avg_int (map steps rows) = Some a
                      /\ float_truthy a = true /\ x = SummarySteps a)).
  { intros x. unfold summary. rewrite !in_app_iff, !in_summary_line.
    rewrite !avg_real_numeric_avg. cbn [In]. intuition congruence. }
  repeat split.
  - intros [E|[(a & _ & _ & E)|[(a & _ & _ & E)|[(a & _ & _ & E)
                                               |(a & _ & _ & E)]]]]%Hs;
      try discriminate E.
    injection E as ->. apply refresh_insights_produced. constructor.
    exact Hne.
  - intros H%refresh_insights_produced. inversion H. apply Hs. left.
    reflexivity.
  - intros [E|[(a' & Ha & Ht & E)|[(a' & _ & _ & E)|[(a' & _ & _ & E)
                                                    |(a' & _ & _ & E)]]]]%Hs;
      try discriminate E.
    injection E as ->. apply refresh_insights_produced. constructor; auto.
  - intros H%refresh_insights_produced. inversion H. apply Hs.
    right. left. eauto.
  - intros [E|[(a' & _ & _ & E)|[(a' & Ha & Ht & E)|[(a' & _ & _ & E)
                                                    |(a' & _ & _ & E)]]]]%Hs;
      try discriminate E.
    injection E as ->. apply refresh_insights_produced. constructor; auto.
  - intros H%refresh_insights_produced. inversion H. apply Hs.
    right. right. left. eauto.
  - intros [E|[(a' & _ & _ & E)|[(a' & _ & _ & E)|[(a' & Ha & Ht & E)
                                                  |(a' & _ & _ & E)]]]]%Hs;
      try discriminate E.
    injection E as ->. apply refresh_insights_produced. constructor; auto.
  - intros H%refresh_insights_produced. inversion H. apply Hs.
    right. right. right. left. eauto.
Qed.

Lemma summary_agrees_with_insights_witness :
  (forall k, In (DaysAnalyzed k) (summary window3)
             <-> In (Header k) (refresh_insights window3 (Some goals3)
                                  (Some user3)))
  /\ (forall a, In (SummarySleep a) (summary window3)
                <-> In (AvgSleep a) (refresh_insights window3 (Some goals3)
                                       (Some user3)))
  /\ (forall a, In (SummaryWeight a) (summary window3)
                <-> In (AvgWeight a) (refresh_insights window3 (Some goals3)
                                        (Some user3)))
  /\ (forall a, In (SummaryCalories a) (summary window3)
                <-> In (AvgCalories a) (refresh_insights window3 (Some goals3)
                                          (Some user3))).
Proof.
  apply (summary_agrees_with_insights window3 (Some goals3) (Some user3)).
  discriminate.
Defined.

(** ** Invariants of a session *)

Lemma create_account_cases (db : DB) (user password : pystr)
    (su_age : entry Z) (su_height su_weight : entry float)
    (sec_q sec_a : pystr) (salt sa_salt : bytes) :
  let r := _create_account db user password su_age su_height su_weight
                           sec_q sec_a salt sa_salt in
  fst r = db
  \/ (user <> [] /\ users db !! user = None
      /\ exists row,
           fst r = MkDB (<[user := row]> (users db)) (daily db) (goals db)
           /\ hash_password password salt = Ok (password_hash row)
           /\ forall h, security_a_hash row = Some h ->
                        hash_password sec_a sa_salt = Ok h).
Proof.
  intros r.
  destruct (notice_created_dec (snd r)) as [Hc|Hc];
    [|left; apply create_account_unchanged, Hc].
  right.
  pose proof Hc as
    (Hu & Hp & Hn & Hpw & Hsa & Ha & Hh & Hw & Hf & Hq)%create_account_conditions.
  destruct (create_account_ok db user password su_age su_height su_weight
              sec_q sec_a salt sa_salt Hu Hp Hn Hpw Hsa Ha Hh Hw Hf Hq)
    as (ph & sah & Hph & Hsah & E).
  split; [exact Hu|].
  apply get_user_inv in Hn as [_ Hnone]. split; [symmetry; exact Hnone|].
  eexists. subst r. rewrite E. split; [reflexivity|].
  cbn [password_hash security_a_hash]. split; [exact Hph|].
  intros h ->. destruct Hsah as [[_ [=]]|(_ & h' & Hh' & [= ->])].
  exact Hh'.
Qed.

Lemma add_entry_cases (db : DB) (u date_str : pystr) (date_is_iso : bool)
    (es ew ec : entry float) (est : entry Z) :
  let r := add_entry db u date_str date_is_iso es ew ec est in
  fst r = db
  \/ exists row,
       username row = u
       /\ fst r = MkDB (users db) (daily db ++ [row]) (goals db).
Proof.
  intros r. subst r. unfold add_entry.
  destruct date_is_iso; cbn [negb]; [|left; reflexivity].
  set (sl := none_on_error (convert_or_zero (float_of_Z 0) es)).
  set (w := none_on_error (convert_or_zero (float_of_Z 0) ew)).
  set (c := none_on_error (convert_or_zero (float_of_Z 0) ec)).
  set (st := none_on_error (convert_or_zero 0%Z est)).
  destruct (add_daily db u date_str sl w c st None) as [db'|e] eqn:E;
    cbn [fst]; [|left; reflexivity].
  pose proof (add_daily_inv _ _ _ _ _ _ _ _ E) as (Hn & Hd & Hs).
  rewrite (add_daily_Ok db u date_str sl w c st Hn Hd Hs) in E.
  injection E as <-. right. eexists. split; [|reflexivity]. reflexivity.
Qed.

Lemma save_goals_cases (db : DB) (u : pystr) (gw : entry float)
    (gs : entry Z) (gc gsl : entry float) :
  let r := save_goals db u gw gs gc gsl in
  fst r = db
  \/ exists row,
       fst r = MkDB (users db) (daily db) (<[u := row]> (goals db)).
Proof.
  intros r. subst r. unfold save_goals. rewrite !entered_goal.
  destruct (upsert_goals db u (entered gw) (entered gs) (entered gc)
              (entered gsl)) as [db'|e] eqn:E; cbn [fst];
    [|left; reflexivity].
  pose proof (upsert_goals_inv _ _ _ _ _ _ _ E) as [Hn Hs].
  rewrite (upsert_goals_Ok db u _ _ _ _ Hn Hs) in E. injection E as <-.
  right. eexists. reflexivity.
Qed.

Lemma login_Some (db : DB) (user password u : pystr) :
  fst (login db user password) = Some u -> is_Some (users db !! u).
Proof.
  unfold login. destruct (get_user db user) as [[row|]|e] eqn:E;
    [|intros [=]..].
  apply get_user_inv in E as [_ Hrow].
  destruct (verify_password (Some (password_hash row)) password)
    as [[|]|e]; cbn [fst]; intros [= <-]. rewrite <- Hrow. eauto.
Qed.

Lemma alter_is_Some {A} (f : A -> A) (m : gmap pystr A) (i j : pystr) :
  is_Some (alter f i m !! j) <-> is_Some (m !! j).
Proof.
  destruct (decide (i = j)) as [->|Hne].
  - rewrite lookup_alter_eq. apply fmap_is_Some.
  - rewrite lookup_alter_ne by exact Hne. reflexivity.
Qed.

Lemma insert_is_Some {A} (x : A) (m : gmap pystr A) (i j : pystr) :
  is_Some (m !! j) -> is_Some (<[i := x]> m !! j).
Proof.
  intros H. destruct (decide (i = j)) as [->|Hne].
  - rewrite lookup_insert_eq. eauto.
  - rewrite lookup_insert_ne by exact Hne. exact H.
Qed.

Lemma insert_is_Some_inv {A} (x : A) (m : gmap pystr A) (i j : pystr) :
  is_Some (<[i := x]> m !! j) -> j = i \/ is_Some (m !! j).
Proof.
  destruct (decide (i = j)) as [->|Hne]; [auto|].
  rewrite lookup_insert_ne by exact Hne. auto.
Qed.

Lemma handle_consistent (a : session) (e : event) :
  consistent a -> consistent (handle a e).
Proof.
  intros [Hd Hg Hs Hn]. destruct a as [db [u|]]; cbn [store current_user] in *.
  - (* logged in *)
    destruct e as [user password su_age su_height su_weight sec_q sec_a
                     salt sa_salt
                  |user_dialog answer_dialog newpw_dialog salt
                  |user password
                  |
                  |date_str date_is_iso entry_sleep entry_weight entry_cal
                     entry_steps
                  |goal_weight goal_steps goal_cal goal_sleep];
      cbn [handle current_user store].
    + constructor; assumption.
    + constructor; assumption.
    + constructor; assumption.
    + constructor; cbn [store current_user]; auto. intros u' [=].
    + destruct (add_entry_cases db u date_str date_is_iso entry_sleep
                  entry_weight entry_cal entry_steps)
        as [->|(row & Hrow & ->)]; [constructor; assumption|].
      constructor; cbn [store current_user users daily goals]; auto.
      intros r [Hr|[<-|[]]]%in_app_or; [auto|]. rewrite Hrow. auto.
    + destruct (save_goals_cases db u goal_weight goal_steps goal_cal
                  goal_sleep) as [->|(row & ->)]; [constructor; assumption|].
      constructor; cbn [store current_user users daily goals]; auto.
      intros v [->|Hv]%insert_is_Some_inv; auto.
  - (* logged out *)
    destruct e as [user password su_age su_height su_weight sec_q sec_a
                     salt sa_salt
                  |user_dialog answer_dialog newpw_dialog salt
                  |user password
                  |
                  |date_str date_is_iso entry_sleep entry_weight entry_cal
                     entry_steps
                  |goal_weight goal_steps goal_cal goal_sleep];
      cbn [handle current_user store].
    + destruct (create_account_cases db user password su_age su_height
                  su_weight sec_q sec_a salt sa_salt)
        as [->|(Hu & Hnone & row & -> & _)];
        [constructor; assumption|].
      constructor; cbn [store current_user users daily goals].
      * intros r Hr. apply insert_is_Some. auto.
      * intros v Hv. apply insert_is_Some. auto.
      * intros v [=].
      * rewrite lookup_insert_ne by exact Hu. exact Hn.
    + destruct (forgot_password_cases db user_dialog answer_dialog
                  newpw_dialog salt)
        as [[-> _]|(name & answer & newpw & ph & user & _ & _ & _ & _ & _
                    & _ & _ & _ & _ & _ & _ & ->)];
        [constructor; assumption|].
      constructor; cbn [fst store current_user users daily goals].
      * intros r Hr. apply alter_is_Some. auto.
      * intros v Hv. apply alter_is_Some. auto.
      * intros v [=].
      * apply eq_None_not_Some. rewrite alter_is_Some.
        apply eq_None_not_Some. exact Hn.
    + constructor; cbn [store current_user]; auto.
      intros v Hv. eapply login_Some, Hv.
    + constructor; assumption.
    + constructor; assumption.
    + constructor; assumption.
Qed.

(** X23.  Referential integrity is kept by the application, not by the
    schema: if every row of [daily] and of [goals] belongs to an existing
    user, the logged-in user exists and no username is empty, then the
    same holds after any sequence of callbacks. *)
Theorem run_consistent (a : session) (events : list event) :
  consistent a -> consistent (run a events).
Proof.
  revert a. induction events as [|e events IH]; intros a Ha; [exact Ha|].
  apply IH, handle_consistent, Ha.
Qed.

Lemma initial_consistent : consistent initial.
Proof.
  constructor; cbn [initial store current_user empty_db users daily goals].
  - intros r [].
  - intros u [x Hx]. rewrite lookup_empty in Hx. discriminate Hx.
  - intros u [=].
  - apply lookup_empty.
Qed.

Lemma run_consistent_witness :
  consistent
    (run initial
       [Signup alice alice Blank Blank Blank [] [] sample_salt sample_salt;
        Login alice alice;
        AddEntry sample_date true Blank Blank Blank Blank;
        SaveGoals Blank (Converts 10000%Z) Blank Blank;
        Logout]).
Proof. apply (run_consistent initial), initial_consistent. Defined.

Lemma same_but_password_refl (r : user_row) : same_but_password r r.
Proof. repeat split. Qed.

Lemma same_but_password_trans (r1 r2 r3 : user_row) :
  same_but_password r1 r2 -> same_but_password r2 r3 ->
  same_but_password r1 r3.
Proof.
  unfold same_but_password. intros (-> & -> & -> & -> & ->) H. exact H.
Qed.

Lemma grows_refl (db : DB) : grows db db.
Proof.
  split; [reflexivity|]. split; [|auto].
  intros u row H. exists row. split; [exact H|apply same_but_password_refl].
Qed.

Lemma grows_trans (db1 db2 db3 : DB) :
  grows db1 db2 -> grows db2 db3 -> grows db1 db3.
Proof.
  intros (Hd & Hu & Hg) (Hd' & Hu' & Hg'). split; [|split].
  - etransitivity; eassumption.
  - intros u row (row' & H' & Hs)%Hu.
    apply Hu' in H' as (row'' & H'' & Hs'). exists row''.
    split; [exact H''|]. eapply same_but_password_trans; eassumption.
  - auto.
Qed.

Lemma handle_grows (a : session) (e : event) :
  grows (store a) (store (handle a e)).
Proof.
  destruct a as [db [u|]];
    destruct e as [user password su_age su_height su_weight sec_q sec_a
                     salt sa_salt
                  |user_dialog answer_dialog newpw_dialog salt
                  |user password
                  |
                  |date_str date_is_iso entry_sleep entry_weight entry_cal
                     entry_steps
                  |goal_weight goal_steps goal_cal goal_sleep];
    cbn [handle store current_user]; try apply grows_refl.
  - destruct (add_entry_cases db u date_str date_is_iso entry_sleep
                entry_weight entry_cal entry_steps)
      as [->|(row & Hrow & ->)]; [apply grows_refl|].
    split; [|split].
    + cbn [daily]. apply prefix_app_r. reflexivity.
    + intros v r H. exists r. split; [exact H|].
      apply same_but_password_refl.
    + auto.
  - destruct (save_goals_cases db u goal_weight goal_steps goal_cal
                goal_sleep) as [->|(row & ->)]; [apply grows_refl|].
    split; [reflexivity|]. split.
    + intros v r H. exists r. split; [exact H|apply same_but_password_refl].
    + intros v Hv. cbn [goals]. apply insert_is_Some, Hv.
  - destruct (create_account_cases db user password su_age su_height
                su_weight sec_q sec_a salt sa_salt)
      as [->|(Hu & Hnone & row & -> & _)]; [apply grows_refl|].
    split; [reflexivity|]. split; [|auto].
    intros v r Hv. exists r. cbn [users].
    split; [|apply same_but_password_refl].
    rewrite lookup_insert_ne; [exact Hv|]. intros <-. congruence.
  - destruct (forgot_password_cases db user_dialog answer_dialog
                newpw_dialog salt)
      as [[-> _]|(name & answer & newpw & ph & user & _ & _ & _ & _ & _
                  & _ & _ & _ & _ & _ & _ & ->)]; [apply grows_refl|].
    cbn [fst]. split; [reflexivity|]. split; [|auto].
    intros v r Hv. cbn [users].
    destruct (decide (name = v)) as [->|Hne].
    + rewrite lookup_alter_eq, Hv. eexists. split; [reflexivity|].
      repeat split.
    + rewrite lookup_alter_ne by exact Hne. exists r.
      split; [exact Hv|apply same_but_password_refl].
Qed.

Lemma run_grows_step (a : session) (events : list event) :
  grows (store a) (store (run a events)).
Proof.
  revert a. induction events as [|e events IH]; intros a;
    [apply grows_refl|].
  eapply grows_trans; [apply handle_grows|apply IH].
Qed.

Lemma body_lines_same (r r' : user_row) :
  same_but_password r r' -> body_lines (Some r') = body_lines (Some r).
Proof.
  intros (Ha & Hh & Hw & _). unfold body_lines. rewrite Ha, Hh, Hw.
  reflexivity.
Qed.

(** X24.  No sequence of callbacks deletes anything: the rows of [daily]
    stay, in order, at the front of the table; every user and every goals
    row stays; a user's age, height, weight, security question and answer
    hash never change, so the BMI and BMR lines of an account are fixed at
    signup. *)
Theorem run_keeps_accounts (a : session) (events : list event) :
  grows (store a) (store (run a events))
  /\ forall u,
       is_Some (users (store a) !! u) ->
       body_lines (users (store (run a events)) !! u)
       = body_lines (users (store a) !! u).
Proof.
  pose proof (run_grows_step a events) as Hg. split; [exact Hg|].
  destruct Hg as (_ & Hu & _). intros u [row Hrow].
  destruct (Hu u row Hrow) as (row' & Hrow' & Hs).
  rewrite Hrow, Hrow'. apply body_lines_same, Hs.
Qed.

(** X25.  A callback run while [u] is logged in leaves [users] as it is
    and touches no other user's entries or goals; a callback run while
    nobody is logged in leaves [daily] and [goals] as they are. *)
Theorem handle_isolated (a : session) (e : event) :
  (forall u, current_user a = Some u ->
     users (store (handle a e)) = users (store a)
     /\ forall v, v <> u ->
          rows_of (store (handle a e)) v = rows_of (store a) v
          /\ goals (store (handle a e)) !! v = goals (store a) !! v)
  /\ (current_user a = None ->
      daily (store (handle a e)) = daily (store a)
      /\ goals (store (handle a e)) = goals (store a)).
Proof.
  destruct a as [db [u|]]; cbn [current_user store]; split;
    [|intros [=]|intros u' [=]|].
  - intros u' [= <-].
    destruct e as [user password su_age su_height su_weight sec_q sec_a
                     salt sa_salt
                  |user_dialog answer_dialog newpw_dialog salt
                  |user password
                  |
                  |date_str date_is_iso entry_sleep entry_weight entry_cal
                     entry_steps
                  |goal_weight goal_steps goal_cal goal_sleep];
      cbn [handle store current_user]; try (split; [reflexivity|auto]).
    + destruct (add_entry_cases db u date_str date_is_iso entry_sleep
                  entry_weight entry_cal entry_steps)
        as [->|(row & Hrow & ->)]; [split; [reflexivity|auto]|].
      cbn [users goals]. split; [reflexivity|]. intros v Hv.
      unfold rows_of at 1. cbn [daily]. rewrite rows_of_app.
      rewrite decide_False, app_nil_r by congruence. split; reflexivity.
    + destruct (save_goals_cases db u goal_weight goal_steps goal_cal
                  goal_sleep) as [->|(row & ->)];
        [split; [reflexivity|auto]|].
      cbn [users goals]. split; [reflexivity|]. intros v Hv.
      split; [reflexivity|]. apply lookup_insert_ne. congruence.
  - intros _.
    destruct e as [user password su_age su_height su_weight sec_q sec_a
                     salt sa_salt
                  |user_dialog answer_dialog newpw_dialog salt
                  |user password
                  |
                  |date_str date_is_iso entry_sleep entry_weight entry_cal
                     entry_steps
                  |goal_weight goal_steps goal_cal goal_sleep];
      cbn [handle store current_user]; try (split; reflexivity).
    + destruct (create_account_cases db user password su_age su_height
                  su_weight sec_q sec_a salt sa_salt)
        as [->|(_ & _ & row & -> & _)]; split; reflexivity.
    + destruct (forgot_password_cases db user_dialog answer_dialog
                  newpw_dialog salt)
        as [[-> _]|(name & answer & newpw & ph & user & _ & _ & _ & _ & _
                    & _ & _ & _ & _ & _ & _ & ->)]; split; reflexivity.
Qed.

Lemma hash_password_well_formed (password : pystr) (salt : bytes)
    (h : pystr) :
  length salt = SALT_BYTES ->
  hash_password password salt = Ok h ->
  well_formed_hash h.
Proof.
  intros Hlen (pw & _ & ->)%hash_password_inv.
  exists (salt ++ pbkdf2_hmac pw salt HASH_ITERS). split.
  - rewrite encode_decode_ascii by apply b64encode_ascii.
    apply b64decode_b64encode.
  - rewrite length_app, pbkdf2_hmac_length, Hlen. reflexivity.
Qed.

Lemma handle_hashes_well_formed (a : session) (e : event) :
  hashes_well_formed (store a) -> salted e = true ->
  hashes_well_formed (store (handle a e)).
Proof.
  intros Hw Hs.
  destruct a as [db [u|]]; cbn [store] in Hw;
    destruct e as [user password su_age su_height su_weight sec_q sec_a
                     salt sa_salt
                  |user_dialog answer_dialog newpw_dialog salt
                  |user password
                  |
                  |date_str date_is_iso entry_sleep entry_weight entry_cal
                     entry_steps
                  |goal_weight goal_steps goal_cal goal_sleep];
    cbn [handle store current_user].
  - exact Hw.
  - exact Hw.
  - exact Hw.
  - exact Hw.
  - destruct (add_entry_cases db u date_str date_is_iso entry_sleep
                entry_weight entry_cal entry_steps)
      as [->|(row & Hrow & ->)]; exact Hw.
  - destruct (save_goals_cases db u goal_weight goal_steps goal_cal
                goal_sleep) as [->|(row & ->)]; exact Hw.
  - cbn [salted] in Hs. apply andb_true_iff in Hs as [H1 H2].
    apply Nat.eqb_eq in H1, H2.
    destruct (create_account_cases db user password su_age su_height
                su_weight sec_q sec_a salt sa_salt)
      as [->|(Hu & Hnone & row & -> & Hph & Hsa)]; [exact Hw|].
    intros v r. cbn [users].
    destruct (decide (user = v)) as [->|Hne].
    + rewrite lookup_insert_eq. intros [= <-]. split.
      * exact (hash_password_well_formed password salt _ H1 Hph).
      * intros h Hh.
        exact (hash_password_well_formed sec_a sa_salt h H2 (Hsa h Hh)).
    + rewrite lookup_insert_ne by exact Hne. apply Hw.
  - cbn [salted] in Hs. apply Nat.eqb_eq in Hs.
    destruct (forgot_password_cases db user_dialog answer_dialog
                newpw_dialog salt)
      as [[-> _]|(name & answer & newpw & ph & user & _ & _ & _ & _ & _
                  & _ & _ & Hrow & _ & _ & Hph & ->)]; [exact Hw|].
    cbn [fst]. intros v r. cbn [users].
    destruct (decide (name = v)) as [->|Hne].
    + rewrite lookup_alter_eq, Hrow.
      cbn [fmap option_fmap option_map]. intros [= <-].
      cbn [password_hash security_a_hash]. split.
      * exact (hash_password_well_formed newpw salt ph Hs Hph).
      * apply (Hw v user Hrow).
    + rewrite lookup_alter_ne by exact Hne. apply Hw.
  - exact Hw.
  - exact Hw.
  - exact Hw.
  - exact Hw.
Qed.

(** X26.  If the stored hashes are well formed and [make_salt] returns
    [SALT_BYTES] bytes each time, the stored hashes are well formed after
    any sequence of callbacks. *)
Theorem run_hashes_well_formed (a : session) (events : list event) :
  hashes_well_formed (store a) ->
  forallb salted events = true ->
  hashes_well_formed (store (run a events)).
Proof.
  revert a. induction events as [|e events IH]; intros a Ha Hs; [exact Ha|].
  cbn [forallb] in Hs. apply andb_true_iff in Hs as [He Hs].
  apply IH; [|exact Hs]. apply handle_hashes_well_formed; assumption.
Qed.

Lemma initial_hashes_well_formed : hashes_well_formed (store initial).
Proof.
  intros u row H. cbn [initial store empty_db users] in H.
  rewrite lookup_empty in H. discriminate H.
Qed.

Lemma run_hashes_well_formed_witness :
  forallb salted
    [Signup alice alice Blank Blank Blank bob bob sample_salt sample_salt;
     ForgotPassword (Some alice) (Some bob) (Some bob) sample_salt;
     Login alice bob] = true
  /\ hashes_well_formed
       (store
          (run initial
             [Signup alice alice Blank Blank Blank bob bob sample_salt
                     sample_salt;
              ForgotPassword (Some alice) (Some bob) (Some bob) sample_salt;
              Login alice bob])).
Proof.
  split; [reflexivity|].
  apply (run_hashes_well_formed initial);
    [apply initial_hashes_well_formed|reflexivity].
Defined.

(** ** The calorie tracker of [fitness_trial.py] *)

Lemma tracker_lists (actions : list Trial.action)
    (st : Trial.FitnessTracker * list exn) :
  let r := fold_left Trial.step actions st in
  Trial.food_items (fst r) = Trial.food_items (fst st) ++ Trial.foods actions
  /\ Trial.workouts (fst r) = Trial.workouts (fst st) ++ Trial.burns actions.
Proof.
  revert st. induction actions as [|a actions IH]; intros st.
  - cbn. rewrite !app_nil_r. split; reflexivity.
  - cbn [fold_left]. destruct (IH (Trial.step st a)) as [H1 H2].
    cbn zeta. rewrite H1, H2. clear IH H1 H2.
    unfold Trial.step.
    destruct a as [f|w]; cbn [Trial.act].
    + unfold Trial.add_food_item.
      destruct (let* calories := Trial.food_calories f in
                Trial.plus (Trial.calories_consumed (fst st)) calories);
        cbn [fst Trial.food_items Trial.workouts Trial.foods Trial.burns
             omap list_omap]; rewrite <- app_assoc; split; reflexivity.
    + unfold Trial.add_workout.
      destruct (Trial.plus (Trial.calories_burned (fst st))
                  (Trial.workout_calories w));
        cbn [fst Trial.food_items Trial.workouts Trial.foods Trial.burns
             omap list_omap]; rewrite <- app_assoc; split; reflexivity.
Qed.

Lemma plus_float_ready (v : Trial.number) (x : float) :
  Trial.float_ready v ->
  Trial.plus v (Trial.Float x)
  = Ok (Trial.Float (Trial.float_value v + x)%float).
Proof. destruct v as [n|y]; [intros ->|intros _]; reflexivity. Qed.

Lemma add_floats_cons (v : Trial.number) (x : float) (xs : list float) :
  Trial.add_floats v (x :: xs)
  = Trial.add_floats (Trial.Float (Trial.float_value v + x)%float) xs.
Proof. destruct xs; reflexivity. Qed.

Lemma food_calories_float (f : Trial.FoodItem) :
  Trial.float_action (Trial.AddFood f) = true ->
  Trial.food_calories f = Ok (Trial.Float (Trial.float_calories f)).
Proof.
  destruct f as [n [p|p] [c|c] [ft|ft] fb]; cbn; try discriminate.
  reflexivity.
Qed.

Lemma step_food (t : Trial.FitnessTracker) (raised : list exn)
    (f : Trial.FoodItem) (calories total : Trial.number) :
  Trial.food_calories f = Ok calories ->
  Trial.plus (Trial.calories_consumed t) calories = Ok total ->
  Trial.step (t, raised) (Trial.AddFood f)
  = (Trial.MkTracker (Trial.food_items t ++ [f]) (Trial.workouts t) total
       (Trial.calories_burned t), raised).
Proof.
  intros Hf Hp. unfold Trial.step. cbn [Trial.act fst snd].
  unfold Trial.add_food_item. rewrite Hf. cbn [bind]. rewrite Hp.
  rewrite app_nil_r. reflexivity.
Qed.

Lemma step_workout (t : Trial.FitnessTracker) (raised : list exn)
    (w : Trial.Workout) (total : Trial.number) :
  Trial.plus (Trial.calories_burned t) (Trial.workout_calories w)
  = Ok total ->
  Trial.step (t, raised) (Trial.AddWorkout w)
  = (Trial.MkTracker (Trial.food_items t) (Trial.workouts t ++ [w])
       (Trial.calories_consumed t) total, raised).
Proof.
  intros Hp. unfold Trial.step. cbn [Trial.act fst snd].
  unfold Trial.add_workout. rewrite Hp. rewrite app_nil_r. reflexivity.
Qed.

Lemma tracker_floats (actions : list Trial.action) :
  forallb Trial.float_action actions = true ->
  forall (t : Trial.FitnessTracker) (raised : list exn),
    Trial.float_ready (Trial.calories_consumed t) ->
    Trial.float_ready (Trial.calories_burned t) ->
    let r := fold_left Trial.step actions (t, raised) in
    snd r = raised
    /\ Trial.calories_consumed (fst r)
       = Trial.add_floats (Trial.calories_consumed t)
           (map Trial.float_calories (Trial.foods actions))
    /\ Trial.calories_burned (fst r)
       = Trial.add_floats (Trial.calories_burned t)
           (map (fun w => Trial.float_value (Trial.workout_calories w))
              (Trial.burns actions)).
Proof.
  induction actions as [|a actions IH]; intros Hall t raised Hc Hb.
  - cbn. repeat split.
  - cbn [forallb] in Hall. apply andb_true_iff in Hall as [Ha Hall].
    cbn [fold_left]. destruct a as [f|w].
    + rewrite (step_food t raised f _ _ (food_calories_float f Ha)
                 (plus_float_ready _ _ Hc)).
      match goal with
      | |- context [fold_left Trial.step actions (?t', raised)] =>
          destruct (IH Hall t' raised I Hb) as (H1 & H2 & H3)
      end.
      cbn zeta in *. rewrite H1, H2, H3.
      cbn [Trial.calories_consumed Trial.calories_burned Trial.foods
           Trial.burns omap list_omap map].
      rewrite add_floats_cons. repeat split.
    + destruct (Trial.workout_calories w) as [n|x] eqn:E;
        [cbn in Ha; rewrite E in Ha; discriminate Ha|].
      assert (Hp : Trial.plus (Trial.calories_burned t)
                     (Trial.workout_calories w)
                   = Ok (Trial.Float
                           (Trial.float_value (Trial.calories_burned t)
                            + x)%float)).
      { rewrite E. apply plus_float_ready, Hb. }
      rewrite (step_workout t raised w _ Hp).
      match goal with
      | |- context [fold_left Trial.step actions (?t', raised)] =>
          destruct (IH Hall t' raised Hc I) as (H1 & H2 & H3)
      end.
      cbn zeta in *. rewrite H1, H2, H3.
      cbn [Trial.calories_consumed Trial.calories_burned Trial.foods
           Trial.burns omap list_omap map].
      rewrite add_floats_cons, E. repeat split.
Qed.

Lemma food_calories_int (f : Trial.FoodItem) :
  Trial.int_action (Trial.AddFood f) = true ->
  Trial.food_calories f = Ok (Trial.Int (Trial.int_calories f)).
Proof.
  destruct f as [n [p|p] [c|c] [ft|ft] fb]; cbn; try discriminate.
  reflexivity.
Qed.

Lemma tracker_ints (actions : list Trial.action) :
  forallb Trial.int_action actions = true ->
  forall (t : Trial.FitnessTracker) (raised : list exn) (c b : Z),
    Trial.calories_consumed t = Trial.Int c ->
    Trial.calories_burned t = Trial.Int b ->
    let r := fold_left Trial.step actions (t, raised) in
    snd r = raised
    /\ Trial.calories_consumed (fst r)
       = Trial.Int (fold_left Z.add
                      (map Trial.int_calories (Trial.foods actions)) c)
    /\ Trial.calories_burned (fst r)
       = Trial.Int (fold_left Z.add
                      (map (fun w => Trial.int_value
                                       (Trial.workout_calories w))
                         (Trial.burns actions)) b).
Proof.
  induction actions as [|a actions IH]; intros Hall t raised c b Hc Hb.
  - cbn. repeat split; assumption.
  - cbn [forallb] in Hall. apply andb_true_iff in Hall as [Ha Hall].
    cbn [fold_left]. destruct a as [f|w].
    + assert (Hp : Trial.plus (Trial.calories_consumed t)
                     (Trial.Int (Trial.int_calories f))
                   = Ok (Trial.Int (c + Trial.int_calories f))).
      { rewrite Hc. reflexivity. }
      rewrite (step_food t raised f _ _ (food_calories_int f Ha) Hp).
      match goal with
      | |- context [fold_left Trial.step actions (?t', raised)] =>
          destruct (IH Hall t' raised (c + Trial.int_calories f)%Z b
                      eq_refl Hb) as (H1 & H2 & H3)
      end.
      cbn zeta in *. rewrite H1, H2, H3. repeat split.
    + destruct (Trial.workout_calories w) as [n|x] eqn:E;
        [|cbn in Ha; rewrite E in Ha; discriminate Ha].
      assert (Hp : Trial.plus (Trial.calories_burned t)
                     (Trial.workout_calories w)
                   = Ok (Trial.Int (b + n))).
      { rewrite E, Hb. reflexivity. }
      rewrite (step_workout t raised w _ Hp).
      match goal with
      | |- context [fold_left Trial.step actions (?t', raised)] =>
          destruct (IH Hall t' raised c (b + n)%Z Hc eq_refl)
            as (H1 & H2 & H3)
      end.
      cbn zeta in *. rewrite H1, H2, H3.
      cbn [Trial.burns omap list_omap map]. rewrite E. repeat split.
Qed.

(** X27.  Whatever foods and workouts are added to a new tracker, and in
    whatever order, the tracker lists the foods and the workouts in the
    order they were added, also those whose addition raised.  When every
    number given is a float, as in the two windows, which pass each field
    through [float], no call raises and the two running totals are the
    int [0] while nothing was added and otherwise the binary64 sums, taken
    in that order from [0.0], of [protein*4 + carbohydrates*4 + fats*9]
    over the listed foods and of the calories of the listed workouts.
    When every number given is an int, no call raises and the totals are
    the exact integer sums: [2**53] and [1] give [2**53 + 1], where the
    floats give [2.0**53].  An int beyond the range of a float added to a
    float total raises [OverflowError]: the workout is listed and the
    total is unchanged. *)
Theorem tracker_totals (actions : list Trial.action) :
  let r := Trial.calls actions Trial.new_tracker in
  let t := fst r in
  Trial.food_items t = Trial.foods actions
  /\ Trial.workouts t = Trial.burns actions
  /\ (forallb Trial.float_action actions = true ->
      snd r = []
      /\ Trial.calories_consumed t
         = Trial.float_total
             (map Trial.float_calories (Trial.food_items t))
      /\ Trial.calories_burned t
         = Trial.float_total
             (map (fun w => Trial.float_value (Trial.workout_calories w))
                (Trial.workouts t)))
  /\ (forallb Trial.int_action actions = true ->
      snd r = []
      /\ Trial.calories_consumed t
         = Trial.Int
             (fold_left Z.add
                (map Trial.int_calories (Trial.food_items t)) 0%Z)
      /\ Trial.calories_burned t
         = Trial.Int
             (fold_left Z.add
                (map (fun w => Trial.int_value (Trial.workout_calories w))
                   (Trial.workouts t)) 0%Z))
  /\ (let food :=
        Trial.MkFoodItem alice (Trial.Float 10) (Trial.Float 20)
          (Trial.Float 5) (Trial.Float 3) in
      let run := Trial.MkWorkout alice (Trial.Float 300) in
      Trial.calls [Trial.AddFood food; Trial.AddWorkout run]
        Trial.new_tracker
      = (Trial.MkTracker [food] [run] (Trial.Float 165) (Trial.Float 300),
         []))
  /\ (let big := Trial.MkWorkout alice (Trial.Int (2 ^ 53)) in
      let one := Trial.MkWorkout alice (Trial.Int 1) in
      Trial.calls [Trial.AddWorkout big; Trial.AddWorkout one]
        Trial.new_tracker
      = (Trial.MkTracker [] [big; one] (Trial.Int 0)
           (Trial.Int 9007199254740993), []))
  /\ (let big := Trial.MkWorkout alice (Trial.Float 9007199254740992) in
      let one := Trial.MkWorkout alice (Trial.Float 1) in
      Trial.calls [Trial.AddWorkout big; Trial.AddWorkout one]
        Trial.new_tracker
      = (Trial.MkTracker [] [big; one] (Trial.Int 0)
           (Trial.Float 9007199254740992), []))
  /\ (let walk := Trial.MkWorkout alice (Trial.Float 1.5) in
      let huge := Trial.MkWorkout alice (Trial.Int (2 ^ 1024)) in
      Trial.calls [Trial.AddWorkout walk; Trial.AddWorkout huge]
        Trial.new_tracker
      = (Trial.MkTracker [] [walk; huge] (Trial.Int 0) (Trial.Float 1.5),
         [OverflowError])).
Proof.
  cbn zeta.
  destruct (tracker_lists actions (Trial.new_tracker, [])) as [H1 H2].
  cbn [fst Trial.new_tracker Trial.food_items Trial.workouts app] in H1, H2.
  unfold Trial.calls. rewrite H1, H2.
  split; [reflexivity|]. split; [reflexivity|]. split; [|split].
  - intros Hall.
    destruct (tracker_floats actions Hall Trial.new_tracker [] eq_refl
                eq_refl) as (E1 & E2 & E3).
    cbn zeta in E1, E2, E3. rewrite E1, E2, E3.
    split; [reflexivity|].
    split.
    + destruct (map Trial.float_calories (Trial.foods actions));
        reflexivity.
    + destruct (map _ (Trial.burns actions)); reflexivity.
  - intros Hall.
    destruct (tracker_ints actions Hall Trial.new_tracker [] 0%Z 0%Z
                eq_refl eq_refl) as (E1 & E2 & E3).
    cbn zeta in E1, E2, E3. rewrite E1, E2, E3. repeat split.
  - repeat split; vm_compute; reflexivity.
Qed.

